(** * urbanHeat_tools.py: the glue logic of the urban-heat raster pipeline

    The script lists files, derives names by splitting strings, and hands
    every raster or vector operation to the [arcpy] toolbox.  The embedding
    below keeps that shape: Python's string primitives are functions on
    [string], the operating system and the toolbox are an environment that
    answers each call, and a run is a state transformer over a world that
    records the directory tree the script can observe and the sequence of
    calls and printed lines it produced. *)

From Stdlib Require Import ZArith Ascii List Lia DecimalString.
From stdpp Require Import base strings gmap list.

Local Open Scope Z_scope.

(** ** Python values the script computes with *)

Inductive Exn :=
| IndexError
| TypeError
| ValueError
| FileExistsError
| EnvError (what : string).

(** What evaluating an expression or running a statement yields: a value, or
    an exception on its way up the stack. *)
Inductive outcome (A : Type) :=
| Ok (a : A)
| Raised (e : Exn).
Arguments Ok {A} a.
Arguments Raised {A} e.

Module Py.

(** [s.split(sep)] for a one-character separator: never the empty list,
    adjacent separators give empty tokens. *)
Fixpoint split (sep : ascii) (s : string) : list string :=
  match s with
  | EmptyString => [EmptyString]
  | String a s' =>
      if Ascii.eqb a sep then EmptyString :: split sep s'
      else match split sep s' with
           | [] => [String a EmptyString]
           | t :: ts => String a t :: ts
           end
  end.

(** [l[i]]: a negative index counts from the end, anything out of range
    raises IndexError. *)
Definition index {A} (l : list A) (i : Z) : outcome A :=
  let j := if i <? 0 then i + Z.of_nat (length l) else i in
  if j <? 0 then Raised IndexError
  else match l !! Z.to_nat j with
       | Some x => Ok x
       | None => Raised IndexError
       end.

(** [s.startswith(p)] *)
Definition startswith (s p : string) : bool := String.prefix p s.

(** [str(n)] and [f"{n}"] for an int. *)
Definition str (n : Z) : string := NilZero.string_of_int (Z.to_int n).

(** [s.rfind(c)]: the highest index of [c], or -1. *)
Fixpoint rfind_from (c : ascii) (s : string) (i : Z) : Z :=
  match s with
  | EmptyString => -1
  | String a s' =>
      let r := rfind_from c s' (i + 1) in
      if 0 <=? r then r else if Ascii.eqb a c then i else -1
  end.

Definition rfind (c : ascii) (s : string) : Z := rfind_from c s 0.

(** [s[i:j]] for [0 <= i <= j]. *)
Definition slice (s : string) (i j : Z) : string :=
  String.substring (Z.to_nat i) (Z.to_nat (j - i)) s.

Definition strlen (s : string) : Z := Z.of_nat (String.length s).

Fixpoint all_dots (s : string) : bool :=
  match s with
  | EmptyString => true
  | String a s' => Ascii.eqb a "." && all_dots s'
  end.

End Py.

(** ** The path module

    [os.path] is ntpath on Windows and posixpath elsewhere.  The script uses
    [join] and [splitext]; [splitext] is genericpath's for both, given the
    separators.  The builtin [int] applied to a string is taken from the
    runtime as well. *)
Class Runtime := {
  sep : ascii;
  altsep : option ascii;
  path_join : string -> string -> string;
  int_of_str : string -> outcome Z
}.

Section Splitext.
Context `{Runtime}.

(** genericpath._splitext: the extension starts at the last dot of the
    last path component, unless that component has only dots before it. *)
Definition splitext (p : string) : string * string :=
  let sepIndex :=
    match altsep with
    | Some a => Z.max (Py.rfind sep p) (Py.rfind a p)
    | None => Py.rfind sep p
    end in
  let dotIndex := Py.rfind "." p in
  if (sepIndex <? dotIndex)
     && negb (Py.all_dots (Py.slice p (sepIndex + 1) dotIndex))
  then (Py.slice p 0 dotIndex, Py.slice p dotIndex (Py.strlen p))
  else (p, EmptyString).
End Splitext.

(** posixpath: one separator, and [join] restarts at an absolute component. *)
Definition posix_join (a b : string) : string :=
  if Py.startswith b "/" then b
  else if String.eqb a "" || Py.startswith (String.rev a) "/" then a +:+ b
  else a +:+ "/" +:+ b.

Fixpoint digits_value (s : string) (acc : Z) : option Z :=
  match s with
  | EmptyString => Some acc
  | String a s' =>
      let d := Z.of_nat (nat_of_ascii a) - 48 in
      if (0 <=? d) && (d <=? 9) then digits_value s' (10 * acc + d) else None
  end.

(** [int] on a decimal literal with an optional sign; padding and digit
    grouping, which the builtin also accepts, are left out of this instance. *)
Definition int_decimal (s : string) : outcome Z :=
  let parse body :=
    match body with
    | EmptyString => None
    | _ => digits_value body 0
    end in
  match s with
  | String "-" body =>
      match parse body with Some n => Ok (- n) | None => Raised ValueError end
  | String "+" body =>
      match parse body with Some n => Ok n | None => Raised ValueError end
  | _ => match parse s with Some n => Ok n | None => Raised ValueError end
  end.

Definition posix : Runtime :=
  {| sep := "/"; altsep := None; path_join := posix_join;
     int_of_str := int_decimal |}.

(** ** The world a run acts on *)

(** circular neighbourhood of [arcpy.sa.NbrCircle(radius, units)] *)
Inductive Neighborhood := NbrCircle (radius : Z) (units : string).

(** Calls that leave the script: [os] calls that touch the disk, and toolbox
    calls.  Arguments are the values the script passes, keyword by keyword.
    A [Result] object of the toolbox is represented by its output 0, a
    raster object by the handle the toolbox returned. *)
Inductive Call :=
| os_listdir (path : string)
| os_makedirs (path : string)
| os_rename (src dst : string)
| ListRasters
| Resample_management (in_raster out_raster cell_size resampling_type : string)
| FocalStatistics (in_raster : string) (neighborhood : Neighborhood)
                  (statistics_type : string)
| Raster_save (raster : nat) (path : string)
| GetRasterProperties_management (in_raster property_type : string)
| CreateFishnet (out_feature_class origin_coord y_axis_coord : string)
                (cell_width cell_height : Z) (number_rows number_columns : string)
                (labels geometry_type : string)
| CopyFeatures (in_features out_feature_class : string)
| ExtractMultiValuesToPoints (in_point_features : string)
                             (in_rasters : list (string * string))
                             (bilinear_interpolate_values : string).

(** What a call hands back.  [ListRasters] answers None for a workspace it
    cannot read. *)
Inductive Value :=
| VNone
| VNames (names : option (list string))
| VResult (output0 : string)
| VRaster (handle : nat).

(** A printed line: the text of an f-string, or the list that was printed. *)
Inductive Line :=
| Text (s : string)
| Names (l : option (list string))
| Pairs (l : list (string * string)).

Inductive Event :=
| Called (c : Call) (r : outcome Value)
| Printed (l : Line).

(** [paths] holds the path strings for which [os.path.exists] answers True;
    [workspace] and [overwriteOutput] are the two [arcpy.env] settings the
    script assigns; [trace] is everything the run did so far, oldest first.
    Of all calls only [os.makedirs] changes [paths]: it is the one call
    whose effect the script tests afterwards.  What a rename or a toolbox
    request leaves on disk is the environment's affair and shows in the
    trace only; no function tests a path after such a call. *)
Record World := mkWorld {
  paths : gset string;
  workspace : option string;
  overwriteOutput : bool;
  trace : list Event
}.

Definition log (e : Event) (w : World) : World :=
  mkWorld (paths w) (workspace w) (overwriteOutput w) (trace w ++ [e]).

Definition add_path (p : string) (w : World) : World :=
  mkWorld ({[p]} ∪ paths w) (workspace w) (overwriteOutput w) (trace w).

Definition set_workspace (p : string) (w : World) : World :=
  mkWorld (paths w) (Some p) (overwriteOutput w) (trace w).

Definition set_overwriteOutput (b : bool) (w : World) : World :=
  mkWorld (paths w) (workspace w) b (trace w).

(** The operating system and the toolbox: how each call is answered in the
    world it is made in.  The script has no say in these answers. *)
Record Env := {
  listdir_reply : World -> string -> outcome (list string);
  proc_reply : World -> Call -> outcome unit;
  ListRasters_reply : World -> outcome (option (list string));
  GetRasterProperties_reply : World -> string -> string -> outcome string;
  FocalStatistics_reply :
    World -> string -> Neighborhood -> string -> outcome nat
}.

(** ** Statements: world transformers that return or raise *)

Definition M (A : Type) : Type := World -> outcome A * World.

Definition ret {A} (a : A) : M A := fun w => (Ok a, w).

Definition raise {A} (e : Exn) : M A := fun w => (Raised e, w).

Definition bind {A B} (m : M A) (k : A -> M B) : M B :=
  fun w =>
    match m w with
    | (Ok a, w') => k a w'
    | (Raised e, w') => (Raised e, w')
    end.

(** [try: body / except: handler], the bare [except] of the script: whatever
    was raised is caught. *)
Definition try_except (body : M unit) (handler : M unit) : M unit :=
  fun w =>
    match body w with
    | (Ok tt, w') => (Ok tt, w')
    | (Raised _, w') => handler w'
    end.

(** an expression that may raise, evaluated inside a statement *)
Definition eval {A} (o : outcome A) : M A := fun w => (o, w).

Notation "x <- m ;; k" := (bind m (fun x => k))
  (at level 100, m at next level, right associativity).
Notation "m ;;; k" := (bind m (fun _ => k))
  (at level 100, right associativity).

(** [for x in l: body x] *)
Fixpoint for_each {A} (l : list A) (body : A -> M unit) : M unit :=
  match l with
  | [] => ret tt
  | x :: l' => body x ;;; for_each l' body
  end.

(** [for x in v] where [v] may be None *)
Definition for_each_in {A} (v : option (list A)) (body : A -> M unit) : M unit :=
  match v with
  | Some l => for_each l body
  | None => raise TypeError
  end.

(** [print(l)] on a standard output that takes every line.  The builtin
    raises when the stream refuses the text; the statements of [Stdout]
    below are the script's functions with a console that may refuse. *)
Definition print (l : Line) : M unit := fun w => (Ok tt, log (Printed l) w).

Definition path_exists (p : string) : M bool :=
  fun w => (Ok (bool_decide (p ∈ paths w)), w).

Section Calls.
Context (env : Env).

(** a call whose return value the script does not use *)
Definition proc (c : Call) : M unit :=
  fun w =>
    match proc_reply env w c with
    | Ok tt => (Ok tt, log (Called c (Ok VNone)) w)
    | Raised e => (Raised e, log (Called c (Raised e)) w)
    end.

Definition listdir (p : string) : M (list string) :=
  fun w =>
    match listdir_reply env w p with
    | Ok l => (Ok l, log (Called (os_listdir p) (Ok (VNames (Some l)))) w)
    | Raised e => (Raised e, log (Called (os_listdir p) (Raised e)) w)
    end.

(** [os.makedirs(p)]: refuses a path that exists, otherwise the path
    exists afterwards unless the system refused.  The intermediate
    directories the call makes on its way are not added to [paths]: no
    function of the script tests one. *)
Definition makedirs (p : string) : M unit :=
  fun w =>
    if bool_decide (p ∈ paths w)
    then (Raised FileExistsError,
          log (Called (os_makedirs p) (Raised FileExistsError)) w)
    else match proc_reply env w (os_makedirs p) with
         | Ok tt => (Ok tt, add_path p (log (Called (os_makedirs p) (Ok VNone)) w))
         | Raised e => (Raised e, log (Called (os_makedirs p) (Raised e)) w)
         end.

Definition list_rasters : M (option (list string)) :=
  fun w =>
    match ListRasters_reply env w with
    | Ok l => (Ok l, log (Called ListRasters (Ok (VNames l))) w)
    | Raised e => (Raised e, log (Called ListRasters (Raised e)) w)
    end.

Definition get_raster_properties (r prop : string) : M string :=
  fun w =>
    let c := GetRasterProperties_management r prop in
    match GetRasterProperties_reply env w r prop with
    | Ok s => (Ok s, log (Called c (Ok (VResult s))) w)
    | Raised e => (Raised e, log (Called c (Raised e)) w)
    end.

Definition focal_statistics (r : string) (n : Neighborhood) (st : string) : M nat :=
  fun w =>
    let c := FocalStatistics r n st in
    match FocalStatistics_reply env w r n st with
    | Ok h => (Ok h, log (Called c (Ok (VRaster h))) w)
    | Raised e => (Raised e, log (Called c (Raised e)) w)
    end.
End Calls.

(** an assignment to an [arcpy.env] setting *)
Definition assign (f : World -> World) : M unit := fun w => (Ok tt, f w).

(** sequencing of expressions that may raise *)
Definition and_then {A B} (o : outcome A) (k : A -> outcome B) : outcome B :=
  match o with
  | Ok a => k a
  | Raised e => Raised e
  end.

(** ** The script's functions *)

Definition folders : list string :=
  ["sentinel_rasters"; "CAPA_transects"; "CAPA_rasters"; "focal_rasters";
   "resampled_rasters"; "shapefiles"; "fishnet"].

(** lines 193-195: the attribute field named after a raster *)
Definition new_fieldname (raster : string) : outcome string :=
  and_then (Py.index (Py.split "." raster) 0) (fun name =>
  let nameparts := Py.split "_" name in
  and_then (Py.index nameparts (-1)) (fun last_part =>
  and_then (Py.index nameparts 1) (fun second_part =>
  Ok (last_part +:+ "_" +:+ second_part +:+ "0m")))).

(** lines 190-196: the loop that appends one [raster, field] entry per
    raster to [inRasterList] *)
Fixpoint build_inRasterList (rasters : list string)
    (inRasterList : list (string * string)) : outcome (list (string * string)) :=
  match rasters with
  | [] => Ok inRasterList
  | raster :: rest =>
      and_then (new_fieldname raster) (fun new_field =>
      build_inRasterList rest (inRasterList ++ [(raster, new_field)]))
  end.

Section Script.
Context `{Runtime} (env : Env).

(** lines 65-66, 104-105, 137-138 and 176-177: make the output folder
    unless the path exists *)
Definition ensure_folder (output_folder : string) : M unit :=
  there <- path_exists output_folder ;;
  if negb there then makedirs env output_folder else ret tt.

(** the body of the loop of [create_file_structure] *)
Definition create_folder (project_directory folder : string) : M unit :=
  there <- path_exists (path_join project_directory folder) ;;
  if negb there then
    makedirs env (path_join project_directory folder) ;;;
    print (Text ("Created new directory: " +:+ folder))
  else print (Text (folder +:+ " already exists.")).

Definition create_file_structure (project_directory : string) : M unit :=
  for_each folders (create_folder project_directory).

(** the body of the [try] of [rename_rasters] for one file *)
Definition rename_one (input_folder file : string) : M unit :=
  token <- eval (Py.index (Py.split "_" file) 4) ;;
  if Py.startswith token "Sentinel" then
    let file_ext := (splitext file).2 in
    let parts := Py.split "_" file in
    p4 <- eval (Py.index parts 4) ;;
    p5 <- eval (Py.index parts 5) ;;
    p6 <- eval (Py.index parts 6) ;;
    let new_file := p4 +:+ "_" +:+ p5 +:+ "_" +:+ p6 +:+ file_ext in
    proc env (os_rename (path_join input_folder file)
                        (path_join input_folder new_file)) ;;;
    print (Text ("Renamed '" +:+ file +:+ "' to '" +:+ new_file +:+ "'"))
  else ret tt.

Definition rename_rasters (input_folder : string) : M unit :=
  files <- listdir env input_folder ;;
  for_each files (fun file =>
    try_except (rename_one input_folder file)
               (print (Text (file +:+ " not renamed.")))).

(** line 71 *)
Definition resampled_path (output_folder raster : string) : string :=
  path_join output_folder ("resampled_" +:+ (splitext raster).1 +:+ ".tif").

(** lines 70-81: one raster of the listing *)
Definition resample_one (output_folder cellsize raster : string) : M unit :=
  let output_raster := resampled_path output_folder raster in
  proc env (Resample_management raster output_raster cellsize "NEAREST") ;;;
  print (Text ("Processed " +:+ raster +:+ ", resampled to " +:+ cellsize
               +:+ " and saved to " +:+ output_raster)).

Definition apply_resampling
    (input_folder output_folder cellsize resampling_type : string) : M unit :=
  assign (set_workspace input_folder) ;;;
  assign (set_overwriteOutput true) ;;;
  rasters <- list_rasters env ;;
  print (Names rasters) ;;;
  ensure_folder output_folder ;;;
  for_each_in rasters (resample_one output_folder cellsize).

(** line 111 *)
Definition focal_path (output_folder : string) (rad : Z) (raster : string) : string :=
  path_join output_folder
    ("focal_" +:+ Py.str rad +:+ "_" +:+ (splitext raster).1 +:+ ".tif").

(** lines 110-122: one raster at one radius *)
Definition focal_one (output_folder statistic_type raster : string) (rad : Z) : M unit :=
  let output_raster := focal_path output_folder rad raster in
  focal_raster <-
    focal_statistics env raster (NbrCircle rad "CELL") statistic_type ;;
  proc env (Raster_save focal_raster output_raster) ;;;
  print (Text ("Processed " +:+ raster +:+ " with radius " +:+ Py.str rad
               +:+ " and saved to " +:+ output_raster)).

Definition apply_focal_statistics
    (input_folder output_folder : string) (radius : list Z)
    (statistic_type : string) : M unit :=
  assign (set_workspace input_folder) ;;;
  assign (set_overwriteOutput true) ;;;
  rasters <- list_rasters env ;;
  ensure_folder output_folder ;;;
  for_each_in rasters (fun raster =>
    for_each radius (focal_one output_folder statistic_type raster)).

Definition create_fishnet
    (input_raster output_folder output_name : string) : M unit :=
  ensure_folder output_folder ;;;
  raster_left <- get_raster_properties env input_raster "LEFT" ;;
  raster_bottom <- get_raster_properties env input_raster "BOTTOM" ;;
  raster_right <- get_raster_properties env input_raster "RIGHT" ;;
  raster_top <- get_raster_properties env input_raster "TOP" ;;
  raster_ncols <- get_raster_properties env input_raster "COLUMNCOUNT" ;;
  raster_nrows <- get_raster_properties env input_raster "ROWCOUNT" ;;
  bottom <- eval (int_of_str raster_bottom) ;;
  proc env (CreateFishnet
              (path_join output_folder "output_name")
              (raster_left +:+ " " +:+ raster_bottom)
              (raster_left +:+ " " +:+ Py.str (bottom + 10))
              10 10 raster_nrows raster_ncols "LABELS" "POLYLINE") ;;;
  print (Text ("Processed " +:+ input_raster +:+ ". Fishnet " +:+ output_name
               +:+ " saved to " +:+ output_folder)).

Definition extract_values
    (in_points_file rasters_folder output_folder output_file : string) : M unit :=
  ensure_folder output_folder ;;;
  let output := path_join output_folder output_file in
  proc env (CopyFeatures in_points_file output) ;;;
  assign (set_workspace rasters_folder) ;;;
  assign (set_overwriteOutput true) ;;;
  rasters <- list_rasters env ;;
  inRasterList <-
    match rasters with
    | Some l => eval (build_inRasterList l [])
    | None => raise TypeError
    end ;;
  print (Pairs inRasterList) ;;;
  proc env (ExtractMultiValuesToPoints output inRasterList "NONE") ;;;
  print (Text ("Processed " +:+ Py.str (Z.of_nat (length inRasterList))
               +:+ " rasters. And saved to " +:+ output)).
End Script.

(** ** Reading a run *)

(** the events a statement added to the trace when run in [w] *)
Definition emitted {A} (m : M A) (w : World) : list Event :=
  drop (length (trace w)) (trace (m w).2).

Definition call_of (e : Event) : option Call :=
  match e with
  | Called c _ => Some c
  | Printed _ => None
  end.

(** the calls among some events, in order, without their answers *)
Definition calls (t : list Event) : list Call := omap call_of t.

(** An environment in which every call succeeds: [files] is what any
    directory lists, [rasters] what the workspace holds, every raster
    property reads [prop], and the n-th call gets raster handle n. *)
Definition calm (files rasters : list string) (prop : string) : Env :=
  {| listdir_reply := fun _ _ => Ok files;
     proc_reply := fun _ _ => Ok tt;
     ListRasters_reply := fun _ => Ok (Some rasters);
     GetRasterProperties_reply := fun _ _ _ => Ok prop;
     FocalStatistics_reply := fun w _ _ _ => Ok (length (trace w)) |}.

Definition empty_world : World := mkWorld ∅ None false [].

(** *** Statements whose events all satisfy a property

    [emits_only P m]: a run of [m] only appends to the trace, and every
    event it appends satisfies [P]. *)
Definition emits_only (P : Event -> Prop) {A} (m : M A) : Prop :=
  forall w, exists new, trace (m w).2 = trace w ++ new /\ Forall P new.


(** ** The specification's wording, for comparison with the code *)

(** the characters of [s] before its first [c] *)
Fixpoint before_first (c : ascii) (s : string) : string :=
  match s with
  | EmptyString => EmptyString
  | String a s' => if Ascii.eqb a c then EmptyString else String a (before_first c s')
  end.

(** The field name as the specification words it: drop the extension at the
    first dot, split the stem on underscores, and concatenate the last
    token, an underscore, the token at index 1 and the suffix 0m. *)
Definition positional_fieldname (raster : string) : outcome string :=
  let tokens := Py.split "_" (before_first "." raster) in
  match tokens !! 1%nat with
  | Some second => Ok (List.last tokens "" +:+ "_" +:+ second +:+ "0m")
  | None => Raised IndexError
  end.

(** the underscore-separated tokens of a file name *)
Definition tokens (file : string) : list string := Py.split "_" file.

(** "split on underscores, has [n] or more tokens and token index 4 starts
    with Sentinel" *)
Definition sentinel_shape (n : nat) (file : string) : bool :=
  (n <=? length (tokens file))%nat
  && Py.startswith (nth 4 (tokens file) "") "Sentinel".

(** "built from the three tokens at indices 4, 5 and 6 plus the original
    extension" *)
Definition short_name `{Runtime} (file : string) : string :=
  nth 4 (tokens file) "" +:+ "_" +:+ nth 5 (tokens file) "" +:+ "_"
  +:+ nth 6 (tokens file) "" +:+ (splitext file).2.

Definition rename_of (e : Event) : option (string * string) :=
  match e with
  | Called (os_rename src dst) _ => Some (src, dst)
  | _ => None
  end.

(** the renames a run asked the system for, in order *)
Definition renames (t : list Event) : list (string * string) := omap rename_of t.

Definition not_renamed (file : string) : Event :=
  Printed (Text (file +:+ " not renamed.")).

(** What [rename_rasters] does for one file of the listing: the events it
    leaves, by the way the file was handled. *)
Inductive file_events `{Runtime} (input_folder file : string) : list Event -> Prop :=
| file_skipped :
    sentinel_shape 5 file = false -> (5 <= length (tokens file))%nat ->
    file_events input_folder file []
| file_too_short :
    sentinel_shape 7 file = false ->
    ((5 <= length (tokens file))%nat -> sentinel_shape 5 file = true) ->
    file_events input_folder file [not_renamed file]
| file_renamed :
    sentinel_shape 7 file = true ->
    file_events input_folder file
      [Called (os_rename (path_join input_folder file)
                         (path_join input_folder (short_name file))) (Ok VNone);
       Printed (Text ("Renamed '" +:+ file +:+ "' to '" +:+ short_name file +:+ "'"))]
| file_rename_failed e :
    sentinel_shape 7 file = true ->
    file_events input_folder file
      [Called (os_rename (path_join input_folder file)
                         (path_join input_folder (short_name file))) (Raised e);
       not_renamed file].

(** an environment whose directory listing fails *)
Definition unlistable (e : Exn) : Env :=
  {| listdir_reply := fun _ _ => Raised e;
     proc_reply := fun _ _ => Ok tt;
     ListRasters_reply := fun _ => Ok (Some []);
     GetRasterProperties_reply := fun _ _ _ => Ok "0";
     FocalStatistics_reply := fun _ _ _ _ => Ok 0%nat |}.

Definition already_exists (folder : string) : Event :=
  Printed (Text (folder +:+ " already exists.")).

(** [propagates m]: a run of [m] only appends to the trace, and as soon as a
    call is answered by an exception, the run stops there and raises it. *)
Definition propagates {A} (m : M A) : Prop :=
  forall w, exists new,
    trace (m w).2 = trace w ++ new
    /\ forall c e, Called c (Raised e) ∈ new ->
         (m w).1 = Raised e /\ last new = Some (Called c (Raised e)).

(** [fails_through m]: when a call made by [m] is answered by an exception,
    [m] raises that exception and the failed call is the last thing it did. *)
Definition fails_through {A} (m : M A) : Prop :=
  forall w c e,
    In (Called c (Raised e)) (emitted m w) ->
    (m w).1 = Raised e /\ last (emitted m w) = Some (Called c (Raised e)).

(** [plays pc m plan]: projecting the calls of a run of [m] through [pc]
    gives [plan] when the run returns, and a prefix of [plan] when it
    raises. *)
Definition plays {B} (pc : Call -> option B) {A} (m : M A) (plan : list B) : Prop :=
  forall w, exists new,
    trace (m w).2 = trace w ++ new
    /\ omap pc (calls new) `prefix_of` plan
    /\ (forall a, (m w).1 = Ok a -> omap pc (calls new) = plan).

(** the raster and radius of a focal-statistics request *)
Definition focal_op (c : Call) : option (string * Z) :=
  match c with
  | FocalStatistics raster (NbrCircle rad _) _ => Some (raster, rad)
  | _ => None
  end.

Definition focal_ops (t : list Event) : list (string * Z) := omap focal_op (calls t).

(** the path of a save request *)
Definition saved_path (c : Call) : option string :=
  match c with
  | Raster_save _ path => Some path
  | _ => None
  end.

Definition saved_paths (t : list Event) : list string := omap saved_path (calls t).

(** the names the toolbox listed, when it listed any *)
Definition listing_of (e : Event) : option (list string) :=
  match e with
  | Called ListRasters (Ok (VNames (Some l))) => Some l
  | _ => None
  end.

Definition listed (t : list Event) : list string :=
  default [] (head (omap listing_of t)).

(** the nested loop of [apply_focal_statistics], as a list of pairs: every
    radius for the first raster, then every radius for the second, ... *)
Definition schedule (rasters : list string) (radius : list Z) : list (string * Z) :=
  raster ← rasters; (fun rad => (raster, rad)) <$> radius.

(** what [apply_focal_statistics] asks of the toolbox for one raster at one
    radius: the statistics, then the save *)
Inductive FocalStep :=
| Requested (raster : string) (rad : Z)
| Saved (path : string).

Definition focal_step (c : Call) : option FocalStep :=
  match c with
  | FocalStatistics raster (NbrCircle rad _) _ => Some (Requested raster rad)
  | Raster_save _ path => Some (Saved path)
  | _ => None
  end.

Definition focal_steps (t : list Event) : list FocalStep := omap focal_step (calls t).

Definition focal_plan `{Runtime} (output_folder : string) (rasters : list string)
    (radius : list Z) : list FocalStep :=
  step ← schedule rasters radius;
  [Requested step.1 step.2; Saved (focal_path output_folder step.2 step.1)].

(** the input raster and output path of a resample request *)
Definition resample_request (c : Call) : option (string * string) :=
  match c with
  | Resample_management in_raster out_raster _ _ => Some (in_raster, out_raster)
  | _ => None
  end.

Definition resample_requests (t : list Event) : list (string * string) :=
  omap resample_request (calls t).

(** the technique of a resample request *)
Definition resample_technique (c : Call) : option string :=
  match c with
  | Resample_management _ _ _ technique => Some technique
  | _ => None
  end.

(** a property of calls, lifted to events *)
Definition on_calls (P : Call -> Prop) (e : Event) : Prop :=
  match e with
  | Called c _ => P c
  | Printed _ => True
  end.


(** the feature class a fishnet request writes *)
Definition fishnet_target (c : Call) : option string :=
  match c with
  | CreateFishnet out_feature_class _ _ _ _ _ _ _ _ => Some out_feature_class
  | _ => None
  end.

(** What [extract_values] leaves in the trace once the output folder is
    there, by how far the run got.  [output] is the copy's path. *)
Inductive extract_events `{Runtime}
    (in_points_file output_folder output_file : string) : list Event -> Prop :=
| extract_copy_failed e :
    extract_events in_points_file output_folder output_file
      [Called (CopyFeatures in_points_file (path_join output_folder output_file))
              (Raised e)]
| extract_listing_failed e :
    extract_events in_points_file output_folder output_file
      [Called (CopyFeatures in_points_file (path_join output_folder output_file))
              (Ok VNone);
       Called ListRasters (Raised e)]
| extract_nothing_listed :
    extract_events in_points_file output_folder output_file
      [Called (CopyFeatures in_points_file (path_join output_folder output_file))
              (Ok VNone);
       Called ListRasters (Ok (VNames None))]
| extract_bad_name rasters e :
    build_inRasterList rasters [] = Raised e ->
    extract_events in_points_file output_folder output_file
      [Called (CopyFeatures in_points_file (path_join output_folder output_file))
              (Ok VNone);
       Called ListRasters (Ok (VNames (Some rasters)))]
| extract_requested rasters inRasterList r :
    build_inRasterList rasters [] = Ok inRasterList ->
    extract_events in_points_file output_folder output_file
      ([Called (CopyFeatures in_points_file (path_join output_folder output_file))
               (Ok VNone);
        Called ListRasters (Ok (VNames (Some rasters)));
        Printed (Pairs inRasterList);
        Called (ExtractMultiValuesToPoints (path_join output_folder output_file)
                  inRasterList "NONE") r]
       ++ match r with
          | Ok _ =>
              [Printed (Text ("Processed " +:+ Py.str (Z.of_nat (length inRasterList))
                              +:+ " rasters. And saved to "
                              +:+ path_join output_folder output_file))]
          | Raised _ => []
          end).

(** the list of [raster, field] entries of an extraction request *)
Definition extraction_request (c : Call) : option (list (string * string)) :=
  match c with
  | ExtractMultiValuesToPoints _ in_rasters _ => Some in_rasters
  | _ => None
  end.


(** a project whose shapefiles folder already holds an output of an earlier
    extraction *)
Definition project_with_output : World :=
  mkWorld {[ "shapefiles"; "shapefiles/am_output.shp" ]} None false [].

(** ** Vocabulary for the further properties *)

(** whether the character [c] occurs in [s] *)
Fixpoint has_char (c : ascii) (s : string) : bool :=
  match s with
  | EmptyString => false
  | String a s' => Ascii.eqb a c || has_char c s'
  end.

(** the tokens of a raster's stem, as [extract_values] cuts them *)
Definition stem_tokens (raster : string) : list string :=
  Py.split "_" (before_first "." raster).

(** whether the stem of a raster has a token at index 1 *)
Definition has_second_token (raster : string) : bool :=
  (2 <=? length (stem_tokens raster))%nat.

(** the field name of a raster whose stem has a token at index 1 *)
Definition field_of (raster : string) : string :=
  List.last (stem_tokens raster) "" +:+ "_" +:+ nth 1 (stem_tokens raster) "" +:+ "0m".

(** line 111, the file name alone *)
Definition focal_file_name `{Runtime} (rad : Z) (raster : string) : string :=
  "focal_" +:+ Py.str rad +:+ "_" +:+ (splitext raster).1 +:+ ".tif".

(** [steady R m]: a run of [m] takes every world to one that [R] relates
    to it, whether the run returns or raises. *)
Definition steady (R : World -> World -> Prop) {A} (m : M A) : Prop :=
  forall w, R w (m w).2.

(** the two [arcpy.env] settings are as they were *)
Definition same_settings (w w' : World) : Prop :=
  workspace w' = workspace w /\ overwriteOutput w' = overwriteOutput w.

(** the path of a directory creation that succeeded *)
Definition created_path (e : Event) : option string :=
  match e with
  | Called (os_makedirs p) (Ok _) => Some p
  | _ => None
  end.

(** the directories a run created, in order *)
Definition created (t : list Event) : list string := omap created_path t.

(** a resample request, whole *)
Definition resample_job (c : Call) : option Call :=
  match c with
  | Resample_management _ _ _ _ => Some c
  | _ => None
  end.

(** what [apply_resampling] asks for one raster of the listing *)
Definition resample_plan `{Runtime} (output_folder cellsize : string)
    (rasters : list string) : list Call :=
  (fun raster =>
     Resample_management raster (resampled_path output_folder raster) cellsize "NEAREST")
  <$> rasters.

(** a toolbox that cannot read the workspace: [ListRasters] answers None *)
Definition unreadable : Env :=
  {| listdir_reply := fun _ _ => Ok [];
     proc_reply := fun _ _ => Ok tt;
     ListRasters_reply := fun _ => Ok None;
     GetRasterProperties_reply := fun _ _ _ => Ok "0";
     FocalStatistics_reply := fun _ _ _ _ => Ok 0%nat |}.


(** lines 142-147: the properties [create_fishnet] reads, in this order *)
Definition fishnet_properties : list string :=
  ["LEFT"; "BOTTOM"; "RIGHT"; "TOP"; "COLUMNCOUNT"; "ROWCOUNT"].

(** the reads of the first properties of [input_raster], answered by
    [answers] *)
Definition property_reads (input_raster : string) (answers : list string) : list Event :=
  zip_with (fun property answer =>
              Called (GetRasterProperties_management input_raster property)
                     (Ok (VResult answer)))
           fishnet_properties answers.

(** lines 150-160: the request [create_fishnet] makes from the six answers,
    [bottom] being the integer read from the BOTTOM answer *)
Definition fishnet_request `{Runtime} (output_folder : string)
    (raster_left raster_bottom raster_ncols raster_nrows : string) (bottom : Z) : Call :=
  CreateFishnet (path_join output_folder "output_name")
    (raster_left +:+ " " +:+ raster_bottom)
    (raster_left +:+ " " +:+ Py.str (bottom + 10))
    10 10 raster_nrows raster_ncols "LABELS" "POLYLINE".

(** What [create_fishnet] leaves in the trace once the output folder is
    there, and how it ends, by how far the run got. *)
Inductive fishnet_run `{Runtime} (input_raster output_folder output_name : string) :
    list Event -> outcome unit -> Prop :=
| fishnet_read_refused answers e :
    (length answers < length fishnet_properties)%nat ->
    fishnet_run input_raster output_folder output_name
      (property_reads input_raster answers
       ++ [Called (GetRasterProperties_management input_raster
                     (nth (length answers) fishnet_properties "")) (Raised e)])
      (Raised e)
| fishnet_bottom_not_int l b r t nc nr e :
    int_of_str b = Raised e ->
    fishnet_run input_raster output_folder output_name
      (property_reads input_raster [l; b; r; t; nc; nr]) (Raised e)
| fishnet_refused l b r t nc nr z e :
    int_of_str b = Ok z ->
    fishnet_run input_raster output_folder output_name
      (property_reads input_raster [l; b; r; t; nc; nr]
       ++ [Called (fishnet_request output_folder l b nc nr z) (Raised e)])
      (Raised e)
| fishnet_made l b r t nc nr z :
    int_of_str b = Ok z ->
    fishnet_run input_raster output_folder output_name
      (property_reads input_raster [l; b; r; t; nc; nr]
       ++ [Called (fishnet_request output_folder l b nc nr z) (Ok VNone);
           Printed (Text ("Processed " +:+ input_raster +:+ ". Fishnet "
                          +:+ output_name +:+ " saved to " +:+ output_folder))])
      (Ok tt).

(** [leaves P m]: a run of [m] only appends to the trace, and what it
    appends satisfies [P]. *)
Definition leaves (P : list Event -> Prop) {A} (m : M A) : Prop :=
  forall w, exists new, trace (m w).2 = trace w ++ new /\ P new.

(** In [t], every save comes right after an answered focal-statistics
    request of the given statistics type over cells, saves the raster that
    request returned, and saves it to the path of the request's raster and
    radius. *)
Definition saves_follow_requests `{Runtime} (output_folder statistic_type : string)
    (radius : list Z) (t : list Event) : Prop :=
  forall (j : nat) handle path r,
    t !! j = Some (Called (Raster_save handle path) r) ->
    exists (i : nat) raster rad,
      j = S i
      /\ t !! i = Some (Called (FocalStatistics raster (NbrCircle rad "CELL")
                                  statistic_type)
                               (Ok (VRaster handle)))
      /\ In rad radius
      /\ path = focal_path output_folder rad raster.

(** an event that is not a save request *)
Definition not_a_save (e : Event) : Prop :=
  match e with
  | Called (Raster_save _ _) _ => False
  | _ => True
  end.

(** ** The script below the functions *)

(** line 226 *)
Definition project_dir : string :=
  "C:\Users\bm233557\Documents\GradSchool\Climate\Project".

Section Main.
Context `{Runtime} (env : Env).

(** line 233 *)
Definition focal_stats_folder : string := path_join project_dir "focal_rasters".

(** line 234 *)
Definition transverse_folder : string := path_join project_dir "CAPA_transects".

(** lines 249-251 *)
Definition am_shp : string := path_join transverse_folder "am_trav.shp".
Definition af_shp : string := path_join transverse_folder "af_trav.shp".
Definition pm_shp : string := path_join transverse_folder "pm_trav.shp".

(** lines 269-272 *)
Definition processed_transects_folder : string := path_join project_dir "shapefiles".
Definition am_shp_w_rasterdata : string := "am_output.shp".
Definition af_shp_w_rasterdata : string := "af_output.shp".
Definition pm_shp_w_rasterdata : string := "pm_output.shp".

(** lines 274-276: the three calls the script makes of the functions
    above; its calls of the earlier stages are commented out.  An
    exception leaves the script at the call that raised it.  The spatial
    reference the script builds on line 245 is used nowhere and is not
    among these statements. *)
Definition extract_transects : M unit :=
  extract_values env am_shp focal_stats_folder processed_transects_folder
    am_shp_w_rasterdata ;;;
  extract_values env af_shp focal_stats_folder processed_transects_folder
    af_shp_w_rasterdata ;;;
  extract_values env pm_shp focal_stats_folder processed_transects_folder
    pm_shp_w_rasterdata.
End Main.

(** what the script asks of the toolbox for a transect: a copy of the
    points, then the extraction into a points file *)
Inductive TransectStep :=
| Copied (in_features out_feature_class : string)
| Extracted (in_point_features : string).

Definition transect_step (c : Call) : option TransectStep :=
  match c with
  | CopyFeatures in_features out_feature_class =>
      Some (Copied in_features out_feature_class)
  | ExtractMultiValuesToPoints in_point_features _ _ =>
      Some (Extracted in_point_features)
  | _ => None
  end.

(** the path of a directory creation that was asked for *)
Definition makedirs_request (c : Call) : option string :=
  match c with
  | os_makedirs p => Some p
  | _ => None
  end.

(** no path is lost *)
Definition keeps_paths (w w' : World) : Prop := paths w ⊆ paths w'.

(** [folder_once o m]: a run of [m] asks for at most one directory, the
    folder [o], and for none when [o] exists; when the run returns, [o]
    exists. *)
Definition folder_once (o : string) (m : M unit) : Prop :=
  forall w, exists new,
    trace (m w).2 = trace w ++ new
    /\ (o ∈ paths w -> omap makedirs_request (calls new) = [])
    /\ (omap makedirs_request (calls new) = []
        \/ omap makedirs_request (calls new) = [o])
    /\ ((m w).1 = Ok tt -> o ∈ paths (m w).2).

(** ** Standard output that can refuse a line

    The builtin [print] writes to [sys.stdout] and raises when the stream
    refuses the text: a file name the stream's encoding cannot encode, a
    closed stream.  [Stdout] holds the script's functions once more, line
    by line as above, with every [print] sent to a console that answers
    each line; nothing else differs, and with a console that takes every
    line they are the functions above. *)
Record Console := { print_reply : World -> Line -> outcome unit }.

(** a console that takes every line *)
Definition accepting : Console := {| print_reply := fun _ _ => Ok tt |}.

(** a console that refuses every line, as a closed stream does *)
Definition refusing (e : Exn) : Console := {| print_reply := fun _ _ => Raised e |}.

Module Stdout.
Section Script.
Context `{Runtime} (out : Console) (env : Env).

(** [print(l)]: the line is written, or the refusal of the console is
    raised and nothing is written *)
Definition print (l : Line) : M unit :=
  fun w =>
    match print_reply out w l with
    | Ok tt => (Ok tt, log (Printed l) w)
    | Raised e => (Raised e, w)
    end.

(** lines 14-18 *)
Definition create_folder (project_directory folder : string) : M unit :=
  there <- path_exists (path_join project_directory folder) ;;
  if negb there then
    makedirs env (path_join project_directory folder) ;;;
    print (Text ("Created new directory: " +:+ folder))
  else print (Text (folder +:+ " already exists.")).

(** lines 12-18 *)
Definition create_file_structure (project_directory : string) : M unit :=
  for_each folders (create_folder project_directory).

(** lines 33-40: the body of the [try] for one file *)
Definition rename_one (input_folder file : string) : M unit :=
  token <- eval (Py.index (Py.split "_" file) 4) ;;
  if Py.startswith token "Sentinel" then
    let file_ext := (splitext file).2 in
    let parts := Py.split "_" file in
    p4 <- eval (Py.index parts 4) ;;
    p5 <- eval (Py.index parts 5) ;;
    p6 <- eval (Py.index parts 6) ;;
    let new_file := p4 +:+ "_" +:+ p5 +:+ "_" +:+ p6 +:+ file_ext in
    proc env (os_rename (path_join input_folder file)
                        (path_join input_folder new_file)) ;;;
    print (Text ("Renamed '" +:+ file +:+ "' to '" +:+ new_file +:+ "'"))
  else ret tt.

(** lines 31-42: the [print] of the handler is outside the [try] *)
Definition rename_rasters (input_folder : string) : M unit :=
  files <- listdir env input_folder ;;
  for_each files (fun file =>
    try_except (rename_one input_folder file)
               (print (Text (file +:+ " not renamed.")))).

(** lines 70-81 *)
Definition resample_one (output_folder cellsize raster : string) : M unit :=
  let output_raster := resampled_path output_folder raster in
  proc env (Resample_management raster output_raster cellsize "NEAREST") ;;;
  print (Text ("Processed " +:+ raster +:+ ", resampled to " +:+ cellsize
               +:+ " and saved to " +:+ output_raster)).

(** lines 58-81 *)
Definition apply_resampling
    (input_folder output_folder cellsize resampling_type : string) : M unit :=
  assign (set_workspace input_folder) ;;;
  assign (set_overwriteOutput true) ;;;
  rasters <- list_rasters env ;;
  print (Names rasters) ;;;
  ensure_folder env output_folder ;;;
  for_each_in rasters (resample_one output_folder cellsize).

(** lines 110-122 *)
Definition focal_one (output_folder statistic_type raster : string) (rad : Z) : M unit :=
  let output_raster := focal_path output_folder rad raster in
  focal_raster <-
    focal_statistics env raster (NbrCircle rad "CELL") statistic_type ;;
  proc env (Raster_save focal_raster output_raster) ;;;
  print (Text ("Processed " +:+ raster +:+ " with radius " +:+ Py.str rad
               +:+ " and saved to " +:+ output_raster)).

(** lines 97-122 *)
Definition apply_focal_statistics
    (input_folder output_folder : string) (radius : list Z)
    (statistic_type : string) : M unit :=
  assign (set_workspace input_folder) ;;;
  assign (set_overwriteOutput true) ;;;
  rasters <- list_rasters env ;;
  ensure_folder env output_folder ;;;
  for_each_in rasters (fun raster =>
    for_each radius (focal_one output_folder statistic_type raster)).

(** lines 137-160 *)
Definition create_fishnet
    (input_raster output_folder output_name : string) : M unit :=
  ensure_folder env output_folder ;;;
  raster_left <- get_raster_properties env input_raster "LEFT" ;;
  raster_bottom <- get_raster_properties env input_raster "BOTTOM" ;;
  raster_right <- get_raster_properties env input_raster "RIGHT" ;;
  raster_top <- get_raster_properties env input_raster "TOP" ;;
  raster_ncols <- get_raster_properties env input_raster "COLUMNCOUNT" ;;
  raster_nrows <- get_raster_properties env input_raster "ROWCOUNT" ;;
  bottom <- eval (int_of_str raster_bottom) ;;
  proc env (CreateFishnet
              (path_join output_folder "output_name")
              (raster_left +:+ " " +:+ raster_bottom)
              (raster_left +:+ " " +:+ Py.str (bottom + 10))
              10 10 raster_nrows raster_ncols "LABELS" "POLYLINE") ;;;
  print (Text ("Processed " +:+ input_raster +:+ ". Fishnet " +:+ output_name
               +:+ " saved to " +:+ output_folder)).

(** lines 176-199 *)
Definition extract_values
    (in_points_file rasters_folder output_folder output_file : string) : M unit :=
  ensure_folder env output_folder ;;;
  let output := path_join output_folder output_file in
  proc env (CopyFeatures in_points_file output) ;;;
  assign (set_workspace rasters_folder) ;;;
  assign (set_overwriteOutput true) ;;;
  rasters <- list_rasters env ;;
  inRasterList <-
    match rasters with
    | Some l => eval (build_inRasterList l [])
    | None => raise TypeError
    end ;;
  print (Pairs inRasterList) ;;;
  proc env (ExtractMultiValuesToPoints output inRasterList "NONE") ;;;
  print (Text ("Processed " +:+ Py.str (Z.of_nat (length inRasterList))
               +:+ " rasters. And saved to " +:+ output)).
End Script.
End Stdout.

(** the rename request [rename_rasters] makes for a file *)
Definition rename_request `{Runtime} (input_folder file : string) : Call :=
  os_rename (path_join input_folder file) (path_join input_folder (short_name file)).

(** What [Stdout.rename_rasters] leaves for a file it is done with: the
    events of [file_events], or, when the console refused the "Renamed"
    line, the rename that was made and the "not renamed" line. *)
Definition handled `{Runtime} (input_folder file : string) (chunk : list Event) : Prop :=
  file_events input_folder file chunk
  \/ (sentinel_shape 7 file = true
      /\ chunk = [Called (rename_request input_folder file) (Ok VNone);
                  not_renamed file]).

(** What it leaves for the file at which the console refused the "not
    renamed" line: nothing when the name was too short, else the rename
    request, refused or made. *)
Inductive cut_short `{Runtime} (input_folder file : string) : list Event -> Prop :=
| cut_before_rename :
    sentinel_shape 7 file = false ->
    cut_short input_folder file []
| cut_after_rename r :
    sentinel_shape 7 file = true ->
    cut_short input_folder file [Called (rename_request input_folder file) r].

(** the lines [create_file_structure] prints about a folder *)
Definition folder_lines (folder : string) : list Line :=
  [Text ("Created new directory: " +:+ folder); Text (folder +:+ " already exists.")].

(** * Properties *)

(** ** The string primitives on examples *)

Example split_sentinel :
  Py.split "_" "2022-09-22-00_00_2022-09-22-23_59_Sentinel-2_L2A_B04_(Raw).tiff"
  = ["2022-09-22-00"; "00"; "2022-09-22-23"; "59"; "Sentinel-2"; "L2A"; "B04";
     "(Raw).tiff"].
Proof. reflexivity. Qed.

Example split_empty_tokens : Py.split "_" "a__b_" = ["a"; ""; "b"; ""].
Proof. reflexivity. Qed.

Example index_last : Py.index ["a"; "b"; "c"] (-1) = Ok "c".
Proof. reflexivity. Qed.

Example index_out_of_range : Py.index ["a"; "b"; "c"] 3 = Raised IndexError.
Proof. reflexivity. Qed.

Example splitext_tiff :
  @splitext posix "Sentinel-2_L2A_B04_(Raw).tiff" = ("Sentinel-2_L2A_B04_(Raw)", ".tiff").
Proof. reflexivity. Qed.

Example splitext_hidden : @splitext posix "dir.d/.bashrc" = ("dir.d/.bashrc", "").
Proof. reflexivity. Qed.

Example str_examples : Py.str 10 = "10" /\ Py.str 0 = "0" /\ Py.str (-5) = "-5".
Proof. repeat split; reflexivity. Qed.

Example posix_join_examples :
  posix_join "proj" "fishnet" = "proj/fishnet"
  /\ posix_join "proj/" "fishnet" = "proj/fishnet"
  /\ posix_join "proj" "/abs" = "/abs"
  /\ posix_join "" "x" = "x".
Proof. repeat split; reflexivity. Qed.

Lemma trace_log e w : trace (log e w) = trace w ++ [e].
Proof. reflexivity. Qed.

Lemma emitted_eq {A} (m : M A) w new :
  trace (m w).2 = trace w ++ new -> emitted m w = new.
Proof.
  unfold emitted. intros ->. by rewrite drop_app_length.
Qed.

Lemma calls_app t1 t2 : calls (t1 ++ t2) = calls t1 ++ calls t2.
Proof. apply omap_app. Qed.

(** *** Statements whose events all satisfy a property *)

Section EmitsOnly.
Context (P : Event -> Prop).

Lemma emits_only_ret {A} (a : A) : emits_only P (ret a).
Proof. intros w. exists []. simpl. by rewrite app_nil_r. Qed.

Lemma emits_only_raise {A} e : emits_only P (@raise A e).
Proof. intros w. exists []. simpl. by rewrite app_nil_r. Qed.

Lemma emits_only_eval {A} (o : outcome A) : emits_only P (eval o).
Proof. intros w. exists []. simpl. by rewrite app_nil_r. Qed.

Lemma emits_only_path_exists p : emits_only P (path_exists p).
Proof. intros w. exists []. simpl. by rewrite app_nil_r. Qed.

Lemma emits_only_assign f :
  (forall w, trace (f w) = trace w) -> emits_only P (assign f).
Proof. intros Hf w. exists []. simpl. by rewrite Hf, app_nil_r. Qed.

Lemma emits_only_bind {A B} (m : M A) (k : A -> M B) :
  emits_only P m -> (forall a, emits_only P (k a)) -> emits_only P (bind m k).
Proof.
  intros Hm Hk w. destruct (Hm w) as (n1 & E1 & F1).
  unfold bind. destruct (m w) as [[a|e] w1]; simpl in *.
  - destruct (Hk a w1) as (n2 & E2 & F2).
    exists (n1 ++ n2). split.
    + by rewrite E2, E1, app_assoc.
    + by apply Forall_app.
  - by exists n1.
Qed.

Lemma emits_only_try body handler :
  emits_only P body -> emits_only P handler ->
  emits_only P (try_except body handler).
Proof.
  intros Hb Hh w. destruct (Hb w) as (n1 & E1 & F1).
  unfold try_except. destruct (body w) as [[[]|e] w1]; simpl in *.
  - by exists n1.
  - destruct (Hh w1) as (n2 & E2 & F2).
    exists (n1 ++ n2). split.
    + by rewrite E2, E1, app_assoc.
    + by apply Forall_app.
Qed.

Lemma emits_only_for_each {A} (l : list A) body :
  (forall x, emits_only P (body x)) -> emits_only P (for_each l body).
Proof.
  intros Hb. induction l as [|x l IH]; simpl.
  - apply emits_only_ret.
  - apply emits_only_bind; auto.
Qed.

Lemma emits_only_for_each_in {A} (v : option (list A)) body :
  (forall x, emits_only P (body x)) -> emits_only P (for_each_in v body).
Proof.
  intros Hb. destruct v; simpl.
  - by apply emits_only_for_each.
  - apply emits_only_raise.
Qed.

Lemma emits_only_print l : P (Printed l) -> emits_only P (print l).
Proof. intros HP w. exists [Printed l]. split; [done | by constructor]. Qed.

Lemma emits_only_proc env c :
  (forall r, P (Called c r)) -> emits_only P (proc env c).
Proof.
  intros HP w. unfold proc.
  destruct (proc_reply env w c) as [[]|e]; eexists [_];
    (split; [done | by constructor]).
Qed.

Lemma emits_only_listdir env p :
  (forall r, P (Called (os_listdir p) r)) -> emits_only P (listdir env p).
Proof.
  intros HP w. unfold listdir.
  destruct (listdir_reply env w p); eexists [_];
    (split; [done | by constructor]).
Qed.

Lemma emits_only_makedirs env p :
  (forall r, P (Called (os_makedirs p) r)) -> emits_only P (makedirs env p).
Proof.
  intros HP w. unfold makedirs. case_bool_decide.
  - eexists [_]. split; [done | by constructor].
  - destruct (proc_reply env w (os_makedirs p)) as [[]|e]; eexists [_];
      (split; [done | by constructor]).
Qed.

Lemma emits_only_list_rasters env :
  (forall r, P (Called ListRasters r)) -> emits_only P (list_rasters env).
Proof.
  intros HP w. unfold list_rasters.
  destruct (ListRasters_reply env w); eexists [_];
    (split; [done | by constructor]).
Qed.

Lemma emits_only_get_raster_properties env r prop :
  (forall v, P (Called (GetRasterProperties_management r prop) v)) ->
  emits_only P (get_raster_properties env r prop).
Proof.
  intros HP w. unfold get_raster_properties.
  destruct (GetRasterProperties_reply env w r prop); eexists [_];
    (split; [done | by constructor]).
Qed.

Lemma emits_only_focal_statistics env r n st :
  (forall v, P (Called (FocalStatistics r n st) v)) ->
  emits_only P (focal_statistics env r n st).
Proof.
  intros HP w. unfold focal_statistics.
  destruct (FocalStatistics_reply env w r n st); eexists [_];
    (split; [done | by constructor]).
Qed.

Lemma emits_only_ensure_folder env p :
  (forall r, P (Called (os_makedirs p) r)) -> emits_only P (ensure_folder env p).
Proof.
  intros HP. unfold ensure_folder. apply emits_only_bind.
  - apply emits_only_path_exists.
  - intros []; simpl; [apply emits_only_ret | by apply emits_only_makedirs].
Qed.
End EmitsOnly.

Lemma emits_only_emitted P {A} (m : M A) w :
  emits_only P m -> Forall P (emitted m w).
Proof. intros Hm. destruct (Hm w) as (new & E & F). by rewrite (emitted_eq _ _ _ E). Qed.

(** ** Splitting and indexing *)

Lemma split_not_nil sep s : Py.split sep s <> [].
Proof.
  destruct s as [|a s]; simpl; [done |].
  destruct (Ascii.eqb a sep); [done |].
  by destruct (Py.split sep s).
Qed.

Lemma split_head sep s : head (Py.split sep s) = Some (before_first sep s).
Proof.
  induction s as [|a s IH]; simpl; [done |].
  destruct (Ascii.eqb a sep); [done |].
  destruct (Py.split sep s) as [|t ts]; simpl in *.
  - discriminate.
  - by inversion IH.
Qed.

Lemma index_nonneg {A} (l : list A) (i : Z) :
  0 <= i ->
  Py.index l i = match l !! Z.to_nat i with
                 | Some x => Ok x
                 | None => Raised IndexError
                 end.
Proof.
  intros Hi. unfold Py.index.
  assert ((i <? 0) = false) as Hlt by lia.
  by rewrite !Hlt.
Qed.

Lemma index_minus_one {A} (l : list A) (d : A) :
  l <> [] -> Py.index l (-1) = Ok (List.last l d).
Proof.
  intros Hl. unfold Py.index. simpl.
  destruct (Z.ltb_spec (-1 + Z.of_nat (length l)) 0) as [Hneg|Hpos].
  - destruct l; [done | simpl in Hneg; lia].
  - replace (Z.to_nat (-1 + Z.of_nat (length l))) with (pred (length l)) by lia.
    rewrite <- last_lookup.
    destruct l as [|x l] using rev_ind; [done |].
    by rewrite last_snoc, last_last.
Qed.

(** C5.  For every raster file name, the attribute-field name that
    extract_values derives is the one obtained by positional splitting:
    the name up to its first dot is split on underscores, and the result is
    the last token, an underscore, the token at index 1 and the suffix 0m
    (an IndexError when there is no token at index 1). *)
Theorem new_fieldname_is_positional (raster : string) :
  new_fieldname raster = positional_fieldname raster.
Proof.
  unfold new_fieldname, positional_fieldname.
  rewrite index_nonneg by lia. change (Z.to_nat 0) with 0%nat.
  pose proof (split_head "." raster) as Hh.
  rewrite <- head_lookup, Hh. simpl.
  set (tokens := Py.split "_" (before_first "." raster)).
  rewrite (index_minus_one tokens "") by apply split_not_nil. simpl.
  rewrite index_nonneg by lia. change (Z.to_nat 1) with 1%nat.
  by destruct (tokens !! 1%nat).
Qed.

(** ** Running a sequence *)

Lemma bind_ok {A B} (m : M A) (k : A -> M B) w a w1 :
  m w = (Ok a, w1) -> bind m k w = k a w1.
Proof. unfold bind. by intros ->. Qed.

Lemma bind_raised {A B} (m : M A) (k : A -> M B) w e w1 :
  m w = (Raised e, w1) -> bind m k w = (Raised e, w1).
Proof. unfold bind. by intros ->. Qed.

Lemma bind_assign {B} f (k : unit -> M B) w : bind (assign f) k w = k tt (f w).
Proof. reflexivity. Qed.

(** ** rename_rasters *)


Lemma lookup_nth_default (l : list string) (i : nat) (x : string) :
  l !! i = Some x -> nth i l "" = x.
Proof. intros Hx. by rewrite nth_lookup, Hx. Qed.









Example rename_browser_image :
  renames (emitted (@rename_rasters posix
             (calm ["2022-09-22-00_00_2022-09-22-23_59_Sentinel-2_L2A_B04_(Raw).tiff";
                    "notes.txt"] [] "0")
             "sentinel_rasters") empty_world)
  = [("sentinel_rasters/2022-09-22-00_00_2022-09-22-23_59_Sentinel-2_L2A_B04_(Raw).tiff",
      "sentinel_rasters/Sentinel-2_L2A_B04.tiff")].
Proof. vm_compute. reflexivity. Qed.

(** ** create_file_structure *)











(** ** Failures of the system and the toolbox *)

Lemma propagates_silent {A} (m : M A) :
  (forall w, trace (m w).2 = trace w) -> propagates m.
Proof.
  intros Hm w. exists []. rewrite Hm, app_nil_r. split; [done |].
  intros c e Hin. by apply elem_of_nil in Hin.
Qed.

Lemma propagates_ret {A} (a : A) : propagates (ret a).
Proof. by apply propagates_silent. Qed.

Lemma propagates_raise {A} e : propagates (@raise A e).
Proof. by apply propagates_silent. Qed.

Lemma propagates_eval {A} (o : outcome A) : propagates (eval o).
Proof. by apply propagates_silent. Qed.

Lemma propagates_path_exists p : propagates (path_exists p).
Proof. by apply propagates_silent. Qed.

Lemma propagates_set_workspace p : propagates (assign (set_workspace p)).
Proof. by apply propagates_silent. Qed.

Lemma propagates_set_overwriteOutput b : propagates (assign (set_overwriteOutput b)).
Proof. by apply propagates_silent. Qed.

Lemma propagates_print l : propagates (print l).
Proof.
  intros w. exists [Printed l]. split; [done |].
  intros c e Hin. apply list_elem_of_singleton in Hin. discriminate.
Qed.

(** a single call: the only event is the call with its answer *)
Lemma propagates_single {A} (m : M A) c :
  (forall w, exists r, trace (m w).2 = trace w ++ [Called c r]
                       /\ forall e, r = Raised e -> (m w).1 = Raised e) ->
  propagates m.
Proof.
  intros Hm w. destruct (Hm w) as (r & E & Hr).
  exists [Called c r]. split; [done |].
  intros c' e Hin. apply list_elem_of_singleton in Hin.
  inversion Hin; subst. split; [by apply Hr | done].
Qed.

Lemma propagates_proc env c : propagates (proc env c).
Proof.
  apply (propagates_single _ c). intros w. unfold proc.
  destruct (proc_reply env w c) as [[]|e]; eexists; (split; [done |]).
  - discriminate.
  - by intros ? [= ->].
Qed.

Lemma propagates_makedirs env p : propagates (makedirs env p).
Proof.
  apply (propagates_single _ (os_makedirs p)). intros w. unfold makedirs.
  case_bool_decide.
  - eexists. split; [done |]. by intros ? [= ->].
  - destruct (proc_reply env w _) as [[]|e]; eexists; (split; [done |]).
    + discriminate.
    + by intros ? [= ->].
Qed.

Lemma propagates_list_rasters env : propagates (list_rasters env).
Proof.
  apply (propagates_single _ ListRasters). intros w. unfold list_rasters.
  destruct (ListRasters_reply env w); eexists; (split; [done |]).
  - discriminate.
  - by intros ? [= ->].
Qed.

Lemma propagates_get_raster_properties env r prop :
  propagates (get_raster_properties env r prop).
Proof.
  apply (propagates_single _ (GetRasterProperties_management r prop)).
  intros w. unfold get_raster_properties.
  destruct (GetRasterProperties_reply env w r prop); eexists; (split; [done |]).
  - discriminate.
  - by intros ? [= ->].
Qed.

Lemma propagates_focal_statistics env r n st :
  propagates (focal_statistics env r n st).
Proof.
  apply (propagates_single _ (FocalStatistics r n st)).
  intros w. unfold focal_statistics.
  destruct (FocalStatistics_reply env w r n st); eexists; (split; [done |]).
  - discriminate.
  - by intros ? [= ->].
Qed.

(** Sequencing has no handler: what the first statement raised is raised,
    and the second statement runs only after the first returned. *)
Lemma propagates_bind {A B} (m : M A) (k : A -> M B) :
  propagates m -> (forall a, propagates (k a)) -> propagates (bind m k).
Proof.
  intros Hm Hk w. destruct (Hm w) as (n1 & E1 & P1).
  destruct (m w) as [[a|e0] w1] eqn:Em; simpl in *.
  - rewrite (bind_ok _ _ _ _ _ Em).
    destruct (Hk a w1) as (n2 & E2 & P2).
    exists (n1 ++ n2). split; [by rewrite E2, E1, app_assoc |].
    intros c e Hin. apply elem_of_app in Hin as [Hin|Hin].
    + by destruct (P1 c e Hin) as [? _].
    + destruct (P2 c e Hin) as [R2 L2]. split; [done |].
      by rewrite last_app, L2.
  - rewrite (bind_raised _ _ _ _ _ Em). exists n1. split; [done |].
    intros c e Hin. destruct (P1 c e Hin) as [[= ->] L1]. by split.
Qed.

Lemma propagates_for_each {A} (l : list A) body :
  (forall x, propagates (body x)) -> propagates (for_each l body).
Proof.
  intros Hb. induction l as [|x l IH]; simpl.
  - apply propagates_ret.
  - apply propagates_bind; auto.
Qed.

Lemma propagates_for_each_in {A} (v : option (list A)) body :
  (forall x, propagates (body x)) -> propagates (for_each_in v body).
Proof.
  intros Hb. destruct v; simpl.
  - by apply propagates_for_each.
  - apply propagates_raise.
Qed.

Lemma propagates_ensure_folder env p : propagates (ensure_folder env p).
Proof.
  unfold ensure_folder. apply propagates_bind.
  - apply propagates_path_exists.
  - intros []; simpl; [apply propagates_ret | apply propagates_makedirs].
Qed.

(** walks a statement built from [bind], loops and primitive calls: none
    of them is a handler *)
Ltac walk_statement :=
  repeat first
    [ apply propagates_ensure_folder
    | apply propagates_bind; [| intros ?]
    | apply propagates_for_each_in; intros ?
    | apply propagates_for_each; intros ?
    | apply propagates_ret
    | apply propagates_raise
    | apply propagates_eval
    | apply propagates_set_workspace
    | apply propagates_set_overwriteOutput
    | apply propagates_print
    | apply propagates_proc
    | apply propagates_list_rasters
    | apply propagates_get_raster_properties
    | apply propagates_focal_statistics
    | progress cbv zeta
    | match goal with
      | |- propagates (match ?v with _ => _ end) => destruct v
      end ].

Lemma propagates_apply_resampling `{Runtime} env i o c t :
  propagates (apply_resampling env i o c t).
Proof. unfold apply_resampling, resample_one. walk_statement. Qed.

Lemma propagates_apply_focal_statistics `{Runtime} env i o radius st :
  propagates (apply_focal_statistics env i o radius st).
Proof. unfold apply_focal_statistics, focal_one. walk_statement. Qed.

Lemma propagates_create_fishnet `{Runtime} env r o n :
  propagates (create_fishnet env r o n).
Proof. unfold create_fishnet. walk_statement. Qed.

Lemma propagates_extract_values `{Runtime} env pts rf o f :
  propagates (extract_values env pts rf o f).
Proof. unfold extract_values. walk_statement. Qed.

Lemma propagates_fails_through {A} (m : M A) : propagates m -> fails_through m.
Proof.
  intros Hm w c e Hin. destruct (Hm w) as (new & E & Hnew).
  rewrite (emitted_eq _ _ _ E) in *.
  apply Hnew. by apply list_elem_of_In.
Qed.

(** *** With a console that may refuse *)

(** with a console that takes every line, the statements of [Stdout] are
    the ones above *)
Lemma accepting_console `{Runtime} env :
  Stdout.rename_rasters accepting env = rename_rasters env
  /\ Stdout.create_file_structure accepting env = create_file_structure env
  /\ Stdout.apply_resampling accepting env = apply_resampling env
  /\ Stdout.apply_focal_statistics accepting env = apply_focal_statistics env
  /\ Stdout.create_fishnet accepting env = create_fishnet env
  /\ Stdout.extract_values accepting env = extract_values env.
Proof. repeat split. Qed.

Lemma stdout_print_cases out l w :
  (print_reply out w l = Ok tt /\ Stdout.print out l w = (Ok tt, log (Printed l) w))
  \/ (exists e, print_reply out w l = Raised e /\ Stdout.print out l w = (Raised e, w)).
Proof.
  unfold Stdout.print. destruct (print_reply out w l) as [[]|e]; [by left | right].
  by exists e.
Qed.

Lemma propagates_stdout_print out l : propagates (Stdout.print out l).
Proof.
  intros w. destruct (stdout_print_cases out l w) as [[_ ->]|(e & _ & ->)].
  - exists [Printed l]. split; [done |].
    intros c e Hin. apply list_elem_of_singleton in Hin. discriminate.
  - exists []. cbn [fst snd]. rewrite app_nil_r. split; [done |].
    intros c e' Hin. by apply elem_of_nil in Hin.
Qed.

Ltac walk_stdout :=
  repeat first [ apply propagates_stdout_print | progress walk_statement ].

Lemma propagates_stdout_apply_resampling `{Runtime} out env i o c t :
  propagates (Stdout.apply_resampling out env i o c t).
Proof. unfold Stdout.apply_resampling, Stdout.resample_one. walk_stdout. Qed.

Lemma propagates_stdout_apply_focal_statistics `{Runtime} out env i o radius st :
  propagates (Stdout.apply_focal_statistics out env i o radius st).
Proof. unfold Stdout.apply_focal_statistics, Stdout.focal_one. walk_stdout. Qed.

Lemma propagates_stdout_create_fishnet `{Runtime} out env r o n :
  propagates (Stdout.create_fishnet out env r o n).
Proof. unfold Stdout.create_fishnet. walk_stdout. Qed.

Lemma propagates_stdout_extract_values `{Runtime} out env pts rf o f :
  propagates (Stdout.extract_values out env pts rf o f).
Proof. unfold Stdout.extract_values. walk_stdout. Qed.

(** the handler of [rename_rasters], entered in [w1] with [pre] left by the
    body: the file is done with if the line is taken, the run ends if not *)
Lemma handler_run `{Runtime} out d file w w1 pre :
  trace w1 = trace w ++ pre ->
  handled d file (pre ++ [not_renamed file]) ->
  cut_short d file pre ->
  let m := Stdout.print out (Text (file +:+ " not renamed.")) in
  exists new,
    trace (m w1).2 = trace w ++ new
    /\ (((m w1).1 = Ok tt /\ handled d file new)
        \/ exists e w',
             (m w1).1 = Raised e
             /\ print_reply out w' (Text (file +:+ " not renamed.")) = Raised e
             /\ cut_short d file new).
Proof.
  intros Ht Hdone Hcut m. subst m.
  destruct (stdout_print_cases out (Text (file +:+ " not renamed.")) w1)
    as [[_ ->]|(e & He & ->)]; cbn [fst snd].
  - exists (pre ++ [not_renamed file]).
    split; [by rewrite trace_log, Ht, <- app_assoc |]. by left.
  - exists pre. split; [done |]. right. by exists e, w1.
Qed.

Lemma stdout_file_run `{Runtime} out env d file w :
  let m := try_except (Stdout.rename_one out env d file)
             (Stdout.print out (Text (file +:+ " not renamed."))) in
  exists new,
    trace (m w).2 = trace w ++ new
    /\ (((m w).1 = Ok tt /\ handled d file new)
        \/ exists e w',
             (m w).1 = Raised e
             /\ print_reply out w' (Text (file +:+ " not renamed.")) = Raised e
             /\ cut_short d file new).
Proof.
  assert (forall w1, trace w1 = trace w ++ [] -> sentinel_shape 7 file = false ->
            ((5 <= length (tokens file))%nat -> sentinel_shape 5 file = true) ->
            let m := Stdout.print out (Text (file +:+ " not renamed.")) in
            exists new,
              trace (m w1).2 = trace w ++ new
              /\ (((m w1).1 = Ok tt /\ handled d file new)
                  \/ exists e w',
                       (m w1).1 = Raised e
                       /\ print_reply out w' (Text (file +:+ " not renamed."))
                          = Raised e
                       /\ cut_short d file new)) as Hshort.
  { intros w1 Ht H7 H5. apply (handler_run out d file w w1 []); [done | |].
    - left. by apply file_too_short.
    - by apply cut_before_rename. }
  unfold try_except, Stdout.rename_one, bind, eval.
  rewrite !index_nonneg by lia.
  change (Z.to_nat 4) with 4%nat. change (Z.to_nat 5) with 5%nat.
  change (Z.to_nat 6) with 6%nat. fold (tokens file).
  destruct (tokens file !! 4%nat) as [t4|] eqn:E4.
  2:{ apply lookup_ge_None in E4. apply Hshort; [by rewrite app_nil_r | | lia].
      unfold sentinel_shape. apply andb_false_intro1, Nat.leb_gt. lia. }
  pose proof (lookup_lt_Some _ _ _ E4) as L4.
  pose proof (lookup_nth_default _ _ _ E4) as N4.
  destruct (Py.startswith t4 "Sentinel") eqn:Es.
  2:{ exists []. simpl. rewrite app_nil_r. split; [done |]. left. split; [done |].
      left. apply file_skipped; [| lia].
      unfold sentinel_shape. rewrite N4, Es. apply andb_false_r. }
  assert (sentinel_shape 5 file = true) as S5.
  { unfold sentinel_shape. rewrite N4, Es, andb_true_r. apply Nat.leb_le. lia. }
  destruct (tokens file !! 5%nat) as [t5|] eqn:E5.
  2:{ apply lookup_ge_None in E5. apply Hshort; [by rewrite app_nil_r | | done].
      unfold sentinel_shape. apply andb_false_intro1, Nat.leb_gt. lia. }
  destruct (tokens file !! 6%nat) as [t6|] eqn:E6.
  2:{ apply lookup_ge_None in E6. apply Hshort; [by rewrite app_nil_r | | done].
      unfold sentinel_shape. apply andb_false_intro1, Nat.leb_gt. lia. }
  pose proof (lookup_lt_Some _ _ _ E6) as L6.
  assert (sentinel_shape 7 file = true) as S7.
  { unfold sentinel_shape. rewrite N4, Es, andb_true_r. apply Nat.leb_le. lia. }
  assert (t4 +:+ "_" +:+ t5 +:+ "_" +:+ t6 +:+ (splitext file).2 = short_name file) as ->.
  { unfold short_name.
    by rewrite N4, (lookup_nth_default _ _ _ E5), (lookup_nth_default _ _ _ E6). }
  fold (rename_request d file).
  unfold proc.
  destruct (proc_reply env w (rename_request d file)) as [[]|e0].
  - set (w1 := log (Called (rename_request d file) (Ok VNone)) w).
    destruct (stdout_print_cases out
                (Text ("Renamed '" +:+ file +:+ "' to '" +:+ short_name file +:+ "'")) w1)
      as [[_ ->]|(e1 & _ & ->)].
    + eexists [_; _]. cbn [fst snd].
      split; [unfold w1; by rewrite !trace_log, <- app_assoc |].
      left. split; [done |]. left. by apply file_renamed.
    + apply (handler_run out d file w w1 [Called (rename_request d file) (Ok VNone)]).
      * unfold w1. by rewrite trace_log.
      * by right.
      * by apply cut_after_rename.
  - apply (handler_run out d file w _ [Called (rename_request d file) (Raised e0)]).
    + by rewrite trace_log.
    + left. by apply file_rename_failed.
    + by apply cut_after_rename.
Qed.

Lemma stdout_rename_loop_run `{Runtime} out env d files w :
  let m := for_each files (fun file =>
             try_except (Stdout.rename_one out env d file)
                        (Stdout.print out (Text (file +:+ " not renamed.")))) in
  exists (n : nat) chunks rest,
    trace (m w).2 = trace w ++ concat chunks ++ rest
    /\ Forall2 (handled d) (take n files) chunks
    /\ (((m w).1 = Ok tt /\ n = length files /\ rest = [])
        \/ exists file e w',
             files !! n = Some file
             /\ (m w).1 = Raised e
             /\ print_reply out w' (Text (file +:+ " not renamed.")) = Raised e
             /\ cut_short d file rest).
Proof.
  revert w. induction files as [|file files IH]; intros w; cbn [for_each].
  - exists 0%nat, [], []. simpl. rewrite app_nil_r.
    split; [done |]. split; [constructor |]. by left.
  - destruct (stdout_file_run out env d file w)
      as (new & E1 & [[R1 H1]|(e & w' & R1 & Hp & Hcut)]); cbv zeta in E1, R1.
    + destruct (try_except _ _ w) as [r w1] eqn:Et. cbn [fst snd] in E1, R1. subst r.
      rewrite (bind_ok _ _ _ _ _ Et).
      destruct (IH w1) as (n & chunks & rest & E2 & F2 & Hend).
      exists (S n), (new :: chunks), rest.
      split; [cbn [concat]; by rewrite E2, E1, <- !app_assoc |].
      split; [by constructor |].
      destruct Hend as [(R2 & -> & ->)|(f & e & w' & Hf & R2 & Hp & Hcut)].
      * by left.
      * right. by exists f, e, w'.
    + destruct (try_except _ _ w) as [r w1] eqn:Et. cbn [fst snd] in E1, R1. subst r.
      rewrite (bind_raised _ _ _ _ _ Et). cbn [fst snd].
      exists 0%nat, [], new. split; [done |]. split; [constructor |].
      right. by exists file, e, w'.
Qed.

Lemma stdout_rename_rasters_run `{Runtime} out env d w :
  match listdir_reply env w d with
  | Raised e =>
      Stdout.rename_rasters out env d w
      = (Raised e, log (Called (os_listdir d) (Raised e)) w)
  | Ok files =>
      exists (n : nat) chunks rest,
        emitted (Stdout.rename_rasters out env d) w
        = Called (os_listdir d) (Ok (VNames (Some files))) :: concat chunks ++ rest
        /\ Forall2 (handled d) (take n files) chunks
        /\ (((Stdout.rename_rasters out env d w).1 = Ok tt
             /\ n = length files /\ rest = [])
            \/ exists file e w',
                 files !! n = Some file
                 /\ (Stdout.rename_rasters out env d w).1 = Raised e
                 /\ print_reply out w' (Text (file +:+ " not renamed.")) = Raised e
                 /\ cut_short d file rest)
  end.
Proof.
  destruct (listdir_reply env w d) as [files|e] eqn:El.
  - assert (listdir env d w
            = (Ok files, log (Called (os_listdir d) (Ok (VNames (Some files)))) w))
      as Hl by (unfold listdir; by rewrite El).
    unfold emitted, Stdout.rename_rasters. rewrite (bind_ok _ _ _ _ _ Hl).
    destruct (stdout_rename_loop_run out env d files
                (log (Called (os_listdir d) (Ok (VNames (Some files)))) w))
      as (n & chunks & rest & E & F & Hend).
    cbv zeta in E, Hend. exists n, chunks, rest.
    split; [| by split].
    rewrite E, trace_log, <- app_assoc. by rewrite drop_app_length.
  - unfold Stdout.rename_rasters. apply bind_raised. unfold listdir. by rewrite El.
Qed.

(** C3, as the code has it.  rename_rasters raises in two cases only: what
    listing the input folder raised, or what the console raised at the
    "not renamed" line of a file, the print of the handler being outside
    the try.  Apart from that every file of the listing is handled in
    turn: an exception met while handling a file (a missing token, a
    refused rename, a refused "Renamed" line) leaves the "not renamed" line
    and the files after it are handled all the same; if the console takes
    the "not renamed" lines, the run returns.  When the console refuses
    that line for a file, the files before it were handled, the run raises
    the refusal, and the files after it are not looked at.
    apply_resampling, apply_focal_statistics, create_fishnet and
    extract_values have no handler: a call answered by an exception is
    their last act, and they raise that exception. *)
Theorem failures_caught_or_propagated `{Runtime} (out : Console) (env : Env) :
  (forall input_folder w,
     let run := Stdout.rename_rasters out env input_folder in
     match listdir_reply env w input_folder with
     | Raised e =>
         run w = (Raised e, log (Called (os_listdir input_folder) (Raised e)) w)
     | Ok files =>
         (exists (n : nat) chunks rest,
            emitted run w
            = Called (os_listdir input_folder) (Ok (VNames (Some files)))
              :: concat chunks ++ rest
            /\ Forall2 (handled input_folder) (take n files) chunks
            /\ (((run w).1 = Ok tt /\ n = length files /\ rest = [])
                \/ exists file e w',
                     files !! n = Some file
                     /\ (run w).1 = Raised e
                     /\ print_reply out w' (Text (file +:+ " not renamed."))
                        = Raised e
                     /\ cut_short input_folder file rest))
         /\ ((forall file w', In file files ->
                print_reply out w' (Text (file +:+ " not renamed.")) = Ok tt) ->
             (run w).1 = Ok tt)
     end)
  /\ (forall input_folder output_folder cellsize resampling_type,
        fails_through
          (Stdout.apply_resampling out env input_folder output_folder cellsize
             resampling_type))
  /\ (forall input_folder output_folder radius statistic_type,
        fails_through
          (Stdout.apply_focal_statistics out env input_folder output_folder radius
             statistic_type))
  /\ (forall input_raster output_folder output_name,
        fails_through
          (Stdout.create_fishnet out env input_raster output_folder output_name))
  /\ (forall in_points_file rasters_folder output_folder output_file,
        fails_through
          (Stdout.extract_values out env in_points_file rasters_folder output_folder
             output_file)).
Proof.
  split.
  { intros d w run. subst run.
    pose proof (stdout_rename_rasters_run out env d w) as Hrun.
    destruct (listdir_reply env w d) as [files|e]; [| exact Hrun].
    split; [exact Hrun |].
    intros Htaken.
    destruct Hrun as (n & chunks & rest & _ & _
                      & [(Hok & _)|(file & e & w' & Hn & _ & Hp & _)]); [done |].
    rewrite (Htaken file w') in Hp; [discriminate |].
    by apply list_elem_of_In, (list_elem_of_lookup_2 _ n). }
  split; [| split; [| split]]; intros ? ? ? ?; apply propagates_fails_through.
  - apply propagates_stdout_apply_resampling.
  - apply propagates_stdout_apply_focal_statistics.
  - apply propagates_stdout_create_fishnet.
  - apply propagates_stdout_extract_values.
Qed.

(** C3, as stated, fails: the listing of the input folder is outside the
    try, so a folder that cannot be listed makes rename_rasters raise. *)
Lemma rename_rasters_raises_on_missing_folder :
  (@rename_rasters posix (unlistable (EnvError "FileNotFoundError"))
     "sentinel_rasters" empty_world).1
  = Raised (EnvError "FileNotFoundError").
Proof. vm_compute. reflexivity. Qed.

(** the handler's own print is outside the try: on a standard output that
    cannot take the "not renamed" line, the first file that needs it ends
    the run, and the files after it are not looked at *)
Example rename_rasters_raises_at_refused_line :
  @Stdout.rename_rasters posix (refusing (EnvError "UnicodeEncodeError"))
    (calm ["notes.txt"; "a_b_c_d_Sentinel-2_L2A_B04_x.tiff"] [] "0") "in" empty_world
  = (Raised (EnvError "UnicodeEncodeError"),
     mkWorld ∅ None false
       [Called (os_listdir "in")
          (Ok (VNames (Some ["notes.txt"; "a_b_c_d_Sentinel-2_L2A_B04_x.tiff"])))]).
Proof. vm_compute. reflexivity. Qed.

(** a refused "Renamed" line is inside the try: the file was renamed and is
    reported as not renamed *)
Example renamed_yet_reported_as_not :
  let no_renamed_line :=
    {| print_reply := fun _ l =>
         match l with
         | Text s => if Py.startswith s "Renamed" then Raised ValueError else Ok tt
         | _ => Ok tt
         end |} in
  @Stdout.rename_rasters posix no_renamed_line
    (calm ["a_b_c_d_Sentinel-2_L2A_B04_x.tiff"] [] "0") "in" empty_world
  = (Ok tt,
     mkWorld ∅ None false
       [Called (os_listdir "in")
          (Ok (VNames (Some ["a_b_c_d_Sentinel-2_L2A_B04_x.tiff"])));
        Called (os_rename "in/a_b_c_d_Sentinel-2_L2A_B04_x.tiff"
                          "in/Sentinel-2_L2A_B04.tiff") (Ok VNone);
        not_renamed "a_b_c_d_Sentinel-2_L2A_B04_x.tiff"]).
Proof. vm_compute. reflexivity. Qed.

(** a refused rename is logged and the next file is still renamed *)
Example rename_continues_after_failure :
  let refuse_first :=
    {| listdir_reply := fun _ _ =>
         Ok ["a_b_c_d_Sentinel-2_L2A_B04_x.tiff"; "a_b_c_d_Sentinel-2_L2A_B08_x.tiff"];
       proc_reply := fun w _ =>
         if (length (trace w) <=? 1)%nat then Raised FileExistsError else Ok tt;
       ListRasters_reply := fun _ => Ok None;
       GetRasterProperties_reply := fun _ _ _ => Ok "0";
       FocalStatistics_reply := fun _ _ _ _ => Ok 0%nat |} in
  @rename_rasters posix refuse_first "in" empty_world
  = (Ok tt,
     mkWorld ∅ None false
       [Called (os_listdir "in")
          (Ok (VNames (Some ["a_b_c_d_Sentinel-2_L2A_B04_x.tiff";
                             "a_b_c_d_Sentinel-2_L2A_B08_x.tiff"])));
        Called (os_rename "in/a_b_c_d_Sentinel-2_L2A_B04_x.tiff"
                          "in/Sentinel-2_L2A_B04.tiff") (Raised FileExistsError);
        not_renamed "a_b_c_d_Sentinel-2_L2A_B04_x.tiff";
        Called (os_rename "in/a_b_c_d_Sentinel-2_L2A_B08_x.tiff"
                          "in/Sentinel-2_L2A_B08.tiff") (Ok VNone);
        Printed (Text "Renamed 'a_b_c_d_Sentinel-2_L2A_B08_x.tiff' to 'Sentinel-2_L2A_B08.tiff'")]).
Proof. vm_compute. reflexivity. Qed.

(** a resample request the toolbox refuses ends apply_resampling *)
Example resample_failure_halts :
  let refuse_resample :=
    {| listdir_reply := fun _ _ => Ok [];
       proc_reply := fun _ c =>
         match c with
         | Resample_management _ _ _ _ => Raised (EnvError "ExecuteError")
         | _ => Ok tt
         end;
       ListRasters_reply := fun _ => Ok (Some ["a.tif"; "b.tif"]);
       GetRasterProperties_reply := fun _ _ _ => Ok "0";
       FocalStatistics_reply := fun _ _ _ _ => Ok 0%nat |} in
  (@apply_resampling posix refuse_resample "in" "out" "10" "NEAREST" empty_world).1
  = Raised (EnvError "ExecuteError")
  /\ calls (emitted (@apply_resampling posix refuse_resample "in" "out" "10" "NEAREST")
                    empty_world)
     = [ListRasters; os_makedirs "out";
        Resample_management "a.tif" "out/resampled_a.tif" "10" "NEAREST"].
Proof. split; vm_compute; reflexivity. Qed.

(** ** Loops that follow a plan *)

Section Plays.
Context {B : Type} (pc : Call -> option B).

Lemma plays_silent {A} (m : M A) plan :
  (forall w, trace (m w).2 = trace w) ->
  (forall w a, (m w).1 = Ok a -> plan = []) ->
  plays pc m plan.
Proof.
  intros Hm Hp w. exists []. rewrite Hm, app_nil_r.
  split; [done |]. split; [apply prefix_nil |].
  intros a Ha. by rewrite (Hp w a Ha).
Qed.

Lemma plays_ret {A} (a : A) : plays pc (ret a) [].
Proof. by apply plays_silent. Qed.

Lemma plays_raise {A} e plan : plays pc (@raise A e) plan.
Proof. by apply plays_silent. Qed.

Lemma plays_print l : plays pc (print l) [].
Proof.
  intros w. exists [Printed l]. split; [done |]. by split.
Qed.

Lemma plays_proc env c : plays pc (proc env c) (option_list (pc c)).
Proof.
  intros w. unfold proc.
  destruct (proc_reply env w c) as [[]|e]; eexists [_];
    (split; [done |]); simpl; by destruct (pc c).
Qed.

Lemma plays_focal_statistics env r n st :
  plays pc (focal_statistics env r n st) (option_list (pc (FocalStatistics r n st))).
Proof.
  intros w. unfold focal_statistics.
  destruct (FocalStatistics_reply env w r n st); eexists [_];
    (split; [done |]); simpl; by destruct (pc _).
Qed.

Lemma plays_bind {A C} (m : M A) (k : A -> M C) p1 p2 :
  plays pc m p1 -> (forall a, plays pc (k a) p2) -> plays pc (bind m k) (p1 ++ p2).
Proof.
  intros Hm Hk w. destruct (Hm w) as (n1 & E1 & P1 & F1).
  destruct (m w) as [[a|e0] w1] eqn:Em; simpl in *.
  - rewrite (bind_ok _ _ _ _ _ Em).
    destruct (Hk a w1) as (n2 & E2 & P2 & F2).
    exists (n1 ++ n2). split; [by rewrite E2, E1, app_assoc |].
    rewrite calls_app, omap_app, (F1 a eq_refl). split.
    + by apply prefix_app.
    + intros c Hc. by rewrite (F2 c Hc).
  - rewrite (bind_raised _ _ _ _ _ Em). exists n1. split; [done |]. split.
    + by apply prefix_app_r.
    + discriminate.
Qed.

Lemma plays_for_each {A} (l : list A) body (plan : A -> list B) :
  (forall x, plays pc (body x) (plan x)) ->
  plays pc (for_each l body) (x ← l; plan x).
Proof.
  intros Hb. induction l as [|x l IH]; simpl.
  - apply plays_ret.
  - by apply plays_bind.
Qed.

End Plays.

Lemma plays_emitted {B} (pc : Call -> option B) {A} (m : M A) plan w :
  plays pc m plan ->
  omap pc (calls (emitted m w)) `prefix_of` plan
  /\ (forall a, (m w).1 = Ok a -> omap pc (calls (emitted m w)) = plan).
Proof.
  intros Hm. destruct (Hm w) as (new & E & P & F).
  by rewrite (emitted_eq _ _ _ E).
Qed.

(** ** apply_focal_statistics *)

Lemma bind_singleton {A B} (f : A -> B) (l : list A) :
  (x ← l; [f x]) = f <$> l.
Proof.
  induction l as [|x l IH]; [done |].
  change (f x :: (y ← l; [f y]) = f x :: (f <$> l)). by rewrite IH.
Qed.

Lemma fmap_of_bind {A B C} (f : B -> C) (g : A -> list B) (l : list A) :
  f <$> (x ← l; g x) = (x ← l; f <$> g x).
Proof.
  induction l as [|x l IH]; [done |].
  by rewrite !bind_cons, fmap_app, IH.
Qed.

Lemma focal_one_ops `{Runtime} env o st raster rad :
  plays focal_op (focal_one env o st raster rad) [(raster, rad)].
Proof.
  unfold focal_one. cbv zeta.
  apply (plays_bind _ _ _ [(raster, rad)] []).
  - apply (plays_focal_statistics focal_op).
  - intros h. apply (plays_bind _ _ _ [] []).
    + apply (plays_proc focal_op).
    + intros _. apply plays_print.
Qed.

Lemma focal_one_saves `{Runtime} env o st raster rad :
  plays saved_path (focal_one env o st raster rad) [focal_path o rad raster].
Proof.
  unfold focal_one. cbv zeta.
  apply (plays_bind _ _ _ [] [focal_path o rad raster]).
  - apply (plays_focal_statistics saved_path).
  - intros h. apply (plays_bind _ _ _ [focal_path o rad raster] []).
    + apply (plays_proc saved_path).
    + intros _. apply plays_print.
Qed.

Lemma focal_loops_ops `{Runtime} env o st radius rasters :
  plays focal_op
    (for_each rasters (fun raster => for_each radius (focal_one env o st raster)))
    (schedule rasters radius).
Proof.
  unfold schedule. apply plays_for_each. intros raster.
  rewrite <- bind_singleton. apply plays_for_each. intros rad.
  apply focal_one_ops.
Qed.

Lemma focal_loops_saves `{Runtime} env o st radius rasters :
  plays saved_path
    (for_each rasters (fun raster => for_each radius (focal_one env o st raster)))
    ((fun '(raster, rad) => focal_path o rad raster) <$> schedule rasters radius).
Proof.
  unfold schedule. rewrite fmap_of_bind.
  apply plays_for_each. intros raster.
  rewrite <- list_fmap_compose, <- bind_singleton.
  apply plays_for_each. intros rad. apply focal_one_saves.
Qed.

Lemma project_after_listing {B} (pc : Call -> option B) r pre new :
  pc ListRasters = None -> omap pc (calls pre) = [] ->
  omap pc (calls ([Called ListRasters r] ++ pre ++ new)) = omap pc (calls new).
Proof.
  intros HL Hpre. rewrite !calls_app, !omap_app, Hpre.
  change (calls [Called ListRasters r]) with [ListRasters].
  change (omap pc [ListRasters]) with (option_list (pc ListRasters)).
  by rewrite HL.
Qed.

Lemma project_setup {B} (pc : Call -> option B) r pre :
  pc ListRasters = None -> omap pc (calls pre) = [] ->
  omap pc (calls ([Called ListRasters r] ++ pre)) = [].
Proof.
  intros HL Hpre. rewrite <- (app_nil_r pre).
  by rewrite (project_after_listing pc r pre []).
Qed.

Lemma listed_first l t :
  listed ([Called ListRasters (Ok (VNames (Some l)))] ++ t) = l.
Proof. reflexivity. Qed.

(** [ensure_folder] adds at most a directory creation to the trace *)
Lemma ensure_folder_run env o w :
  exists pre w1 r,
    ensure_folder env o w = (r, w1)
    /\ trace w1 = trace w ++ pre
    /\ Forall (fun e => exists res, e = Called (os_makedirs o) res) pre.
Proof.
  unfold ensure_folder, bind, path_exists, makedirs.
  case_bool_decide; simpl.
  - exists [], w, (Ok tt). by rewrite app_nil_r.
  - rewrite bool_decide_eq_false_2 by done.
    destruct (proc_reply env w _) as [[]|e]; eexists [_], _, _;
      (split; [done |]); (split; [done |]); repeat constructor; by eexists.
Qed.

Lemma makedirs_projected {B} (pc : Call -> option B) o pre :
  pc (os_makedirs o) = None ->
  Forall (fun e => exists res, e = Called (os_makedirs o) res) pre ->
  omap pc (calls pre) = [].
Proof.
  intros HM. induction 1 as [|e pre [res ->] _ IH]; [done |].
  unfold calls in *. simpl. by rewrite HM.
Qed.

(** The whole function: the two settings, the listing and the output folder
    come first and add nothing to a projection that ignores them; the loops
    then follow the plan for the names that were listed. *)
Lemma apply_focal_statistics_plays {B} (pc : Call -> option B)
    (plan : list string -> list B) `{Runtime} env i o radius st :
  pc ListRasters = None -> pc (os_makedirs o) = None ->
  (forall l, plays pc
     (for_each l (fun raster => for_each radius (focal_one env o st raster)))
     (plan l)) ->
  forall w,
    omap pc (calls (emitted (apply_focal_statistics env i o radius st) w))
      `prefix_of` plan (listed (emitted (apply_focal_statistics env i o radius st) w))
    /\ (forall a, (apply_focal_statistics env i o radius st w).1 = Ok a ->
          omap pc (calls (emitted (apply_focal_statistics env i o radius st) w))
          = plan (listed (emitted (apply_focal_statistics env i o radius st) w))).
Proof.
  intros HL HM Hloop w.
  unfold emitted, apply_focal_statistics.
  rewrite !bind_assign.
  set (w2 := set_overwriteOutput true (set_workspace i w)).
  change (trace w) with (trace w2).
  destruct (ListRasters_reply env w2) as [v|e] eqn:El.
  2:{ rewrite (bind_raised _ _ w2 e (log (Called ListRasters (Raised e)) w2))
        by (unfold list_rasters; by rewrite El).
      cbn [fst snd]. rewrite trace_log, drop_app_length.
      rewrite <- (app_nil_r [_]), (project_setup pc _ []) by done.
      split; [apply prefix_nil | discriminate]. }
  rewrite (bind_ok _ _ w2 v (log (Called ListRasters (Ok (VNames v))) w2))
    by (unfold list_rasters; by rewrite El).
  set (w3 := log (Called ListRasters (Ok (VNames v))) w2).
  destruct (ensure_folder_run env o w3) as (pre & w4 & r & Hens & Ht4 & Hpre).
  pose proof (makedirs_projected pc o pre HM Hpre) as Hpc.
  assert (trace w4 = trace w2 ++ [Called ListRasters (Ok (VNames v))] ++ pre) as Ht.
  { rewrite Ht4. unfold w3. by rewrite trace_log, <- app_assoc. }
  destruct r as [[]|e].
  2:{ rewrite (bind_raised _ _ _ _ _ Hens). cbn [fst snd].
      rewrite Ht, drop_app_length, (project_setup pc _ pre) by done.
      split; [apply prefix_nil | discriminate]. }
  rewrite (bind_ok _ _ _ _ _ Hens).
  destruct v as [l|]; cbn [for_each_in raise fst snd].
  2:{ rewrite Ht, drop_app_length, (project_setup pc _ pre) by done.
      split; [apply prefix_nil | discriminate]. }
  destruct (Hloop l w4) as (new & En & Pn & Fn).
  rewrite En, Ht, <- !app_assoc, !drop_app_length.
  rewrite listed_first, (project_after_listing pc _ pre new) by done.
  by split.
Qed.

Lemma schedule_cons raster rasters radius :
  schedule (raster :: rasters) radius
  = ((fun rad => (raster, rad)) <$> radius) ++ schedule rasters radius.
Proof. unfold schedule. by rewrite bind_cons. Qed.

(** position [p] of the schedule is raster [p / m] at radius [p mod m],
    for [m] radii *)
Lemma schedule_lookup rasters radius (p : nat) raster rad :
  schedule rasters radius !! p = Some (raster, rad) ->
  rasters !! (p / length radius)%nat = Some raster
  /\ radius !! (p mod length radius)%nat = Some rad.
Proof.
  revert p. induction rasters as [|r0 rasters IH]; intros p; [done |].
  rewrite schedule_cons.
  destruct (decide (p < length radius)%nat) as [Hlt|Hge].
  - rewrite lookup_app_l by (by rewrite length_fmap).
    rewrite list_lookup_fmap. intros Hp.
    destruct (radius !! p) as [rad0|] eqn:Er; [| done].
    simpl in Hp. inversion Hp; subst.
    rewrite Nat.div_small, Nat.mod_small by done. by split.
  - rewrite lookup_app_r by (rewrite length_fmap; lia).
    rewrite length_fmap. intros Hp.
    destruct (IH _ Hp) as [Hr Hrad].
    assert (length radius <> 0)%nat as Hm.
    { intros Hz. apply lookup_lt_Some in Hrad.
      rewrite Hz in Hrad. simpl in Hrad. lia. }
    replace p with ((p - length radius) + 1 * length radius)%nat at 1 2 by lia.
    rewrite Nat.div_add, Nat.Div0.mod_add by done.
    split; [| done].
    by replace ((p - length radius) / length radius + 1)%nat
      with (S ((p - length radius) / length radius)) by lia.
Qed.

(** earlier in the schedule means an earlier raster of the listing, or the
    same raster at an earlier radius *)
Lemma schedule_order rasters radius (p q : nat) a b :
  (p < q)%nat ->
  schedule rasters radius !! p = Some a ->
  schedule rasters radius !! q = Some b ->
  rasters !! (p / length radius)%nat = Some a.1
  /\ radius !! (p mod length radius)%nat = Some a.2
  /\ rasters !! (q / length radius)%nat = Some b.1
  /\ radius !! (q mod length radius)%nat = Some b.2
  /\ (p / length radius < q / length radius
      \/ (p / length radius = q / length radius
          /\ p mod length radius < q mod length radius))%nat.
Proof.
  intros Hpq Hp Hq. destruct a as [r1 d1], b as [r2 d2].
  destruct (schedule_lookup _ _ _ _ _ Hp) as [Hr1 Hd1].
  destruct (schedule_lookup _ _ _ _ _ Hq) as [Hr2 Hd2].
  set (m := length radius) in *.
  repeat split; try done.
  assert (m <> 0)%nat as Hm.
  { intros Hz. apply lookup_lt_Some in Hd1. fold m in Hd1.
    rewrite Hz in Hd1. simpl in Hd1. lia. }
  pose proof (Nat.div_mod_eq p m) as Ep.
  pose proof (Nat.div_mod_eq q m) as Eq.
  pose proof (Nat.mod_upper_bound p m Hm) as Bp.
  pose proof (Nat.mod_upper_bound q m Hm) as Bq.
  destruct (Nat.lt_trichotomy (p / m) (q / m)) as [Hlt|[Heq|Hgt]].
  - by left.
  - right. split; [done |]. rewrite Heq in Ep. lia.
  - exfalso. nia.
Qed.

Lemma focal_one_steps `{Runtime} env o st raster rad :
  plays focal_step (focal_one env o st raster rad)
    [Requested raster rad; Saved (focal_path o rad raster)].
Proof.
  unfold focal_one. cbv zeta.
  apply (plays_bind _ _ _ [Requested raster rad] [Saved (focal_path o rad raster)]).
  - apply (plays_focal_statistics focal_step).
  - intros h. apply (plays_bind _ _ _ [Saved (focal_path o rad raster)] []).
    + apply (plays_proc focal_step).
    + intros _. apply plays_print.
Qed.

Lemma focal_plan_cons `{Runtime} o raster rasters radius :
  focal_plan o (raster :: rasters) radius
  = (rad ← radius; [Requested raster rad; Saved (focal_path o rad raster)])
    ++ focal_plan o rasters radius.
Proof.
  unfold focal_plan. by rewrite schedule_cons, bind_app, list_fmap_bind.
Qed.

Lemma focal_loops_steps `{Runtime} env o st radius rasters :
  plays focal_step
    (for_each rasters (fun raster => for_each radius (focal_one env o st raster)))
    (focal_plan o rasters radius).
Proof.
  induction rasters as [|raster rasters IH].
  - apply plays_ret.
  - rewrite focal_plan_cons. cbn [for_each].
    apply plays_bind; [| by intros _].
    apply plays_for_each. intros rad. apply focal_one_steps.
Qed.

(** C7.  apply_focal_statistics processes the listing strictly in order.
    The focal-statistics requests of a run are an initial part of the
    schedule "for each listed raster in listing order, every radius in the
    order of the radius list" and are the whole schedule when the run
    returns.  With m radii, request number p is for raster number p / m of
    the listing at radius number p mod m of the radius list; so of two
    requests, the earlier one is for an earlier raster of the listing, or
    for the same raster at an earlier position of the radius list.
    Requests and saves alternate along that schedule: each result is saved
    before the next request is made. *)
Theorem focal_statistics_in_listing_order `{Runtime} (env : Env)
    (input_folder output_folder : string) (radius : list Z)
    (statistic_type : string) (w : World) :
  let run := apply_focal_statistics env input_folder output_folder radius statistic_type in
  let m := length radius in
  focal_ops (emitted run w) `prefix_of` schedule (listed (emitted run w)) radius
  /\ ((run w).1 = Ok tt ->
      focal_ops (emitted run w) = schedule (listed (emitted run w)) radius)
  /\ (forall (p q : nat) a b,
        (p < q)%nat ->
        focal_ops (emitted run w) !! p = Some a ->
        focal_ops (emitted run w) !! q = Some b ->
        listed (emitted run w) !! (p / m)%nat = Some a.1
        /\ radius !! (p mod m)%nat = Some a.2
        /\ listed (emitted run w) !! (q / m)%nat = Some b.1
        /\ radius !! (q mod m)%nat = Some b.2
        /\ (p / m < q / m \/ (p / m = q / m /\ p mod m < q mod m))%nat)
  /\ focal_steps (emitted run w)
       `prefix_of` focal_plan output_folder (listed (emitted run w)) radius.
Proof.
  intros run m.
  destruct (apply_focal_statistics_plays focal_op (fun l => schedule l radius)
              env input_folder output_folder radius statistic_type
              eq_refl eq_refl (focal_loops_ops env _ _ _) w) as [Hpre Hfull].
  destruct (apply_focal_statistics_plays focal_step
              (fun l => focal_plan output_folder l radius)
              env input_folder output_folder radius statistic_type
              eq_refl eq_refl (focal_loops_steps env _ _ _) w) as [Hsteps _].
  fold run in Hpre, Hfull, Hsteps.
  split; [done |]. split; [by apply Hfull |]. split; [| done].
  intros p q a b Hpq Hp Hq.
  apply (schedule_order _ _ p q); [done | |].
  - by apply (prefix_lookup_Some _ _ _ _ Hp).
  - by apply (prefix_lookup_Some _ _ _ _ Hq).
Qed.

Lemma focal_statistics_in_listing_order_witness :
  focal_ops (emitted (@apply_focal_statistics posix (calm [] ["a.tif"; "b.tif"] "0")
                        "resampled_rasters" "focal_rasters" [10; 15] "MEAN")
                     empty_world)
  = [("a.tif", 10); ("a.tif", 15); ("b.tif", 10); ("b.tif", 15)].
Proof.
  destruct (@focal_statistics_in_listing_order posix (calm [] ["a.tif"; "b.tif"] "0")
              "resampled_rasters" "focal_rasters" [10; 15] "MEAN" empty_world)
    as (_ & Hfull & _).
  rewrite Hfull; vm_compute; reflexivity.
Defined.

Example focal_two_rasters_two_radii :
  calls (emitted (@apply_focal_statistics posix (calm [] ["a.tif"; "b.tif"] "0")
                    "resampled_rasters" "focal_rasters" [10; 15] "MEAN") empty_world)
  = [ListRasters; os_makedirs "focal_rasters";
     FocalStatistics "a.tif" (NbrCircle 10 "CELL") "MEAN";
     Raster_save 2 "focal_rasters/focal_10_a.tif";
     FocalStatistics "a.tif" (NbrCircle 15 "CELL") "MEAN";
     Raster_save 5 "focal_rasters/focal_15_a.tif";
     FocalStatistics "b.tif" (NbrCircle 10 "CELL") "MEAN";
     Raster_save 8 "focal_rasters/focal_10_b.tif";
     FocalStatistics "b.tif" (NbrCircle 15 "CELL") "MEAN";
     Raster_save 11 "focal_rasters/focal_15_b.tif"].
Proof. vm_compute. reflexivity. Qed.

(** ** Output paths *)

Lemma on_calls_In (P : Call -> Prop) t c :
  Forall (on_calls P) t -> In c (calls t) -> P c.
Proof.
  induction 1 as [|e t He _ IH]; [done |].
  destruct e as [c' r|l]; simpl; [| done].
  intros [<-|Hin]; [done | by apply IH].
Qed.

(** walks a statement, leaving the property to check at each event *)
Ltac walk_events :=
  repeat first
    [ apply emits_only_ensure_folder; done
    | apply emits_only_bind; [| intros ?]
    | apply emits_only_for_each_in; intros ?
    | apply emits_only_for_each; intros ?
    | apply emits_only_assign; done
    | apply emits_only_ret
    | apply emits_only_raise
    | apply emits_only_eval
    | apply emits_only_list_rasters; done
    | apply emits_only_get_raster_properties; done
    | apply emits_only_focal_statistics; done
    | apply emits_only_print; done
    | apply emits_only_proc; done
    | progress cbv zeta
    | match goal with
      | |- emits_only _ (match ?v with _ => _ end) => destruct v
      end ].

Lemma apply_resampling_requests `{Runtime} env i o cell ty :
  emits_only
    (on_calls (fun c =>
       match c with
       | Resample_management raster out _ technique =>
           out = resampled_path o raster /\ technique = "NEAREST"
       | _ => True
       end))
    (apply_resampling env i o cell ty).
Proof.
  unfold apply_resampling, resample_one. walk_events.
Qed.

Lemma focal_plan_adjacent `{Runtime} o rasters radius (i : nat) raster rad path :
  focal_plan o rasters radius !! i = Some (Requested raster rad) ->
  focal_plan o rasters radius !! S i = Some (Saved path) ->
  path = focal_path o rad raster.
Proof.
  unfold focal_plan. generalize (schedule rasters radius). intros l.
  revert i. induction l as [|[r0 d0] l IH]; intros i; [done |].
  rewrite bind_cons. cbn [fst snd].
  destruct i as [|[|i]]; simpl.
  - by intros [= -> ->] [= ->].
  - discriminate.
  - apply IH.
Qed.

(** C6.  Output paths are a function of the output folder, the raster name
    and (for focal statistics) the radius, and of nothing else: whatever the
    environment, the world, the input folder and the other parameters of
    two runs, a resample request for a raster writes to
    resampled_<stem>.tif in the output folder in both, and the save that
    follows a focal-statistics request for a raster at a radius writes to
    focal_<rad>_<stem>.tif in the output folder in both. *)
Theorem output_paths_deterministic `{Runtime} (env1 env2 : Env) (w1 w2 : World)
    (output_folder in1 in2 cell1 cell2 type1 type2 stat1 stat2 : string)
    (radius1 radius2 : list Z) :
  let resampling1 := emitted (apply_resampling env1 in1 output_folder cell1 type1) w1 in
  let resampling2 := emitted (apply_resampling env2 in2 output_folder cell2 type2) w2 in
  let focal1 := emitted (apply_focal_statistics env1 in1 output_folder radius1 stat1) w1 in
  let focal2 := emitted (apply_focal_statistics env2 in2 output_folder radius2 stat2) w2 in
  (forall raster path1 path2,
     In (raster, path1) (resample_requests resampling1) ->
     In (raster, path2) (resample_requests resampling2) ->
     path1 = path2
     /\ path1 = path_join output_folder
                  ("resampled_" +:+ (splitext raster).1 +:+ ".tif"))
  /\ (forall (i j : nat) raster rad path1 path2,
        focal_steps focal1 !! i = Some (Requested raster rad) ->
        focal_steps focal1 !! S i = Some (Saved path1) ->
        focal_steps focal2 !! j = Some (Requested raster rad) ->
        focal_steps focal2 !! S j = Some (Saved path2) ->
        path1 = path2
        /\ path1 = path_join output_folder
                     ("focal_" +:+ Py.str rad +:+ "_" +:+ (splitext raster).1 +:+ ".tif")).
Proof.
  intros resampling1 resampling2 focal1 focal2.
  assert (forall env i cell ty w raster path,
            In (raster, path)
               (resample_requests (emitted (apply_resampling env i output_folder cell ty) w)) ->
            path = resampled_path output_folder raster) as Hres.
  { intros env i cell ty w raster path Hin.
    unfold resample_requests in Hin.
    apply list_elem_of_In, list_elem_of_omap in Hin as (c & Hc & Hreq).
    pose proof (on_calls_In _ _ c
      (emits_only_emitted _ _ w (apply_resampling_requests env i output_folder cell ty))
      (proj1 (list_elem_of_In _ _) Hc)) as Hp.
    destruct c; try discriminate. simpl in Hreq. inversion Hreq; subst.
    by destruct Hp. }
  assert (forall env i radius st w (k : nat) raster rad path,
            focal_steps (emitted (apply_focal_statistics env i output_folder radius st) w) !! k
              = Some (Requested raster rad) ->
            focal_steps (emitted (apply_focal_statistics env i output_folder radius st) w) !! S k
              = Some (Saved path) ->
            path = focal_path output_folder rad raster) as Hfoc.
  { intros env i radius st w k raster rad path Hk HSk.
    destruct (apply_focal_statistics_plays focal_step
                (fun l => focal_plan output_folder l radius)
                env i output_folder radius st
                eq_refl eq_refl (focal_loops_steps env _ _ _) w) as [Hsteps _].
    eapply focal_plan_adjacent.
    - by apply (prefix_lookup_Some _ _ _ _ Hk).
    - by apply (prefix_lookup_Some _ _ _ _ HSk). }
  split.
  - intros raster path1 path2 H1 H2.
    rewrite (Hres _ _ _ _ _ _ _ H1), (Hres _ _ _ _ _ _ _ H2). by split.
  - intros i j raster rad path1 path2 Hi HSi Hj HSj.
    rewrite (Hfoc _ _ _ _ _ _ _ _ _ Hi HSi), (Hfoc _ _ _ _ _ _ _ _ _ Hj HSj).
    by split.
Qed.

Lemma output_paths_deterministic_witness :
  In ("Sentinel-2_L2A_B04.tiff", "resampled_rasters/resampled_Sentinel-2_L2A_B04.tif")
     (resample_requests
        (emitted (@apply_resampling posix (calm [] ["Sentinel-2_L2A_B04.tiff"] "0")
                    "sentinel_rasters" "resampled_rasters" "10" "NEAREST")
                 empty_world))
  /\ In ("Sentinel-2_L2A_B04.tiff", "resampled_rasters/resampled_Sentinel-2_L2A_B04.tif")
        (resample_requests
           (emitted (@apply_resampling posix
                       (calm [] ["Sentinel-2_L2A_B08.tiff"; "Sentinel-2_L2A_B04.tiff"] "0")
                       "downloads" "resampled_rasters" "10 10" "CUBIC")
                    project_with_output))
  /\ "resampled_rasters/resampled_Sentinel-2_L2A_B04.tif"
     = @path_join posix "resampled_rasters"
         ("resampled_" +:+ (@splitext posix "Sentinel-2_L2A_B04.tiff").1 +:+ ".tif").
Proof.
  assert (In ("Sentinel-2_L2A_B04.tiff",
              "resampled_rasters/resampled_Sentinel-2_L2A_B04.tif")
     (resample_requests
        (emitted (@apply_resampling posix (calm [] ["Sentinel-2_L2A_B04.tiff"] "0")
                    "sentinel_rasters" "resampled_rasters" "10" "NEAREST")
                 empty_world))) as H1 by (vm_compute; tauto).
  assert (In ("Sentinel-2_L2A_B04.tiff",
              "resampled_rasters/resampled_Sentinel-2_L2A_B04.tif")
        (resample_requests
           (emitted (@apply_resampling posix
                       (calm [] ["Sentinel-2_L2A_B08.tiff"; "Sentinel-2_L2A_B04.tiff"] "0")
                       "downloads" "resampled_rasters" "10 10" "CUBIC")
                    project_with_output))) as H2 by (vm_compute; tauto).
  split; [exact H1 |]. split; [exact H2 |].
  exact (proj2 (proj1 (@output_paths_deterministic posix
                         (calm [] ["Sentinel-2_L2A_B04.tiff"] "0")
                         (calm [] ["Sentinel-2_L2A_B08.tiff"; "Sentinel-2_L2A_B04.tiff"] "0")
                         empty_world project_with_output
                         "resampled_rasters" "sentinel_rasters" "downloads" "10" "10 10"
                         "NEAREST" "CUBIC" "MEAN" "MEAN" [10] [10; 15])
                      _ _ _ H1 H2)).
Defined.

Lemma on_calls_omap {B} (P : Call -> Prop) (f : Call -> option B) (Q : B -> Prop) t :
  (forall c x, P c -> f c = Some x -> Q x) ->
  Forall (on_calls P) t -> Forall Q (omap f (calls t)).
Proof.
  intros HPQ Ht. apply Forall_forall. intros x Hx.
  apply list_elem_of_omap in Hx as (c & Hc & Hf).
  apply (HPQ c x); [| done].
  apply (on_calls_In P t c Ht). by apply list_elem_of_In.
Qed.

(** C9.  apply_resampling does not read its resampling_type argument: two
    runs that differ only in that argument are the same run, and every
    resample request is made with the technique NEAREST. *)
Theorem resampling_type_is_ignored `{Runtime} (env : Env)
    (input_folder output_folder cellsize : string) (type1 type2 : string)
    (w : World) :
  apply_resampling env input_folder output_folder cellsize type1 w
  = apply_resampling env input_folder output_folder cellsize type2 w
  /\ Forall (fun technique => technique = "NEAREST")
       (omap resample_technique
          (calls (emitted
             (apply_resampling env input_folder output_folder cellsize type1) w))).
Proof.
  split; [reflexivity |].
  eapply on_calls_omap;
    [| apply emits_only_emitted, apply_resampling_requests].
  intros c technique Hc Ht. destruct c; try discriminate.
  simpl in Ht. inversion Ht; subst. by destruct Hc.
Qed.

Example resampling_cubic_requested :
  calls (emitted (@apply_resampling posix (calm [] ["a.tif"; "b.v2.tif"] "0")
                    "sentinel_rasters" "resampled_rasters" "10 10" "CUBIC") empty_world)
  = [ListRasters; os_makedirs "resampled_rasters";
     Resample_management "a.tif" "resampled_rasters/resampled_a.tif" "10 10" "NEAREST";
     Resample_management "b.v2.tif" "resampled_rasters/resampled_b.v2.tif" "10 10" "NEAREST"].
Proof. vm_compute. reflexivity. Qed.

(** ** create_fishnet *)







Example fishnet_named_grid :
  calls (emitted (@create_fishnet posix (calm [] [] "3756000")
                    "CAPA_rasters/am_t_f.tif" "fishnet" "Fishnet") empty_world)
  = [os_makedirs "fishnet";
     GetRasterProperties_management "CAPA_rasters/am_t_f.tif" "LEFT";
     GetRasterProperties_management "CAPA_rasters/am_t_f.tif" "BOTTOM";
     GetRasterProperties_management "CAPA_rasters/am_t_f.tif" "RIGHT";
     GetRasterProperties_management "CAPA_rasters/am_t_f.tif" "TOP";
     GetRasterProperties_management "CAPA_rasters/am_t_f.tif" "COLUMNCOUNT";
     GetRasterProperties_management "CAPA_rasters/am_t_f.tif" "ROWCOUNT";
     CreateFishnet "fishnet/output_name" "3756000 3756000" "3756000 3756010" 10 10
       "3756000" "3756000" "LABELS" "POLYLINE"].
Proof. vm_compute. reflexivity. Qed.

(** ** extract_values *)

Lemma extract_values_run `{Runtime} env pts rf o f w :
  exists pre rest,
    emitted (extract_values env pts rf o f) w = pre ++ rest
    /\ Forall (fun e => exists res, e = Called (os_makedirs o) res) pre
    /\ (rest = [] \/ extract_events pts o f rest).
Proof.
  unfold emitted, extract_values.
  destruct (ensure_folder_run env o w) as (pre & w1 & r & Hens & Ht1 & Hpre).
  exists pre.
  destruct r as [[]|e].
  2:{ rewrite (bind_raised _ _ _ _ _ Hens). cbn [snd]. exists [].
      rewrite Ht1, drop_app_length, app_nil_r. by repeat split; [| left]. }
  rewrite (bind_ok _ _ _ _ _ Hens). cbv zeta.
  set (out := path_join o f).
  destruct (proc_reply env w1 (CopyFeatures pts out)) as [[]|e] eqn:Ec.
  2:{ rewrite (bind_raised _ _ w1 e (log (Called (CopyFeatures pts out) (Raised e)) w1))
        by (unfold proc; by rewrite Ec).
      cbn [snd]. rewrite trace_log, Ht1, <- app_assoc, drop_app_length.
      eexists. split; [done |]. split; [done |]. right. constructor. }
  rewrite (bind_ok _ _ w1 tt (log (Called (CopyFeatures pts out) (Ok VNone)) w1))
    by (unfold proc; by rewrite Ec).
  rewrite !bind_assign.
  set (w2 := set_overwriteOutput true
               (set_workspace rf (log (Called (CopyFeatures pts out) (Ok VNone)) w1))).
  assert (trace w2 = trace w ++ pre ++ [Called (CopyFeatures pts out) (Ok VNone)]) as Ht2.
  { unfold w2. simpl. by rewrite Ht1, <- app_assoc. }
  destruct (ListRasters_reply env w2) as [v|e] eqn:El.
  2:{ rewrite (bind_raised _ _ w2 e (log (Called ListRasters (Raised e)) w2))
        by (unfold list_rasters; by rewrite El).
      cbn [snd]. rewrite trace_log, Ht2, <- !app_assoc, drop_app_length.
      eexists. split; [done |]. split; [done |]. right. apply extract_listing_failed. }
  rewrite (bind_ok _ _ w2 v (log (Called ListRasters (Ok (VNames v))) w2))
    by (unfold list_rasters; by rewrite El).
  set (w3 := log (Called ListRasters (Ok (VNames v))) w2).
  assert (trace w3 = trace w ++ pre ++ [Called (CopyFeatures pts out) (Ok VNone);
                                        Called ListRasters (Ok (VNames v))]) as Ht3.
  { unfold w3. by rewrite trace_log, Ht2, <- !app_assoc. }
  destruct v as [rasters|].
  2:{ rewrite (bind_raised _ _ w3 TypeError w3) by done.
      cbn [snd]. rewrite Ht3, drop_app_length.
      eexists. split; [done |]. split; [done |]. right. apply extract_nothing_listed. }
  destruct (build_inRasterList rasters []) as [inRasterList|e] eqn:Eb.
  2:{ rewrite (bind_raised _ _ w3 e w3) by done.
      cbn [snd]. rewrite Ht3, drop_app_length.
      eexists. split; [done |]. split; [done |]. right.
      by apply (extract_bad_name _ _ _ rasters e). }
  rewrite (bind_ok _ _ w3 inRasterList w3) by done.
  rewrite (bind_ok _ _ w3 tt (log (Printed (Pairs inRasterList)) w3)) by done.
  set (w4 := log (Printed (Pairs inRasterList)) w3).
  destruct (proc_reply env w4 (ExtractMultiValuesToPoints out inRasterList "NONE"))
    as [[]|e] eqn:Ee.
  - rewrite (bind_ok _ _ w4 tt
               (log (Called (ExtractMultiValuesToPoints out inRasterList "NONE") (Ok VNone)) w4))
      by (unfold proc; by rewrite Ee).
    unfold print. cbn [snd]. subst w4.
    rewrite !trace_log, Ht3, <- !app_assoc, drop_app_length.
    eexists. split; [done |]. split; [done |]. right.
    by apply (extract_requested _ _ _ rasters inRasterList (Ok VNone)).
  - rewrite (bind_raised _ _ w4 e
               (log (Called (ExtractMultiValuesToPoints out inRasterList "NONE") (Raised e)) w4))
      by (unfold proc; by rewrite Ee).
    cbn [snd]. subst w4.
    rewrite !trace_log, Ht3, <- !app_assoc, drop_app_length.
    eexists. split; [done |]. split; [done |]. right.
    by apply (extract_requested _ _ _ rasters inRasterList (Raised e)).
Qed.

Lemma build_inRasterList_spec rasters acc inRasterList :
  build_inRasterList rasters acc = Ok inRasterList ->
  exists added,
    inRasterList = acc ++ added /\ added.*1 = rasters
    /\ Forall (fun entry => new_fieldname entry.1 = Ok entry.2) added.
Proof.
  revert acc. induction rasters as [|raster rasters IH]; intros acc; simpl.
  - intros [= <-]. exists []. by rewrite app_nil_r.
  - destruct (new_fieldname raster) as [field|e] eqn:Ef; simpl; [| done].
    intros Hb. destruct (IH _ Hb) as (added & -> & Hfst & Hall).
    exists ((raster, field) :: added).
    split; [by rewrite <- app_assoc |].
    split; [by rewrite <- Hfst | by constructor].
Qed.

Lemma new_fieldname_needs_two_tokens raster field :
  new_fieldname raster = Ok field ->
  (2 <= length (Py.split "_" (before_first "." raster)))%nat.
Proof.
  unfold new_fieldname.
  rewrite index_nonneg by lia. change (Z.to_nat 0) with 0%nat.
  rewrite <- head_lookup, split_head. simpl.
  set (parts := Py.split "_" (before_first "." raster)).
  rewrite (index_minus_one parts "") by apply split_not_nil. simpl.
  rewrite index_nonneg by lia. change (Z.to_nat 1) with 1%nat.
  destruct (parts !! 1%nat) eqn:E1; [| done].
  intros _. apply lookup_lt_Some in E1. lia.
Qed.

Lemma makedirs_not_extraction o pre :
  Forall (fun e => exists res, e = Called (os_makedirs o) res) pre ->
  omap extraction_request (calls pre) = []
  /\ forall c r, In (Called c r) pre -> c = os_makedirs o.
Proof.
  intros Hpre. split.
  - by apply (makedirs_projected extraction_request o).
  - intros c r Hin. rewrite Forall_forall in Hpre.
    destruct (Hpre _ (proj2 (list_elem_of_In _ _) Hin)) as [res Heq].
    by inversion Heq.
Qed.

(** C4, as the code has it.  Whenever extract_values reaches its extraction
    request, the list it passes holds exactly one [raster, field] entry per
    raster the toolbox listed, in listing order, each field being the name
    derived from its raster; every listed raster then has a stem of at
    least two underscore-separated tokens; and that request is the only
    extraction request of the run. *)
Theorem extract_values_one_entry_per_raster `{Runtime} (env : Env)
    (in_points_file rasters_folder output_folder output_file : string) (w : World)
    (target : string) (inRasterList : list (string * string)) (option : string)
    (r : outcome Value) :
  In (Called (ExtractMultiValuesToPoints target inRasterList option) r)
     (emitted (extract_values env in_points_file rasters_folder output_folder
                 output_file) w) ->
  exists rasters,
    In (Called ListRasters (Ok (VNames (Some rasters))))
       (emitted (extract_values env in_points_file rasters_folder output_folder
                   output_file) w)
    /\ inRasterList.*1 = rasters
    /\ length inRasterList = length rasters
    /\ Forall (fun entry => new_fieldname entry.1 = Ok entry.2) inRasterList
    /\ Forall (fun raster =>
                 (2 <= length (Py.split "_" (before_first "." raster)))%nat) rasters
    /\ omap extraction_request
         (calls (emitted (extract_values env in_points_file rasters_folder
                            output_folder output_file) w))
       = [inRasterList].
Proof.
  intros Hin.
  destruct (extract_values_run env in_points_file rasters_folder output_folder
              output_file w) as (pre & rest & Heq & Hpre & Hrest).
  rewrite Heq in *. clear Heq.
  destruct (makedirs_not_extraction _ _ Hpre) as [Hnone Hmk].
  apply in_app_or in Hin as [Hin|Hin]; [by specialize (Hmk _ _ Hin) |].
  destruct Hrest as [->|Hrest]; [done |].
  destruct Hrest as [e|e| |rasters e Hb|rasters pairs r' Hb];
    try (simpl in Hin; intuition discriminate).
  assert (pairs = inRasterList) as ->.
  { destruct r'; simpl in Hin; intuition congruence. }
  destruct (build_inRasterList_spec _ _ _ Hb) as (added & Hadd & Hfst & Hall).
  simpl in Hadd. subst added.
  exists rasters. split; [apply in_or_app; right; simpl; tauto |].
  split; [done |]. split; [by rewrite <- Hfst, length_fmap |].
  split; [done |]. split.
  - rewrite <- Hfst. apply Forall_fmap.
    eapply Forall_impl; [exact Hall |].
    intros [raster field] Hf. by apply (new_fieldname_needs_two_tokens _ field).
  - rewrite calls_app, omap_app, Hnone. by destruct r'.
Qed.

Lemma extract_values_one_entry_per_raster_witness :
  In (Called (ExtractMultiValuesToPoints "shapefiles/am_output.shp"
                [("focal_10_resampled_B04.tif", "B04_100m");
                 ("focal_15_resampled_B04.tif", "B04_150m")] "NONE") (Ok VNone))
     (emitted (@extract_values posix
                 (calm [] ["focal_10_resampled_B04.tif"; "focal_15_resampled_B04.tif"] "0")
                 "CAPA_transects/am_trav.shp" "focal_rasters" "shapefiles"
                 "am_output.shp") empty_world)
  /\ exists rasters,
       [("focal_10_resampled_B04.tif", "B04_100m");
        ("focal_15_resampled_B04.tif", "B04_150m")].*1 = rasters
       /\ length rasters = 2%nat.
Proof.
  assert (In (Called (ExtractMultiValuesToPoints "shapefiles/am_output.shp"
                [("focal_10_resampled_B04.tif", "B04_100m");
                 ("focal_15_resampled_B04.tif", "B04_150m")] "NONE") (Ok VNone))
     (emitted (@extract_values posix
                 (calm [] ["focal_10_resampled_B04.tif"; "focal_15_resampled_B04.tif"] "0")
                 "CAPA_transects/am_trav.shp" "focal_rasters" "shapefiles"
                 "am_output.shp") empty_world)) as Hin.
  { vm_compute. tauto. }
  split; [exact Hin |].
  destruct (@extract_values_one_entry_per_raster posix _ _ _ _ _ _ _ _ _ _ Hin)
    as (rasters & _ & Hfst & Hlen & _).
  exists rasters. split; [exact Hfst |]. by rewrite <- Hlen.
Defined.

(** C4, as stated, fails: with a raster whose stem has no underscore in the
    folder, the run raises IndexError after the listing and requests no
    column at all, not even for the rasters named as expected. *)
Lemma extract_values_stops_at_short_name :
  (@extract_values posix (calm [] ["focal_10_resampled_B04.tif"; "dem.tif"] "0")
     "CAPA_transects/am_trav.shp" "focal_rasters" "shapefiles" "am_output.shp"
     empty_world).1 = Raised IndexError
  /\ calls (emitted (@extract_values posix
                       (calm [] ["focal_10_resampled_B04.tif"; "dem.tif"] "0")
                       "CAPA_transects/am_trav.shp" "focal_rasters" "shapefiles"
                       "am_output.shp") empty_world)
     = [os_makedirs "shapefiles";
        CopyFeatures "CAPA_transects/am_trav.shp" "shapefiles/am_output.shp";
        ListRasters].
Proof. split; vm_compute; reflexivity. Qed.





Example extract_values_script_call :
  calls (emitted (@extract_values posix
                    (calm [] ["focal_10_resampled_B04.tif"; "focal_15_resampled_B04.tif"] "0")
                    "CAPA_transects/am_trav.shp" "focal_rasters" "shapefiles"
                    "am_output.shp") empty_world)
  = [os_makedirs "shapefiles";
     CopyFeatures "CAPA_transects/am_trav.shp" "shapefiles/am_output.shp";
     ListRasters;
     ExtractMultiValuesToPoints "shapefiles/am_output.shp"
       [("focal_10_resampled_B04.tif", "B04_100m");
        ("focal_15_resampled_B04.tif", "B04_150m")] "NONE"].
Proof. vm_compute. reflexivity. Qed.


(** * Further properties of the script *)

(** ** The entries of inRasterList *)

Lemma new_fieldname_cases raster :
  new_fieldname raster =
    if has_second_token raster then Ok (field_of raster) else Raised IndexError.
Proof.
  unfold new_fieldname, has_second_token, field_of, stem_tokens.
  rewrite index_nonneg by lia. change (Z.to_nat 0) with 0%nat.
  rewrite <- head_lookup, split_head. cbn [and_then].
  set (parts := Py.split "_" (before_first "." raster)).
  rewrite (index_minus_one parts "") by apply split_not_nil. cbn [and_then].
  rewrite index_nonneg by lia. change (Z.to_nat 1) with 1%nat.
  destruct (parts !! 1%nat) as [second|] eqn:E1; cbn [and_then].
  - rewrite (lookup_nth_default _ _ _ E1).
    apply lookup_lt_Some in E1.
    by rewrite (proj2 (Nat.leb_le 2 (length parts))) by lia.
  - apply lookup_ge_None in E1.
    by rewrite (proj2 (Nat.leb_gt 2 (length parts))) by lia.
Qed.

Lemma build_inRasterList_closed rasters acc :
  build_inRasterList rasters acc =
    if forallb has_second_token rasters
    then Ok (acc ++ map (fun raster => (raster, field_of raster)) rasters)
    else Raised IndexError.
Proof.
  revert acc. induction rasters as [|raster rasters IH]; intros acc; simpl.
  - by rewrite app_nil_r.
  - rewrite new_fieldname_cases.
    destruct (has_second_token raster); simpl; [| done].
    rewrite IH. destruct (forallb has_second_token rasters); [| done].
    by rewrite <- app_assoc.
Qed.

(** X1.  The loop that fills inRasterList is all or nothing.  When the stem
    of every raster has a token at index 1, it yields one entry per raster,
    in order, each with the field name "last token, underscore, token 1,
    0m"; as soon as one raster has no such token, wherever it stands in the
    listing, the result is an IndexError and no entry survives. *)
Theorem inRasterList_all_or_nothing (rasters : list string) :
  (Forall (fun raster => (2 <= length (stem_tokens raster))%nat) rasters ->
   build_inRasterList rasters []
   = Ok (map (fun raster => (raster, field_of raster)) rasters))
  /\ (Exists (fun raster => (length (stem_tokens raster) < 2)%nat) rasters ->
      build_inRasterList rasters [] = Raised IndexError).
Proof.
  rewrite build_inRasterList_closed. split.
  - intros Hall.
    assert (forallb has_second_token rasters = true) as ->; [| done].
    apply forallb_forall. intros raster Hin.
    rewrite Forall_forall in Hall.
    apply Nat.leb_le, Hall. by apply list_elem_of_In.
  - intros Hex.
    assert (forallb has_second_token rasters = false) as ->; [| done].
    apply not_true_is_false. intros Hall.
    rewrite forallb_forall in Hall.
    apply Exists_exists in Hex as (raster & Hin & Hshort).
    specialize (Hall raster (proj1 (list_elem_of_In _ _) Hin)).
    apply Nat.leb_le in Hall. lia.
Qed.

(** ** Characters, cuts and tokens *)

Lemma has_char_app c a b : has_char c (a +:+ b) = has_char c a || has_char c b.
Proof.
  induction a as [|x a IH]; simpl; [done |].
  by rewrite IH, orb_assoc.
Qed.

Lemma before_first_free c a b :
  has_char c a = false -> before_first c (a +:+ b) = a +:+ before_first c b.
Proof.
  induction a as [|x a IH]; simpl; [done |].
  intros Hfree. apply orb_false_elim in Hfree as [-> Ha]. by rewrite IH.
Qed.

Lemma before_first_cut c s t :
  before_first c (s +:+ String c t) = before_first c s.
Proof.
  induction s as [|x s IH]; simpl.
  - by rewrite Ascii.eqb_refl.
  - destruct (Ascii.eqb x c); [done | by rewrite IH].
Qed.

Lemma split_free sep s : has_char sep s = false -> Py.split sep s = [s].
Proof.
  induction s as [|x s IH]; simpl; [done |].
  intros Hfree. apply orb_false_elim in Hfree as [-> Hs]. by rewrite IH.
Qed.

Lemma split_free_sep sep a b :
  has_char sep a = false ->
  Py.split sep (a +:+ String sep b) = a :: Py.split sep b.
Proof.
  induction a as [|x a IH]; simpl.
  - by rewrite Ascii.eqb_refl.
  - intros Hfree. apply orb_false_elim in Hfree as [-> Ha]. by rewrite IH.
Qed.

(** a token holds no separator *)
Lemma split_tokens_free sep s t :
  In t (Py.split sep s) -> has_char sep t = false.
Proof.
  revert t. induction s as [|x s IH]; simpl; intros t.
  - by intros [<-|[]].
  - destruct (Ascii.eqb x sep) eqn:Ex.
    + intros [<-|Hin]; [done | by apply IH].
    + destruct (Py.split sep s) as [|t0 ts].
      * intros [<-|[]]. simpl. by rewrite Ex.
      * intros [<-|Hin]; simpl.
        -- rewrite Ex. apply IH. by left.
        -- apply IH. by right.
Qed.

Lemma nth_token_free sep s (k : nat) : has_char sep (nth k (Py.split sep s) "") = false.
Proof.
  destruct (nth_in_or_default k (Py.split sep s) "") as [Hin| ->]; [| done].
  by apply (split_tokens_free sep s).
Qed.

Lemma uint_string_free c (d : Decimal.uint) :
  (c = "_" \/ c = ".")%char ->
  has_char c (NilEmpty.string_of_uint d) = false.
Proof. intros [-> | ->]; induction d; simpl; auto. Qed.

(** a printed int holds neither an underscore nor a dot *)
Lemma str_free c (n : Z) :
  (c = "_" \/ c = ".")%char -> has_char c (Py.str n) = false.
Proof.
  intros Hc. unfold Py.str, NilZero.string_of_int, NilZero.string_of_uint.
  destruct (Z.to_int n) as [d|d].
  - destruct d; try (by apply (uint_string_free c _ Hc)).
    by destruct Hc as [-> | ->].
  - assert (has_char c (String "-" EmptyString) = false) as Hminus
      by (by destruct Hc as [-> | ->]).
    destruct d; try (change (String "-" ?s) with (String "-" EmptyString +:+ s);
      rewrite has_char_app, Hminus; by apply (uint_string_free c _ Hc)).
    by destruct Hc as [-> | ->].
Qed.

(** ** From the names apply_focal_statistics writes to field names *)

Lemma focal_file_name_tokens `{Runtime} rad raster :
  stem_tokens (focal_file_name rad raster)
  = "focal" :: Py.str rad :: stem_tokens (splitext raster).1.
Proof.
  unfold stem_tokens, focal_file_name.
  set (stem := (splitext raster).1).
  change ("focal_" +:+ Py.str rad +:+ "_" +:+ stem +:+ ".tif")
    with ("focal_" +:+ (Py.str rad +:+ ("_" +:+ (stem +:+ String "." "tif")))).
  rewrite (before_first_free "." "focal_") by done.
  rewrite (before_first_free "." (Py.str rad)) by (apply str_free; by right).
  rewrite (before_first_free "." "_") by done.
  rewrite before_first_cut.
  change ("focal_" +:+ Py.str rad +:+ "_" +:+ before_first "." stem)
    with ("focal" +:+ String "_" (Py.str rad +:+ String "_" (before_first "." stem))).
  rewrite (split_free_sep "_" "focal") by done.
  by rewrite (split_free_sep "_" (Py.str rad)) by (apply str_free; by left).
Qed.

Lemma last_after_two {A} (x y : A) (l : list A) (d : A) :
  l <> [] -> List.last (x :: y :: l) d = List.last l d.
Proof. intros Hl. simpl. by destruct l. Qed.

Lemma focal_file_name_field `{Runtime} rad raster :
  has_second_token (focal_file_name rad raster) = true
  /\ field_of (focal_file_name rad raster)
     = List.last (stem_tokens (splitext raster).1) "" +:+ "_" +:+ Py.str rad +:+ "0m".
Proof.
  unfold has_second_token, field_of. rewrite focal_file_name_tokens. split; [done |].
  rewrite last_after_two by apply split_not_nil. done.
Qed.

(** X2.  The rasters apply_focal_statistics writes always yield a field
    name.  The file it saves for a raster at a radius is named
    focal_<rad>_<stem>.tif, and for any list of such names the loop of
    extract_values builds one entry per name without an IndexError; the
    field is the last underscore-separated token of the stem (up to its
    first dot), an underscore, the radius and 0m. *)
Theorem focal_outputs_have_field_names `{Runtime}
    (output_folder : string) (outputs : list (Z * string)) :
  Forall (fun output =>
            focal_path output_folder output.1 output.2
            = path_join output_folder (focal_file_name output.1 output.2)) outputs
  /\ build_inRasterList
       (map (fun output => focal_file_name output.1 output.2) outputs) []
     = Ok (map (fun output =>
                  (focal_file_name output.1 output.2,
                   List.last (stem_tokens (splitext output.2).1) ""
                   +:+ "_" +:+ Py.str output.1 +:+ "0m")) outputs).
Proof.
  split; [by apply Forall_forall |].
  rewrite build_inRasterList_closed.
  assert (forallb has_second_token
            (map (fun output => focal_file_name output.1 output.2) outputs) = true) as ->.
  { apply forallb_forall. intros name Hin.
    apply in_map_iff in Hin as ([rad raster] & <- & _).
    apply focal_file_name_field. }
  f_equal. rewrite map_map. apply map_ext. intros [rad raster]. simpl.
  f_equal. apply focal_file_name_field.
Qed.

Example field_of_script_raster :
  new_fieldname (@focal_file_name posix 10 "resampled_Sentinel-2_L2A_B04.tif")
  = Ok "B04_100m".
Proof. vm_compute. reflexivity. Qed.

(** ** rename_rasters on names it produced *)

Lemma short_name_tokens `{Runtime} file :
  has_char "_" (splitext file).2 = false ->
  tokens (short_name file)
  = [nth 4 (tokens file) ""; nth 5 (tokens file) "";
     nth 6 (tokens file) "" +:+ (splitext file).2].
Proof.
  intros Hext. unfold short_name. unfold tokens at 1.
  set (n4 := nth 4 (tokens file) ""). set (n5 := nth 5 (tokens file) "").
  set (n6 := nth 6 (tokens file) ""). set (ext := (splitext file).2) in *.
  change (n4 +:+ "_" +:+ n5 +:+ "_" +:+ n6 +:+ ext)
    with (n4 +:+ String "_" (n5 +:+ String "_" (n6 +:+ ext))).
  rewrite (split_free_sep "_" n4) by apply nth_token_free.
  rewrite (split_free_sep "_" n5) by apply nth_token_free.
  rewrite split_free; [done |].
  rewrite has_char_app, Hext. unfold n6. by rewrite nth_token_free.
Qed.

Lemma three_tokens_events `{Runtime} d name chunk :
  length (tokens name) = 3%nat -> file_events d name chunk ->
  chunk = [not_renamed name].
Proof.
  intros Hlen [H5 L5|H7 _|H7|e H7]; [lia | done | |];
    unfold sentinel_shape in H7; rewrite Hlen in H7; discriminate.
Qed.

Lemma renames_not_renamed names : renames (map not_renamed names) = [].
Proof. induction names as [|name names IH]; [done | exact IH]. Qed.

Lemma three_tokens_handled `{Runtime} d names chunks :
  Forall (fun name => length (tokens name) = 3%nat) names ->
  Forall2 (handled d) names chunks ->
  concat chunks = map not_renamed names.
Proof.
  intros Hlen Hchunks. induction Hchunks as [|name chunk names chunks Hf _ IH]; [done |].
  inversion Hlen as [|? ? Hn Hrest]; subst. cbn [concat map].
  rewrite IH by done. destruct Hf as [Hf|[H7 _]].
  - by rewrite (three_tokens_events _ _ _ Hn Hf).
  - unfold sentinel_shape in H7. rewrite Hn in H7. discriminate.
Qed.

Lemma three_tokens_cut `{Runtime} d name rest :
  length (tokens name) = 3%nat -> cut_short d name rest -> rest = [].
Proof.
  intros Hn [H7|r H7]; [done |].
  unfold sentinel_shape in H7. rewrite Hn in H7. discriminate.
Qed.

(** X3.  rename_rasters leaves the names it produced alone.  In a folder
    that lists only names built by the renaming (tokens 4, 5 and 6 plus an
    extension without an underscore), a run requests no rename: such a
    name has three tokens, so reading token 4 raises an IndexError that is
    caught.  What the run leaves is the listing and the "not renamed"
    lines of an initial part of the files: of all of them when it returns;
    it raises only what the console raised at the "not renamed" line of
    the next file. *)
Theorem renamed_files_are_left_alone `{Runtime} (out : Console) (env : Env)
    (input_folder : string) (w : World) (files : list string) :
  listdir_reply env w input_folder = Ok (map short_name files) ->
  Forall (fun file => has_char "_" (splitext file).2 = false) files ->
  let run := Stdout.rename_rasters out env input_folder in
  let names := map short_name files in
  renames (emitted run w) = []
  /\ exists n : nat,
       emitted run w
       = Called (os_listdir input_folder) (Ok (VNames (Some names)))
         :: map not_renamed (take n names)
       /\ (((run w).1 = Ok tt /\ n = length names)
           \/ exists name e w',
                names !! n = Some name
                /\ (run w).1 = Raised e
                /\ print_reply out w' (Text (name +:+ " not renamed.")) = Raised e).
Proof.
  intros Hlist Hext run names. subst run names.
  pose proof (stdout_rename_rasters_run out env input_folder w) as Hrun.
  rewrite Hlist in Hrun. destruct Hrun as (n & chunks & rest & Hemitted & Hchunks & Hend).
  assert (Forall (fun name => length (tokens name) = 3%nat) (map short_name files))
    as Hthree.
  { apply Forall_forall. intros name Hin.
    apply list_elem_of_In, in_map_iff in Hin as (file & <- & Hfile).
    rewrite Forall_forall in Hext.
    by rewrite short_name_tokens by (apply Hext; by apply list_elem_of_In). }
  assert (concat chunks = map not_renamed (take n (map short_name files))) as Hconcat.
  { apply (three_tokens_handled input_folder); [| done].
    by apply Forall_take. }
  assert (rest = []) as ->.
  { destruct Hend as [(_ & _ & ->)|(name & e & w' & Hn & _ & _ & Hcut)]; [done |].
    apply (three_tokens_cut input_folder name); [| done].
    rewrite Forall_forall in Hthree. apply Hthree.
    by apply (list_elem_of_lookup_2 _ n). }
  rewrite app_nil_r, Hconcat in Hemitted. rewrite Hemitted.
  split; [apply (renames_not_renamed (take n (map short_name files))) |].
  exists n. split; [done |].
  destruct Hend as [(Hok & -> & _)|(name & e & w' & Hn & Hr & Hp & _)].
  - left. by rewrite length_map.
  - right. by exists name, e, w'.
Qed.

Lemma renamed_files_are_left_alone_witness :
  renames (emitted (@Stdout.rename_rasters posix (refusing ValueError)
                      (calm ["Sentinel-2_L2A_B04.tiff"] [] "0")
                      "sentinel_rasters") empty_world) = [].
Proof.
  apply (@renamed_files_are_left_alone posix (refusing ValueError)
           (calm ["Sentinel-2_L2A_B04.tiff"] [] "0")
           "sentinel_rasters" empty_world
           ["2022-09-22-00_00_2022-09-22-23_59_Sentinel-2_L2A_B04_(Raw).tiff"]).
  - vm_compute. reflexivity.
  - repeat constructor.
Defined.

(** on a closed standard output the first "not renamed" line ends the run *)
Example renamed_file_on_a_closed_stdout :
  @Stdout.rename_rasters posix (refusing ValueError)
    (calm ["Sentinel-2_L2A_B04.tiff"; "Sentinel-2_L2A_B08.tiff"] [] "0")
    "sentinel_rasters" empty_world
  = (Raised ValueError,
     mkWorld ∅ None false
       [Called (os_listdir "sentinel_rasters")
          (Ok (VNames (Some ["Sentinel-2_L2A_B04.tiff"; "Sentinel-2_L2A_B08.tiff"])))]).
Proof. vm_compute. reflexivity. Qed.

(** ** What a run leaves of the world *)

Section Steady.
Context (R : World -> World -> Prop).
Hypothesis R_refl : forall w, R w w.
Hypothesis R_trans : forall w1 w2 w3, R w1 w2 -> R w2 w3 -> R w1 w3.
Hypothesis R_log : forall e w, R w (log e w).

Lemma steady_ret {A} (a : A) : steady R (ret a).
Proof. intros w. apply R_refl. Qed.

Lemma steady_raise {A} e : steady R (@raise A e).
Proof. intros w. apply R_refl. Qed.

Lemma steady_eval {A} (o : outcome A) : steady R (eval o).
Proof. intros w. apply R_refl. Qed.

Lemma steady_path_exists p : steady R (path_exists p).
Proof. intros w. apply R_refl. Qed.

Lemma steady_print l : steady R (print l).
Proof. intros w. apply R_log. Qed.

Lemma steady_proc env c : steady R (proc env c).
Proof. intros w. unfold proc. destruct (proc_reply env w c) as [[]|e]; apply R_log. Qed.

Lemma steady_listdir env p : steady R (listdir env p).
Proof. intros w. unfold listdir. destruct (listdir_reply env w p); apply R_log. Qed.

Lemma steady_list_rasters env : steady R (list_rasters env).
Proof. intros w. unfold list_rasters. destruct (ListRasters_reply env w); apply R_log. Qed.

Lemma steady_get_raster_properties env r prop :
  steady R (get_raster_properties env r prop).
Proof.
  intros w. unfold get_raster_properties.
  destruct (GetRasterProperties_reply env w r prop); apply R_log.
Qed.

Lemma steady_focal_statistics env r n st : steady R (focal_statistics env r n st).
Proof.
  intros w. unfold focal_statistics.
  destruct (FocalStatistics_reply env w r n st); apply R_log.
Qed.

Lemma steady_makedirs env p :
  (forall e w, R w (add_path p (log e w))) -> steady R (makedirs env p).
Proof.
  intros Hadd w. unfold makedirs. case_bool_decide; [apply R_log |].
  destruct (proc_reply env w _) as [[]|e]; [apply Hadd | apply R_log].
Qed.

Lemma steady_bind {A B} (m : M A) (k : A -> M B) :
  steady R m -> (forall a, steady R (k a)) -> steady R (bind m k).
Proof.
  intros Hm Hk w. unfold bind. specialize (Hm w).
  destruct (m w) as [[a|e] w1]; simpl in *; [| done].
  by apply (R_trans _ w1), Hk.
Qed.

Lemma steady_try body handler :
  steady R body -> steady R handler -> steady R (try_except body handler).
Proof.
  intros Hb Hh w. unfold try_except. specialize (Hb w).
  destruct (body w) as [[[]|e] w1]; simpl in *; [done |].
  by apply (R_trans _ w1), Hh.
Qed.

Lemma steady_for_each {A} (l : list A) body :
  (forall x, In x l -> steady R (body x)) -> steady R (for_each l body).
Proof.
  induction l as [|x l IH]; intros Hb; simpl.
  - apply steady_ret.
  - apply steady_bind; [apply Hb; by left |].
    intros _. apply IH. intros y Hy. apply Hb. by right.
Qed.

Lemma steady_for_each_in {A} (v : option (list A)) body :
  (forall x, steady R (body x)) -> steady R (for_each_in v body).
Proof.
  intros Hb. destruct v; simpl; [| apply steady_raise].
  apply steady_for_each. auto.
Qed.

Lemma steady_ensure_folder env p :
  (forall e w, R w (add_path p (log e w))) -> steady R (ensure_folder env p).
Proof.
  intros Hadd. unfold ensure_folder. apply steady_bind; [apply steady_path_exists |].
  intros []; simpl; [apply steady_ret | by apply steady_makedirs].
Qed.

End Steady.

Lemma same_settings_refl w : same_settings w w.
Proof. by split. Qed.

Lemma same_settings_trans w1 w2 w3 :
  same_settings w1 w2 -> same_settings w2 w3 -> same_settings w1 w3.
Proof. intros [Ha Hb] [Hc Hd]. split; congruence. Qed.

Lemma same_settings_log e w : same_settings w (log e w).
Proof. by split. Qed.

Lemma same_settings_add p e w : same_settings w (add_path p (log e w)).
Proof. by split. Qed.

(** ** create_file_structure, whatever the outcome *)

Lemma created_app t1 t2 : created (t1 ++ t2) = created t1 ++ created t2.
Proof. apply omap_app. Qed.

Lemma stdout_create_folder_cases `{Runtime} out env d folder w :
  (path_join d folder ∈ paths w
   /\ Stdout.create_folder out env d folder w
      = (Ok tt, log (already_exists folder) w))
  \/ (path_join d folder ∈ paths w
      /\ exists e,
           print_reply out w (Text (folder +:+ " already exists.")) = Raised e
           /\ Stdout.create_folder out env d folder w = (Raised e, w))
  \/ ((path_join d folder ∉ paths w)
      /\ exists e,
           Stdout.create_folder out env d folder w
           = (Raised e, log (Called (os_makedirs (path_join d folder)) (Raised e)) w))
  \/ ((path_join d folder ∉ paths w)
      /\ Stdout.create_folder out env d folder w
         = (Ok tt,
            log (Printed (Text ("Created new directory: " +:+ folder)))
              (add_path (path_join d folder)
                 (log (Called (os_makedirs (path_join d folder)) (Ok VNone)) w))))
  \/ ((path_join d folder ∉ paths w)
      /\ exists e w',
           print_reply out w' (Text ("Created new directory: " +:+ folder)) = Raised e
           /\ Stdout.create_folder out env d folder w
              = (Raised e,
                 add_path (path_join d folder)
                   (log (Called (os_makedirs (path_join d folder)) (Ok VNone)) w))).
Proof.
  unfold Stdout.create_folder, bind, path_exists.
  destruct (decide (path_join d folder ∈ paths w)) as [Hin|Hout].
  - rewrite bool_decide_eq_true_2 by done. cbn [negb].
    destruct (stdout_print_cases out (Text (folder +:+ " already exists.")) w)
      as [[_ ->]|(e & He & ->)].
    + by left.
    + right. left. split; [done |]. by exists e.
  - rewrite bool_decide_eq_false_2 by done. cbn [negb].
    right. right. unfold makedirs. rewrite bool_decide_eq_false_2 by done.
    destruct (proc_reply env w _) as [[]|e0].
    + right.
      destruct (stdout_print_cases out (Text ("Created new directory: " +:+ folder))
                  (add_path (path_join d folder)
                     (log (Called (os_makedirs (path_join d folder)) (Ok VNone)) w)))
        as [[_ ->]|(e & He & ->)].
      * by left.
      * right. split; [done |]. by eexists e, _.
    + left. split; [done |]. by exists e0.
Qed.

Lemma stdout_create_loop `{Runtime} out env d l w :
  let m := for_each l (Stdout.create_folder out env d) in
  exists new,
    trace (m w).2 = trace w ++ new
    /\ paths w ⊆ paths (m w).2
    /\ Forall (fun p => p ∈ paths (m w).2 /\ (p ∉ paths w)
                        /\ exists folder, In folder l /\ p = path_join d folder)
              (created new)
    /\ same_settings w (m w).2
    /\ (forall e, (m w).1 = Raised e ->
          (exists pre folder,
             In folder l
             /\ new = pre ++ [Called (os_makedirs (path_join d folder)) (Raised e)])
          \/ (exists folder line w',
                In folder l /\ In line (folder_lines folder)
                /\ print_reply out w' line = Raised e)).
Proof.
  cbv zeta. revert w. induction l as [|folder l IH]; intros w.
  - exists []. simpl. rewrite app_nil_r.
    split; [done |]. split; [done |]. split; [constructor |].
    split; [by split | discriminate].
  - cbn [for_each].
    destruct (stdout_create_folder_cases out env d folder w)
      as [[Hin E]|[(Hin & e0 & He0 & E)|[(Hout & e0 & E)|[[Hout E]
          |(Hout & e0 & w' & He0 & E)]]]].
    + rewrite (bind_ok _ _ _ _ _ E).
      destruct (IH (log (already_exists folder) w))
        as (new & Et & Ep & Hc & [Hs1 Hs2] & Hf).
      exists (already_exists folder :: new).
      split; [by rewrite Et, trace_log, <- app_assoc |].
      split; [exact Ep |].
      split; [| split; [by split |]].
      * eapply Forall_impl; [exact Hc |].
        intros p (Hp1 & Hp2 & f & Hfl & ->). split; [done |]. split; [done |].
        exists f. split; [by right | done].
      * intros e He. destruct (Hf e He)
          as [(pre & f & Hfl & ->)|(f & line & w' & Hfl & Hline & Hp)].
        -- left. exists (already_exists folder :: pre), f. split; [by right | done].
        -- right. exists f, line, w'. split; [by right | done].
    + rewrite (bind_raised _ _ _ _ _ E). cbn [fst snd].
      exists []. rewrite app_nil_r. split; [done |]. split; [done |].
      split; [constructor |]. split; [by split |].
      intros e [= ->]. right.
      exists folder, (Text (folder +:+ " already exists.")), w.
      split; [by left |]. split; [| done]. right. by left.
    + rewrite (bind_raised _ _ _ _ _ E). cbn [fst snd].
      exists [Called (os_makedirs (path_join d folder)) (Raised e0)].
      split; [done |]. split; [done |].
      split; [constructor |]. split; [by split |].
      intros e [= ->]. left. exists [], folder. split; [by left | done].
    + rewrite (bind_ok _ _ _ _ _ E).
      set (w1 := log _ (add_path _ (log _ w))) in *.
      assert (paths w ⊆ paths w1) as Hgrow.
      { intros x Hx. unfold w1. simpl. apply elem_of_union. by right. }
      assert (path_join d folder ∈ paths w1) as Hnew.
      { unfold w1. simpl. apply elem_of_union. left. by apply elem_of_singleton. }
      destruct (IH w1) as (new & Et & Ep & Hc & [Hs1 Hs2] & Hf).
      exists ([Called (os_makedirs (path_join d folder)) (Ok VNone);
               Printed (Text ("Created new directory: " +:+ folder))] ++ new).
      split; [rewrite Et; unfold w1; simpl; by rewrite <- !app_assoc |].
      split; [| split; [| split; [by split |]]].
      * intros x Hx. by apply Ep, Hgrow.
      * rewrite created_app. apply Forall_app_2.
        -- repeat constructor; [by apply Ep | done |].
           exists folder. split; [by left | done].
        -- eapply Forall_impl; [exact Hc |].
           intros p (Hp1 & Hp2 & f & Hfl & ->). split; [done |]. split.
           ++ intros Hw. by apply Hp2, Hgrow.
           ++ exists f. split; [by right | done].
      * intros e He. destruct (Hf e He)
          as [(pre & f & Hfl & ->)|(f & line & w' & Hfl & Hline & Hp)].
        -- left. eexists (_ :: _ :: pre), f. split; [by right | done].
        -- right. exists f, line, w'. split; [by right | done].
    + rewrite (bind_raised _ _ _ _ _ E). cbn [fst snd].
      exists [Called (os_makedirs (path_join d folder)) (Ok VNone)].
      split; [done |].
      split; [intros x Hx; simpl; apply elem_of_union; by right |].
      split; [| split; [by split |]].
      * repeat constructor; [| done |].
        -- simpl. apply elem_of_union. left. by apply elem_of_singleton.
        -- exists folder. split; [by left | done].
      * intros e [= ->]. right.
        exists folder, (Text ("Created new directory: " +:+ folder)), w'.
        split; [by left |]. split; [by left | done].
Qed.

(** X4.  create_file_structure never undoes anything.  Whether it returns
    or raises, every path that existed before exists afterwards, and so
    does every directory whose creation succeeded; each of these was
    missing before and is one of the seven folders under the project
    directory; the two toolbox settings are untouched.  When it raises,
    the exception is the answer to a directory creation for one of the
    seven folders, and that request is the last thing it did, or it is
    what the console raised at one of the two lines about a folder; the
    folders after it are not tried, the folders created before it stay. *)
Theorem create_file_structure_never_undoes `{Runtime} (out : Console) (env : Env)
    (project_directory : string) (w : World) :
  let run := Stdout.create_file_structure out env project_directory in
  paths w ⊆ paths (run w).2
  /\ Forall (fun p => p ∈ paths (run w).2 /\ (p ∉ paths w)
                      /\ exists folder, In folder folders
                                        /\ p = path_join project_directory folder)
            (created (emitted run w))
  /\ same_settings w (run w).2
  /\ (forall e, (run w).1 = Raised e ->
        (exists folder,
           In folder folders
           /\ last (emitted run w)
              = Some (Called (os_makedirs (path_join project_directory folder))
                             (Raised e)))
        \/ (exists folder line w',
              In folder folders
              /\ In line [Text ("Created new directory: " +:+ folder);
                          Text (folder +:+ " already exists.")]
              /\ print_reply out w' line = Raised e)).
Proof.
  intros run. subst run.
  destruct (stdout_create_loop out env project_directory folders w)
    as (new & Et & Ep & Hc & Hs & Hf). cbv zeta in *.
  change (for_each folders (Stdout.create_folder out env project_directory))
    with (Stdout.create_file_structure out env project_directory) in *.
  rewrite (emitted_eq _ _ _ Et).
  split; [done |]. split; [done |]. split; [done |].
  intros e He. destruct (Hf e He)
    as [(pre & folder & Hin & ->)|(folder & line & w' & Hin & Hline & Hp)].
  - left. exists folder. split; [done |]. by rewrite last_snoc.
  - right. by exists folder, line, w'.
Qed.

(** a refused creation stops the run: two folders made, five not tried *)
Example create_file_structure_refused_third :
  let refuse_third :=
    {| listdir_reply := fun _ _ => Ok [];
       proc_reply := fun _ c =>
         match c with
         | os_makedirs "Project/CAPA_rasters" => Raised (EnvError "PermissionError")
         | _ => Ok tt
         end;
       ListRasters_reply := fun _ => Ok None;
       GetRasterProperties_reply := fun _ _ _ => Ok "0";
       FocalStatistics_reply := fun _ _ _ _ => Ok 0%nat |} in
  (@create_file_structure posix refuse_third "Project" empty_world).1
  = Raised (EnvError "PermissionError")
  /\ created (emitted (@create_file_structure posix refuse_third "Project") empty_world)
     = ["Project/sentinel_rasters"; "Project/CAPA_transects"].
Proof. split; vm_compute; reflexivity. Qed.

(** ** The toolbox settings a run leaves behind *)

(** walks a statement for [steady]; [side] closes what the relation owes *)
Ltac walk_steady side :=
  repeat first
    [ apply steady_ensure_folder; [solve [side] .. ]
    | apply steady_bind; [solve [side] | | intros ?]
    | apply steady_try; [solve [side] | | ]
    | apply steady_for_each_in; [solve [side] | solve [side] | intros ?]
    | apply steady_for_each; [solve [side] | solve [side] | intros ? _]
    | apply steady_ret; solve [side]
    | apply steady_raise; solve [side]
    | apply steady_eval; solve [side]
    | apply steady_path_exists; solve [side]
    | apply steady_print; solve [side]
    | apply steady_proc; solve [side]
    | apply steady_listdir; solve [side]
    | apply steady_list_rasters; solve [side]
    | apply steady_get_raster_properties; solve [side]
    | apply steady_focal_statistics; solve [side]
    | progress cbv zeta
    | match goal with
      | |- steady _ (match ?v with _ => _ end) => destruct v
      end ].

Ltac settings_side :=
  first [ exact same_settings_refl | exact same_settings_trans
        | exact same_settings_log | intros; apply same_settings_add ].

Lemma resample_loop_settings `{Runtime} env o cell rasters :
  steady same_settings
    (print (Names rasters) ;;; ensure_folder env o ;;;
     for_each_in rasters (resample_one env o cell)).
Proof. unfold resample_one. walk_steady settings_side. Qed.

Lemma focal_loop_settings `{Runtime} env o radius st rasters :
  steady same_settings
    (ensure_folder env o ;;;
     for_each_in rasters (fun raster => for_each radius (focal_one env o st raster))).
Proof. unfold focal_one. walk_steady settings_side. Qed.

Lemma rename_rasters_settings `{Runtime} env d : steady same_settings (rename_rasters env d).
Proof. unfold rename_rasters, rename_one. walk_steady settings_side. Qed.

Lemma create_fishnet_settings `{Runtime} env r o name :
  steady same_settings (create_fishnet env r o name).
Proof. unfold create_fishnet. walk_steady settings_side. Qed.

Lemma settings_after_listing {A} (k : option (list string) -> M A) env i w :
  (forall rasters, steady same_settings (k rasters)) ->
  let w' := (bind (assign (set_workspace i))
               (fun _ => bind (assign (set_overwriteOutput true))
                           (fun _ => bind (list_rasters env) k)) w).2 in
  workspace w' = Some i /\ overwriteOutput w' = true.
Proof.
  intros Hk w'. subst w'. rewrite !bind_assign.
  assert (steady same_settings (bind (list_rasters env) k)) as Hrest.
  { apply steady_bind; [exact same_settings_trans | | exact Hk].
    apply steady_list_rasters. exact same_settings_log. }
  destruct (Hrest (set_overwriteOutput true (set_workspace i w))) as [Hw Ho].
  by rewrite Hw, Ho.
Qed.

(** X5.  The settings of the toolbox session after each stage.
    apply_resampling and apply_focal_statistics leave the workspace set to
    their input folder and overwriteOutput set to True, whether they return
    or raise; rename_rasters and create_fishnet leave both settings as they
    found them. *)
Theorem settings_left_by_the_stages `{Runtime} (env : Env) (w : World) :
  (forall input_folder output_folder cellsize resampling_type,
     let w' := (apply_resampling env input_folder output_folder cellsize
                  resampling_type w).2 in
     workspace w' = Some input_folder /\ overwriteOutput w' = true)
  /\ (forall input_folder output_folder radius statistic_type,
        let w' := (apply_focal_statistics env input_folder output_folder radius
                     statistic_type w).2 in
        workspace w' = Some input_folder /\ overwriteOutput w' = true)
  /\ (forall input_folder,
        same_settings w (rename_rasters env input_folder w).2)
  /\ (forall input_raster output_folder output_name,
        same_settings w (create_fishnet env input_raster output_folder output_name w).2).
Proof.
  split; [| split; [| split]].
  - intros i o cell ty.
    apply (settings_after_listing
             (fun rasters => print (Names rasters) ;;; ensure_folder env o ;;;
                             for_each_in rasters (resample_one env o cell))).
    intros rasters. apply resample_loop_settings.
  - intros i o radius st.
    apply (settings_after_listing
             (fun rasters => ensure_folder env o ;;;
                for_each_in rasters
                  (fun raster => for_each radius (focal_one env o st raster)))).
    intros rasters. apply focal_loop_settings.
  - intros d. apply rename_rasters_settings.
  - intros r o name. apply create_fishnet_settings.
Qed.

Lemma extraction_settings `{Runtime} env out rasters :
  steady same_settings
    (inRasterList <-
       match rasters with
       | Some l => eval (build_inRasterList l [])
       | None => raise TypeError
       end ;;
     print (Pairs inRasterList) ;;;
     proc env (ExtractMultiValuesToPoints out inRasterList "NONE") ;;;
     print (Text ("Processed " +:+ Py.str (Z.of_nat (length inRasterList))
                  +:+ " rasters. And saved to " +:+ out))).
Proof. walk_steady settings_side. Qed.

Lemma extraction_grows `{Runtime} env out :
  emits_only (fun _ => True)
    (rasters <- list_rasters env ;;
     inRasterList <-
       match rasters with
       | Some l => eval (build_inRasterList l [])
       | None => raise TypeError
       end ;;
     print (Pairs inRasterList) ;;;
     proc env (ExtractMultiValuesToPoints out inRasterList "NONE") ;;;
     print (Text ("Processed " +:+ Py.str (Z.of_nat (length inRasterList))
                  +:+ " rasters. And saved to " +:+ out))).
Proof. walk_events. Qed.

(** X6.  extract_values changes the toolbox settings only after the copy.
    When the copy of the points file succeeded, the run leaves the
    workspace set to the rasters folder and overwriteOutput set to True,
    whatever happens later; when it did not (the output folder could not be
    made, or the copy was refused), the run raises and both settings are as
    they were: the copy itself is requested under the settings the caller
    left. *)
Theorem extract_values_settings `{Runtime} (env : Env)
    (in_points_file rasters_folder output_folder output_file : string) (w : World) :
  let run := extract_values env in_points_file rasters_folder output_folder
               output_file in
  let copied :=
    In (Called (CopyFeatures in_points_file (path_join output_folder output_file))
               (Ok VNone)) (emitted run w) in
  (copied ->
   workspace (run w).2 = Some rasters_folder /\ overwriteOutput (run w).2 = true)
  /\ (~ copied ->
      same_settings w (run w).2 /\ exists e, (run w).1 = Raised e).
Proof.
  intros run copied. subst run copied. unfold emitted, extract_values.
  destruct (ensure_folder_run env output_folder w) as (pre & w1 & r & Hens & Ht1 & Hpre).
  assert (same_settings w w1) as Hs1.
  { pose proof (steady_ensure_folder same_settings same_settings_refl
                  same_settings_trans same_settings_log env output_folder
                  (fun e w => same_settings_add output_folder e w) w) as Hs.
    by rewrite Hens in Hs. }
  assert (forall e, ~ In (Called (CopyFeatures in_points_file
                                    (path_join output_folder output_file)) (Ok VNone))
                         (pre ++ e)
                    -> ~ In (Called (CopyFeatures in_points_file
                                    (path_join output_folder output_file)) (Ok VNone)) e)
    as _ by (intros e He Hin; apply He, in_or_app; by right).
  assert (~ In (Called (CopyFeatures in_points_file
                          (path_join output_folder output_file)) (Ok VNone)) pre)
    as Hnotpre.
  { intros Hin. rewrite Forall_forall in Hpre.
    destruct (Hpre _ (proj2 (list_elem_of_In _ _) Hin)) as [res Hres]. discriminate. }
  destruct r as [[]|e].
  2:{ rewrite (bind_raised _ _ _ _ _ Hens). cbn [fst snd].
      rewrite Ht1, drop_app_length. split; [done |]. intros _. split; [done | by exists e]. }
  rewrite (bind_ok _ _ _ _ _ Hens). cbv zeta.
  set (out := path_join output_folder output_file).
  destruct (proc_reply env w1 (CopyFeatures in_points_file out)) as [[]|e] eqn:Ec.
  2:{ rewrite (bind_raised _ _ w1 e
                 (log (Called (CopyFeatures in_points_file out) (Raised e)) w1))
        by (unfold proc; by rewrite Ec).
      cbn [fst snd]. rewrite trace_log, Ht1, <- app_assoc, drop_app_length. split.
      - intros Hin. apply in_app_or in Hin as [Hin|Hin]; [done |].
        simpl in Hin. intuition discriminate.
      - intros _. split; [done | by exists e]. }
  rewrite (bind_ok _ _ w1 tt (log (Called (CopyFeatures in_points_file out) (Ok VNone)) w1))
    by (unfold proc; by rewrite Ec).
  rewrite !bind_assign.
  set (w2 := set_overwriteOutput true
               (set_workspace rasters_folder
                  (log (Called (CopyFeatures in_points_file out) (Ok VNone)) w1))).
  destruct (extraction_grows env out w2) as (new & Enew & _).
  assert (steady same_settings
            (rasters <- list_rasters env ;;
             inRasterList <-
               match rasters with
               | Some l => eval (build_inRasterList l [])
               | None => raise TypeError
               end ;;
             print (Pairs inRasterList) ;;;
             proc env (ExtractMultiValuesToPoints out inRasterList "NONE") ;;;
             print (Text ("Processed " +:+ Py.str (Z.of_nat (length inRasterList))
                          +:+ " rasters. And saved to " +:+ out)))) as Hrest.
  { apply steady_bind; [exact same_settings_trans | |].
    - apply steady_list_rasters. exact same_settings_log.
    - intros rasters. apply extraction_settings. }
  destruct (Hrest w2) as [Hw Ho]. split.
  - intros _. by rewrite Hw, Ho.
  - intros Hno. exfalso. apply Hno.
    rewrite Enew. unfold w2. simpl. rewrite Ht1, <- !app_assoc, drop_app_length.
    apply in_or_app. right. by left.
Qed.

(** ** apply_resampling, request by request *)

Lemma resample_loop_jobs `{Runtime} env o cell l :
  plays resample_job (for_each l (resample_one env o cell)) (resample_plan o cell l).
Proof.
  unfold resample_plan. rewrite <- bind_singleton.
  apply plays_for_each. intros raster.
  unfold resample_one. cbv zeta.
  apply (plays_bind _ _ _ [_] []).
  - apply (plays_proc resample_job).
  - intros _. apply plays_print.
Qed.

(** X7.  apply_resampling asks for one resampling per listed raster, in
    listing order.  The resample requests of a run are an initial part of
    the list "for each raster the toolbox listed, in that order: resample
    the raster to resampled_<stem>.tif in the output folder, at the cell
    size given, with NEAREST", and they are that whole list when the run
    returns: no raster is skipped, requested twice or taken out of order,
    and a refused request ends the run with the later rasters untouched. *)
Theorem apply_resampling_in_listing_order `{Runtime} (env : Env)
    (input_folder output_folder cellsize resampling_type : string) (w : World) :
  let run := apply_resampling env input_folder output_folder cellsize resampling_type in
  let requests := omap resample_job (calls (emitted run w)) in
  let plan := resample_plan output_folder cellsize (listed (emitted run w)) in
  requests `prefix_of` plan
  /\ ((run w).1 = Ok tt -> requests = plan).
Proof.
  intros run requests plan.
  subst run requests plan. unfold emitted, apply_resampling.
  rewrite !bind_assign.
  set (w2 := set_overwriteOutput true (set_workspace input_folder w)).
  change (trace w) with (trace w2).
  destruct (ListRasters_reply env w2) as [v|e] eqn:El.
  2:{ rewrite (bind_raised _ _ w2 e (log (Called ListRasters (Raised e)) w2))
        by (unfold list_rasters; by rewrite El).
      cbn [fst snd]. rewrite trace_log, drop_app_length.
      split; [apply prefix_nil | discriminate]. }
  rewrite (bind_ok _ _ w2 v (log (Called ListRasters (Ok (VNames v))) w2))
    by (unfold list_rasters; by rewrite El).
  rewrite (bind_ok _ _ _ tt
             (log (Printed (Names v)) (log (Called ListRasters (Ok (VNames v))) w2)))
    by done.
  set (w3 := log (Printed (Names v)) (log (Called ListRasters (Ok (VNames v))) w2)).
  destruct (ensure_folder_run env output_folder w3) as (pre & w4 & r & Hens & Ht4 & Hpre).
  pose proof (makedirs_projected resample_job output_folder pre eq_refl Hpre) as Hpc.
  assert (trace w4 = trace w2 ++ [Called ListRasters (Ok (VNames v))]
                       ++ [Printed (Names v)] ++ pre) as Ht.
  { rewrite Ht4. unfold w3. by rewrite !trace_log, <- !app_assoc. }
  assert (forall new,
            omap resample_job
              (calls ([Called ListRasters (Ok (VNames v))] ++ [Printed (Names v)]
                      ++ pre ++ new))
            = omap resample_job (calls new)) as Hproj.
  { intros new. rewrite !calls_app, !omap_app, Hpc. reflexivity. }
  destruct r as [[]|e].
  2:{ rewrite (bind_raised _ _ _ _ _ Hens). cbn [fst snd].
      rewrite Ht, drop_app_length.
      rewrite <- (app_nil_r pre), Hproj.
      split; [apply prefix_nil | discriminate]. }
  rewrite (bind_ok _ _ _ _ _ Hens).
  destruct v as [l|]; cbn [for_each_in raise fst snd].
  2:{ rewrite Ht, drop_app_length.
      rewrite <- (app_nil_r pre), Hproj.
      split; [apply prefix_nil | discriminate]. }
  destruct (resample_loop_jobs env output_folder cellsize l w4) as (new & En & Pn & Fn).
  rewrite En, Ht, <- !app_assoc, !drop_app_length.
  rewrite listed_first, Hproj.
  split; [done |]. intros Hok. by apply (Fn tt).
Qed.

Example resampling_two_rasters :
  calls (emitted (@apply_resampling posix (calm [] ["B04_a.tiff"; "B08_a.tiff"] "0")
                    "sentinel_rasters" "resampled_rasters" "10 10" "BILINEAR")
                 empty_world)
  = [ListRasters; os_makedirs "resampled_rasters";
     Resample_management "B04_a.tiff" "resampled_rasters/resampled_B04_a.tif"
       "10 10" "NEAREST";
     Resample_management "B08_a.tiff" "resampled_rasters/resampled_B08_a.tif"
       "10 10" "NEAREST"].
Proof. vm_compute. reflexivity. Qed.

(** ** A workspace the toolbox cannot list *)

Lemma ensure_folder_cases `{Runtime} env o w :
  (o ∈ paths w /\ ensure_folder env o w = (Ok tt, w))
  \/ ((o ∉ paths w)
      /\ ensure_folder env o w
         = (Ok tt, add_path o (log (Called (os_makedirs o) (Ok VNone)) w)))
  \/ ((o ∉ paths w)
      /\ exists e, ensure_folder env o w
                   = (Raised e, log (Called (os_makedirs o) (Raised e)) w)).
Proof.
  unfold ensure_folder, bind, path_exists, makedirs.
  case_bool_decide as Hin; simpl.
  - by left.
  - right. rewrite bool_decide_eq_false_2 by done.
    destruct (proc_reply env w _) as [[]|e]; [left | right]; (split; [done |]).
    + done.
    + by exists e.
Qed.





Example unreadable_workspace_leaves_folder :
  let run := @apply_focal_statistics posix unreadable "resampled_rasters"
               "focal_rasters" [10; 15] "MEAN" in
  (run empty_world).1 = Raised TypeError
  /\ calls (emitted run empty_world) = [ListRasters; os_makedirs "focal_rasters"]
  /\ bool_decide ("focal_rasters" ∈ paths (run empty_world).2) = true.
Proof. vm_compute. repeat split; reflexivity. Qed.

(** ** create_fishnet, read by read *)

Lemma read_cases env r p w :
  (exists s, get_raster_properties env r p w
             = (Ok s, log (Called (GetRasterProperties_management r p)
                                  (Ok (VResult s))) w))
  \/ (exists e, get_raster_properties env r p w
                = (Raised e, log (Called (GetRasterProperties_management r p)
                                         (Raised e)) w)).
Proof.
  unfold get_raster_properties.
  destruct (GetRasterProperties_reply env w r p) as [s|e]; [left | right]; by eexists.
Qed.

(** one read of [create_fishnet]: either it is refused, which settles the
    run, or it is answered and the run goes on *)
Ltac next_read env r p w answers :=
  let s := fresh "s" in
  let e := fresh "e" in
  let E := fresh "E" in
  destruct (read_cases env r p w) as [[s E]|[e E]];
  [ rewrite (bind_ok _ _ _ _ _ E)
  | rewrite (bind_raised _ _ _ _ _ E); cbn [fst snd];
    eexists; split; [rewrite !trace_log, <- ?app_assoc; reflexivity |];
    exact (fishnet_read_refused r _ _ answers e ltac:(simpl; lia)) ].

Lemma fishnet_reads_run `{Runtime} env r o name w :
  let rest :=
    (raster_left <- get_raster_properties env r "LEFT" ;;
     raster_bottom <- get_raster_properties env r "BOTTOM" ;;
     raster_right <- get_raster_properties env r "RIGHT" ;;
     raster_top <- get_raster_properties env r "TOP" ;;
     raster_ncols <- get_raster_properties env r "COLUMNCOUNT" ;;
     raster_nrows <- get_raster_properties env r "ROWCOUNT" ;;
     bottom <- eval (int_of_str raster_bottom) ;;
     proc env (CreateFishnet
                 (path_join o "output_name")
                 (raster_left +:+ " " +:+ raster_bottom)
                 (raster_left +:+ " " +:+ Py.str (bottom + 10))
                 10 10 raster_nrows raster_ncols "LABELS" "POLYLINE") ;;;
     print (Text ("Processed " +:+ r +:+ ". Fishnet " +:+ name
                  +:+ " saved to " +:+ o))) in
  exists t, trace (rest w).2 = trace w ++ t /\ fishnet_run r o name t (rest w).1.
Proof.
  intros rest. subst rest.
  next_read env r "LEFT" w (@nil string).
  match goal with |- context [bind _ _ ?w1] => next_read env r "BOTTOM" w1 [s] end.
  match goal with |- context [bind _ _ ?w1] => next_read env r "RIGHT" w1 [s; s0] end.
  match goal with |- context [bind _ _ ?w1] => next_read env r "TOP" w1 [s; s0; s1] end.
  match goal with |- context [bind _ _ ?w1] =>
    next_read env r "COLUMNCOUNT" w1 [s; s0; s1; s2] end.
  match goal with |- context [bind _ _ ?w1] =>
    next_read env r "ROWCOUNT" w1 [s; s0; s1; s2; s3] end.
  match goal with |- context [bind _ _ ?w1] => set (w6 := w1) end.
  destruct (int_of_str s0) as [z|e] eqn:Ez.
  2:{ rewrite (bind_raised _ _ w6 e w6) by done. cbn [fst snd].
      eexists. split; [unfold w6; rewrite !trace_log, <- ?app_assoc; reflexivity |].
      exact (fishnet_bottom_not_int r o name s s0 s1 s2 s3 s4 e Ez). }
  rewrite (bind_ok _ _ w6 z w6) by done.
  fold (fishnet_request o s s0 s3 s4 z).
  destruct (proc_reply env w6 (fishnet_request o s s0 s3 s4 z)) as [[]|e] eqn:Ep.
  - rewrite (bind_ok _ _ w6 tt
               (log (Called (fishnet_request o s s0 s3 s4 z) (Ok VNone)) w6))
      by (unfold proc; by rewrite Ep).
    cbn [print fst snd].
    eexists. split; [unfold w6; rewrite !trace_log, <- ?app_assoc; reflexivity |].
    exact (fishnet_made r o name s s0 s1 s2 s3 s4 z Ez).
  - rewrite (bind_raised _ _ w6 e
               (log (Called (fishnet_request o s s0 s3 s4 z) (Raised e)) w6))
      by (unfold proc; by rewrite Ep).
    cbn [fst snd].
    eexists. split; [unfold w6; rewrite !trace_log, <- ?app_assoc; reflexivity |].
    exact (fishnet_refused r o name s s0 s1 s2 s3 s4 z e Ez).
Qed.

Lemma create_fishnet_run `{Runtime} env r o name w :
  exists made,
    Forall (fun e => exists res, e = Called (os_makedirs o) res) made
    /\ ((exists e, emitted (create_fishnet env r o name) w = made
                   /\ (create_fishnet env r o name w).1 = Raised e
                   /\ made = [Called (os_makedirs o) (Raised e)])
        \/ exists t, emitted (create_fishnet env r o name) w = made ++ t
                     /\ fishnet_run r o name t (create_fishnet env r o name w).1).
Proof.
  unfold emitted, create_fishnet.
  destruct (ensure_folder_cases env o w) as [[Hin E]|[[Hout E]|[Hout [e E]]]].
  - rewrite (bind_ok _ _ _ _ _ E).
    pose proof (fishnet_reads_run env r o name w) as Hr. cbv zeta in Hr.
    destruct Hr as (t & Et & Hrun).
    exists []. split; [constructor |]. right. exists t.
    split; [| exact Hrun]. by rewrite Et, drop_app_length.
  - rewrite (bind_ok _ _ _ _ _ E).
    pose proof (fishnet_reads_run env r o name
                  (add_path o (log (Called (os_makedirs o) (Ok VNone)) w))) as Hr.
    cbv zeta in Hr. destruct Hr as (t & Et & Hrun).
    exists [Called (os_makedirs o) (Ok VNone)]. split.
    + repeat constructor. by eexists.
    + right. exists t. split; [| exact Hrun].
      rewrite Et.
      change (trace (add_path o (log (Called (os_makedirs o) (Ok VNone)) w)))
        with (trace w ++ [Called (os_makedirs o) (Ok VNone)]).
      by rewrite <- app_assoc, drop_app_length.
  - exists [Called (os_makedirs o) (Raised e)]. split.
    + repeat constructor. by eexists.
    + left. exists e. rewrite (bind_raised _ _ _ _ _ E). cbn [fst snd].
      by rewrite trace_log, drop_app_length.
Qed.

(** X9.  What create_fishnet asks for when it returns.  A run that returns
    made, after at most a creation of the output folder, exactly six reads
    of the input raster, in the order LEFT, BOTTOM, RIGHT, TOP, COLUMNCOUNT,
    ROWCOUNT, all answered, then one CreateFishnet request and the closing
    line.  The request writes output_name in the output folder, starts at
    "<LEFT> <BOTTOM>" as read, points its y axis at "<LEFT> <int(BOTTOM) +
    10>", has 10 by 10 cells, as many rows as ROWCOUNT read and as many
    columns as COLUMNCOUNT read; int accepted the BOTTOM answer, and the
    RIGHT and TOP answers are not used. *)
Theorem create_fishnet_request_shape `{Runtime} (env : Env)
    (input_raster output_folder output_name : string) (w : World) :
  let run := create_fishnet env input_raster output_folder output_name in
  (run w).1 = Ok tt ->
  exists made raster_left raster_bottom raster_right raster_top
         raster_ncols raster_nrows bottom,
    Forall (fun e => e = Called (os_makedirs output_folder) (Ok VNone)) made
    /\ (length made <= 1)%nat
    /\ int_of_str raster_bottom = Ok bottom
    /\ emitted run w
       = made
         ++ property_reads input_raster
              [raster_left; raster_bottom; raster_right; raster_top;
               raster_ncols; raster_nrows]
         ++ [Called (CreateFishnet (path_join output_folder "output_name")
                       (raster_left +:+ " " +:+ raster_bottom)
                       (raster_left +:+ " " +:+ Py.str (bottom + 10))
                       10 10 raster_nrows raster_ncols "LABELS" "POLYLINE")
                    (Ok VNone);
             Printed (Text ("Processed " +:+ input_raster +:+ ". Fishnet "
                            +:+ output_name +:+ " saved to " +:+ output_folder))].
Proof.
  intros run Hok. subst run.
  unfold emitted, create_fishnet in *.
  destruct (ensure_folder_cases env output_folder w)
    as [[Hin E]|[[Hout E]|[Hout [e E]]]].
  3:{ rewrite (bind_raised _ _ _ _ _ E) in Hok. discriminate. }
  all: rewrite (bind_ok _ _ _ _ _ E) in *.
  all: match goal with
       | H : (bind _ _ ?w1).1 = Ok tt |- _ =>
           pose proof (fishnet_reads_run env input_raster output_folder output_name w1)
             as Hr; cbv zeta in Hr; destruct Hr as (t & Et & Hrun);
           rewrite H in Hrun; rewrite Et
       end.
  all: inversion Hrun as [| | |l b r t' nc nr z Hint Ht]; subst t; clear Hrun.
  - exists [], l, b, r, t', nc, nr, z.
    split; [constructor |]. split; [simpl; lia |]. split; [done |].
    by rewrite drop_app_length.
  - exists [Called (os_makedirs output_folder) (Ok VNone)], l, b, r, t', nc, nr, z.
    split; [by repeat constructor |]. split; [simpl; lia |]. split; [done |].
    change (trace (add_path output_folder
                     (log (Called (os_makedirs output_folder) (Ok VNone)) w)))
      with (trace w ++ [Called (os_makedirs output_folder) (Ok VNone)]).
    by rewrite <- app_assoc, drop_app_length.
Qed.

Lemma create_fishnet_request_shape_witness :
  exists made raster_left raster_bottom raster_right raster_top
         raster_ncols raster_nrows bottom,
    Forall (fun e => e = Called (os_makedirs "fishnet") (Ok VNone)) made
    /\ (length made <= 1)%nat
    /\ int_decimal raster_bottom = Ok bottom
    /\ emitted (@create_fishnet posix (calm [] [] "3756000") "am_t_f.tif" "fishnet"
                  "Fishnet") empty_world
       = made
         ++ property_reads "am_t_f.tif"
              [raster_left; raster_bottom; raster_right; raster_top;
               raster_ncols; raster_nrows]
         ++ [Called (CreateFishnet (posix_join "fishnet" "output_name")
                       (raster_left +:+ " " +:+ raster_bottom)
                       (raster_left +:+ " " +:+ Py.str (bottom + 10))
                       10 10 raster_nrows raster_ncols "LABELS" "POLYLINE")
                    (Ok VNone);
             Printed (Text ("Processed " +:+ "am_t_f.tif" +:+ ". Fishnet "
                            +:+ "Fishnet" +:+ " saved to " +:+ "fishnet"))].
Proof.
  apply (@create_fishnet_request_shape posix (calm [] [] "3756000") "am_t_f.tif"
           "fishnet" "Fishnet" empty_world).
  vm_compute. reflexivity.
Defined.

Example fishnet_of_a_raster :
  calls (emitted (@create_fishnet posix (calm [] [] "3756000") "am_t_f.tif" "fishnet"
                    "Fishnet") empty_world)
  = [os_makedirs "fishnet";
     GetRasterProperties_management "am_t_f.tif" "LEFT";
     GetRasterProperties_management "am_t_f.tif" "BOTTOM";
     GetRasterProperties_management "am_t_f.tif" "RIGHT";
     GetRasterProperties_management "am_t_f.tif" "TOP";
     GetRasterProperties_management "am_t_f.tif" "COLUMNCOUNT";
     GetRasterProperties_management "am_t_f.tif" "ROWCOUNT";
     CreateFishnet "fishnet/output_name" "3756000 3756000" "3756000 3756010"
       10 10 "3756000" "3756000" "LABELS" "POLYLINE"].
Proof. vm_compute. reflexivity. Qed.

Lemma not_among_makedirs o made c r :
  Forall (fun e => exists res, e = Called (os_makedirs o) res) made ->
  (forall p, c <> os_makedirs p) ->
  ~ In (Called c r) made.
Proof.
  intros Hmade Hc Hin. rewrite Forall_forall in Hmade.
  destruct (Hmade _ (proj2 (list_elem_of_In _ _) Hin)) as [res Hres].
  inversion Hres; subst. by apply (Hc o).
Qed.

(** X10.  create_fishnet needs an integer BOTTOM.  If the BOTTOM of the
    input raster was read and the answer is not something int accepts (an
    extent with decimals, say), the run makes no CreateFishnet request and
    raises: the error of int, after all six properties were read, unless
    one of the four later reads was refused first, in which case it raises
    that refusal. *)
Theorem create_fishnet_needs_integer_bottom `{Runtime} (env : Env)
    (input_raster output_folder output_name : string) (w : World)
    (raster_bottom : string) (e : Exn) :
  let run := create_fishnet env input_raster output_folder output_name in
  In (Called (GetRasterProperties_management input_raster "BOTTOM")
             (Ok (VResult raster_bottom))) (emitted run w) ->
  int_of_str raster_bottom = Raised e ->
  omap fishnet_target (calls (emitted run w)) = []
  /\ (((run w).1 = Raised e
       /\ exists made l r t nc nr,
            emitted run w
            = made ++ property_reads input_raster [l; raster_bottom; r; t; nc; nr])
      \/ exists property e',
           In property ["RIGHT"; "TOP"; "COLUMNCOUNT"; "ROWCOUNT"]
           /\ (run w).1 = Raised e'
           /\ last (emitted run w)
              = Some (Called (GetRasterProperties_management input_raster property)
                             (Raised e'))).
Proof.
  intros run Hin Hint. subst run.
  destruct (create_fishnet_run env input_raster output_folder output_name w)
    as (made & Hmade & [(e0 & Em & _ & ->)|(t & Et & Hrun)]).
  { rewrite Em in Hin. simpl in Hin. destruct Hin as [Hin|[]]. discriminate. }
  rewrite Et in *.
  assert (omap fishnet_target (calls made) = []) as Hnone
    by (by apply (makedirs_projected fishnet_target output_folder)).
  apply in_app_or in Hin as [Hin|Hin].
  { exfalso. revert Hin. by apply (not_among_makedirs output_folder). }
  rewrite calls_app, omap_app, Hnone, app_nil_l.
  remember (create_fishnet env input_raster output_folder output_name w).1 as res
    eqn:Eres.
  destruct Hrun as [answers e' Hlen|l b r t nc nr e' Hb|l b r t nc nr z e' Hb
                    |l b r t nc nr z Hb].
  - destruct answers as [|l [|b [|r [|t [|nc [|nr rest]]]]]];
      try (simpl in Hlen; lia); simpl in Hin;
      repeat match goal with
             | H : _ \/ _ |- _ => destruct H as [H|H]
             | H : Called _ _ = Called _ _ |- _ => inversion H; clear H
             | H : False |- _ => destruct H
             end; subst.
    all: split; [reflexivity |]; right.
    + exists "RIGHT", e'. split; [simpl; tauto |]. split; [done |].
      by rewrite last_app.
    + exists "TOP", e'. split; [simpl; tauto |]. split; [done |].
      by rewrite last_app.
    + exists "COLUMNCOUNT", e'. split; [simpl; tauto |]. split; [done |].
      by rewrite last_app.
    + exists "ROWCOUNT", e'. split; [simpl; tauto |]. split; [done |].
      by rewrite last_app.
  - simpl in Hin.
    repeat match goal with
           | H : _ \/ _ |- _ => destruct H as [H|H]
           | H : Called _ _ = Called _ _ |- _ => inversion H; clear H
           | H : False |- _ => destruct H
           end; subst.
    split; [reflexivity |]. left. split; [congruence |].
    by exists made, l, r, t, nc, nr.
  - exfalso. simpl in Hin.
    repeat match goal with
           | H : _ \/ _ |- _ => destruct H as [H|H]
           | H : Called _ _ = Called _ _ |- _ => inversion H; clear H
           | H : False |- _ => destruct H
           end; subst; congruence.
  - exfalso. simpl in Hin.
    repeat match goal with
           | H : _ \/ _ |- _ => destruct H as [H|H]
           | H : Called _ _ = Called _ _ |- _ => inversion H; clear H
           | H : False |- _ => destruct H
           end; subst; congruence.
Qed.

Lemma create_fishnet_needs_integer_bottom_witness :
  omap fishnet_target
    (calls (emitted (@create_fishnet posix (calm [] [] "3756000.5") "am_t_f.tif"
                       "fishnet" "Fishnet") empty_world))
  = [].
Proof.
  apply (@create_fishnet_needs_integer_bottom posix (calm [] [] "3756000.5")
           "am_t_f.tif" "fishnet" "Fishnet" empty_world "3756000.5" ValueError).
  - vm_compute. tauto.
  - vm_compute. reflexivity.
Defined.

Example fishnet_of_a_raster_with_decimals :
  let run := @create_fishnet posix (calm [] [] "3756000.5") "am_t_f.tif" "fishnet"
               "Fishnet" in
  (run empty_world).1 = Raised ValueError
  /\ calls (emitted run empty_world)
     = [os_makedirs "fishnet";
        GetRasterProperties_management "am_t_f.tif" "LEFT";
        GetRasterProperties_management "am_t_f.tif" "BOTTOM";
        GetRasterProperties_management "am_t_f.tif" "RIGHT";
        GetRasterProperties_management "am_t_f.tif" "TOP";
        GetRasterProperties_management "am_t_f.tif" "COLUMNCOUNT";
        GetRasterProperties_management "am_t_f.tif" "ROWCOUNT"].
Proof. vm_compute. split; reflexivity. Qed.

(** ** apply_focal_statistics: what is saved *)

Section Leaves.
Context (P : list Event -> Prop).
Hypothesis P_nil : P [].
Hypothesis P_app : forall t1 t2, P t1 -> P t2 -> P (t1 ++ t2).

Lemma leaves_ret {A} (a : A) : leaves P (ret a).
Proof. intros w. exists []. by rewrite app_nil_r. Qed.

Lemma leaves_bind {A B} (m : M A) (k : A -> M B) :
  leaves P m -> (forall a, leaves P (k a)) -> leaves P (bind m k).
Proof.
  intros Hm Hk w. destruct (Hm w) as (n1 & E1 & P1).
  destruct (m w) as [[a|e] w1] eqn:Em; simpl in *.
  - rewrite (bind_ok _ _ _ _ _ Em).
    destruct (Hk a w1) as (n2 & E2 & P2).
    exists (n1 ++ n2). split; [by rewrite E2, E1, app_assoc |]. by apply P_app.
  - rewrite (bind_raised _ _ _ _ _ Em). by exists n1.
Qed.

Lemma leaves_for_each {A} (l : list A) (body : A -> M unit) :
  (forall x, In x l -> leaves P (body x)) -> leaves P (for_each l body).
Proof.
  induction l as [|x l IH]; intros Hb.
  - apply leaves_ret.
  - cbn [for_each]. apply leaves_bind.
    + apply Hb. by left.
    + intros _. apply IH. intros y Hy. apply Hb. by right.
Qed.
End Leaves.

Lemma saves_follow_nil `{Runtime} o st radius : saves_follow_requests o st radius [].
Proof. intros j h path r Hj. by rewrite lookup_nil in Hj. Qed.

Lemma saves_follow_app `{Runtime} o st radius t1 t2 :
  saves_follow_requests o st radius t1 -> saves_follow_requests o st radius t2 ->
  saves_follow_requests o st radius (t1 ++ t2).
Proof.
  intros H1 H2 j h path r Hj.
  destruct (decide (j < length t1)%nat) as [Hlt|Hge].
  - rewrite lookup_app_l in Hj by done.
    destruct (H1 _ _ _ _ Hj) as (i & raster & rad & -> & Hi & Hrad & Hpath).
    exists i, raster, rad. split; [done |]. split; [| done].
    rewrite lookup_app_l; [done | lia].
  - rewrite lookup_app_r in Hj by lia.
    destruct (H2 _ _ _ _ Hj) as (i & raster & rad & Ej & Hi & Hrad & Hpath).
    exists (length t1 + i)%nat, raster, rad. split; [lia |]. split; [| done].
    rewrite lookup_app_r by lia.
    by replace (length t1 + i - length t1)%nat with i by lia.
Qed.

Lemma saves_follow_without_saves `{Runtime} o st radius t :
  Forall not_a_save t -> saves_follow_requests o st radius t.
Proof.
  intros Ht j h path r Hj. exfalso.
  rewrite Forall_forall in Ht.
  apply (Ht _ (list_elem_of_lookup_2 _ _ _ Hj)).
Qed.

Lemma focal_one_saves_its_request `{Runtime} env o st radius raster rad :
  In rad radius ->
  leaves (saves_follow_requests o st radius) (focal_one env o st raster rad).
Proof.
  intros Hrad w. unfold focal_one, bind, focal_statistics, proc, print.
  destruct (FocalStatistics_reply env w raster _ st) as [h|e]; cbn [fst snd].
  2:{ eexists [_]. split; [by rewrite trace_log |].
      apply saves_follow_without_saves. by repeat constructor. }
  destruct (proc_reply env _ (Raster_save h _)) as [[]|e]; cbn [fst snd].
  - eexists [_; _; _].
    split; [by rewrite !trace_log, <- !app_assoc |].
    intros [|[|[|j]]] h' path r Hj; simpl in Hj; try discriminate.
    inversion Hj; subst. by exists 0%nat, raster, rad.
  - eexists [_; _].
    split; [by rewrite !trace_log, <- !app_assoc |].
    intros [|[|j]] h' path r Hj; simpl in Hj; try discriminate.
    inversion Hj; subst. by exists 0%nat, raster, rad.
Qed.

Lemma focal_loops_save_their_requests `{Runtime} env o st radius rasters :
  leaves (saves_follow_requests o st radius)
    (for_each rasters (fun raster => for_each radius (focal_one env o st raster))).
Proof.
  apply leaves_for_each;
    [apply saves_follow_nil | apply saves_follow_app |].
  intros raster _.
  apply leaves_for_each;
    [apply saves_follow_nil | apply saves_follow_app |].
  intros rad Hrad. by apply focal_one_saves_its_request.
Qed.

(** X11.  apply_focal_statistics saves what it just computed.  In a run,
    every save request comes right after a focal-statistics request that
    was answered; it saves the raster that request returned; the request
    was for a circle of one of the given radii, in cells, with the
    statistics type given; and the save goes to focal_<rad>_<stem>.tif of
    that request's raster and radius in the output folder.  No result is
    saved twice or under another request's name. *)
Theorem focal_saves_follow_their_requests `{Runtime} (env : Env)
    (input_folder output_folder : string) (radius : list Z)
    (statistic_type : string) (w : World) :
  let run := apply_focal_statistics env input_folder output_folder radius statistic_type in
  forall (j : nat) handle path r,
    emitted run w !! j = Some (Called (Raster_save handle path) r) ->
    exists (i : nat) raster rad,
      j = S i
      /\ emitted run w !! i
         = Some (Called (FocalStatistics raster (NbrCircle rad "CELL") statistic_type)
                        (Ok (VRaster handle)))
      /\ In rad radius
      /\ path = path_join output_folder
                  ("focal_" +:+ Py.str rad +:+ "_" +:+ (splitext raster).1 +:+ ".tif").
Proof.
  intros run. subst run.
  change (saves_follow_requests output_folder statistic_type radius
            (emitted (apply_focal_statistics env input_folder output_folder radius
                        statistic_type) w)).
  unfold emitted, apply_focal_statistics.
  rewrite !bind_assign.
  set (w2 := set_overwriteOutput true (set_workspace input_folder w)).
  change (trace w) with (trace w2).
  destruct (ListRasters_reply env w2) as [v|e] eqn:El.
  2:{ rewrite (bind_raised _ _ w2 e (log (Called ListRasters (Raised e)) w2))
        by (unfold list_rasters; by rewrite El).
      cbn [fst snd]. rewrite trace_log, drop_app_length.
      apply saves_follow_without_saves. by repeat constructor. }
  rewrite (bind_ok _ _ w2 v (log (Called ListRasters (Ok (VNames v))) w2))
    by (unfold list_rasters; by rewrite El).
  set (w3 := log (Called ListRasters (Ok (VNames v))) w2).
  destruct (ensure_folder_run env output_folder w3) as (pre & w4 & r & Hens & Ht4 & Hpre).
  assert (trace w4 = trace w2 ++ [Called ListRasters (Ok (VNames v))] ++ pre) as Ht.
  { rewrite Ht4. unfold w3. by rewrite trace_log, <- app_assoc. }
  assert (saves_follow_requests output_folder statistic_type radius
            ([Called ListRasters (Ok (VNames v))] ++ pre)) as Hsetup.
  { apply saves_follow_without_saves. apply Forall_app. split.
    - by repeat constructor.
    - eapply Forall_impl; [exact Hpre |]. by intros ev [res ->]. }
  destruct r as [[]|e].
  2:{ rewrite (bind_raised _ _ _ _ _ Hens). cbn [fst snd].
      by rewrite Ht, drop_app_length. }
  rewrite (bind_ok _ _ _ _ _ Hens).
  destruct v as [l|]; cbn [for_each_in raise fst snd].
  2:{ by rewrite Ht, drop_app_length. }
  destruct (focal_loops_save_their_requests env output_folder statistic_type radius
              l w4) as (new & En & Pn).
  rewrite En, Ht, <- !app_assoc, !drop_app_length.
  rewrite app_assoc. by apply saves_follow_app.
Qed.

(** ** The three extractions of the script *)

Lemma quiet_projection {B} (pc : Call -> option B) new :
  Forall (on_calls (fun c => pc c = None)) new -> omap pc (calls new) = [].
Proof.
  induction 1 as [|ev new Hev _ IH]; [done |].
  destruct ev as [c r|l]; unfold calls in *; simpl in *; [| done].
  by rewrite Hev.
Qed.

Lemma plays_quiet {B} (pc : Call -> option B) {A} (m : M A) :
  emits_only (on_calls (fun c => pc c = None)) m -> plays pc m [].
Proof.
  intros Hm w. destruct (Hm w) as (new & E & Hall).
  exists new. split; [done |].
  by rewrite (quiet_projection pc new Hall).
Qed.

Lemma extract_values_steps `{Runtime} env pts rf o f :
  plays transect_step (extract_values env pts rf o f)
    [Copied pts (path_join o f); Extracted (path_join o f)].
Proof.
  unfold extract_values.
  apply (plays_bind _ _ _ [] [Copied pts (path_join o f); Extracted (path_join o f)]).
  { apply plays_quiet. walk_events. }
  intros _. cbv zeta.
  apply (plays_bind _ _ _ [Copied pts (path_join o f)] [Extracted (path_join o f)]).
  { apply (plays_proc transect_step). }
  intros _.
  apply (plays_bind _ _ _ [] [Extracted (path_join o f)]).
  { apply plays_quiet. walk_events. }
  intros _.
  apply (plays_bind _ _ _ [] [Extracted (path_join o f)]).
  { apply plays_quiet. walk_events. }
  intros _.
  apply (plays_bind _ _ _ [] [Extracted (path_join o f)]).
  { apply plays_quiet. walk_events. }
  intros rasters.
  apply (plays_bind _ _ _ [] [Extracted (path_join o f)]).
  { apply plays_quiet. walk_events. }
  intros inRasterList.
  apply (plays_bind _ _ _ [] [Extracted (path_join o f)]).
  { apply plays_print. }
  intros _.
  apply (plays_bind _ _ _ [Extracted (path_join o f)] []).
  { apply (plays_proc transect_step). }
  intros _. apply plays_print.
Qed.

Lemma keeps_paths_refl w : keeps_paths w w.
Proof. by intros x. Qed.

Lemma keeps_paths_trans w1 w2 w3 :
  keeps_paths w1 w2 -> keeps_paths w2 w3 -> keeps_paths w1 w3.
Proof. intros H1 H2 x Hx. by apply H2, H1. Qed.

Lemma keeps_paths_log e w : keeps_paths w (log e w).
Proof. by intros x. Qed.

Lemma steady_assign R (f : World -> World) :
  (forall w, R w (f w)) -> steady R (assign f).
Proof. intros Hf w. apply Hf. Qed.

Ltac paths_side :=
  first [ exact keeps_paths_refl | exact keeps_paths_trans | exact keeps_paths_log ].

(** [extract_values] from the copy on: no directory is asked for, no path
    is lost *)
Lemma extraction_after_folder `{Runtime} env pts rf out :
  let rest :=
    (proc env (CopyFeatures pts out) ;;;
     assign (set_workspace rf) ;;;
     assign (set_overwriteOutput true) ;;;
     rasters <- list_rasters env ;;
     inRasterList <-
       match rasters with
       | Some l => eval (build_inRasterList l [])
       | None => raise TypeError
       end ;;
     print (Pairs inRasterList) ;;;
     proc env (ExtractMultiValuesToPoints out inRasterList "NONE") ;;;
     print (Text ("Processed " +:+ Py.str (Z.of_nat (length inRasterList))
                  +:+ " rasters. And saved to " +:+ out))) in
  emits_only (on_calls (fun c => makedirs_request c = None)) rest
  /\ steady keeps_paths rest.
Proof.
  intros rest. subst rest. split.
  - walk_events.
  - repeat first [ progress (walk_steady paths_side)
                 | apply steady_assign; by intros w x ].
Qed.

Lemma extract_values_folder_once `{Runtime} env pts rf o f :
  folder_once o (extract_values env pts rf o f).
Proof.
  intros w. unfold extract_values.
  destruct (extraction_after_folder env pts rf (path_join o f)) as [Hquiet Hkeeps].
  cbv zeta in Hquiet, Hkeeps.
  destruct (ensure_folder_cases env o w) as [[Hin E]|[[Hout E]|[Hout [e E]]]].
  - rewrite (bind_ok _ _ _ _ _ E). cbv zeta.
    destruct (Hquiet w) as (new & En & Hnew).
    exists new. split; [done |].
    rewrite (quiet_projection makedirs_request new Hnew).
    split; [done |]. split; [by left |].
    intros _. by apply (Hkeeps w).
  - rewrite (bind_ok _ _ _ _ _ E). cbv zeta.
    set (w1 := add_path o (log (Called (os_makedirs o) (Ok VNone)) w)).
    destruct (Hquiet w1) as (new & En & Hnew).
    exists ([Called (os_makedirs o) (Ok VNone)] ++ new). split.
    { rewrite En. unfold w1.
      change (trace (add_path o (log (Called (os_makedirs o) (Ok VNone)) w)))
        with (trace w ++ [Called (os_makedirs o) (Ok VNone)]).
      by rewrite <- app_assoc. }
    rewrite calls_app, omap_app, (quiet_projection makedirs_request new Hnew).
    split; [done |]. split; [by right |].
    intros _. apply (Hkeeps w1).
    change (o ∈ {[o]} ∪ paths (log (Called (os_makedirs o) (Ok VNone)) w)).
    apply elem_of_union_l. by apply elem_of_singleton.
  - rewrite (bind_raised _ _ _ _ _ E). cbn [fst snd].
    exists [Called (os_makedirs o) (Raised e)]. split; [by rewrite trace_log |].
    split; [done |]. split; [by right | discriminate].
Qed.

Lemma folder_once_then o (m k : M unit) :
  folder_once o m -> folder_once o k -> folder_once o (m ;;; k).
Proof.
  intros Hm Hk w. destruct (Hm w) as (n1 & E1 & Hin1 & Hreq1 & Hok1).
  destruct (m w) as [[[]|e] w1] eqn:Em; cbn [fst snd] in *.
  - rewrite (bind_ok _ _ _ _ _ Em).
    destruct (Hk w1) as (n2 & E2 & Hin2 & Hreq2 & Hok2).
    rewrite (Hin2 (Hok1 eq_refl)) in *.
    exists (n1 ++ n2). split; [by rewrite E2, E1, app_assoc |].
    rewrite calls_app, omap_app, (Hin2 (Hok1 eq_refl)), app_nil_r.
    split; [done |]. by split.
  - rewrite (bind_raised _ _ _ _ _ Em). exists n1.
    split; [done |]. split; [done |]. split; [done | discriminate].
Qed.

(** X12.  The script extracts its three transects in turn.  The copy and
    extraction requests of the script's three extract_values calls are an
    initial part of: copy am_trav.shp to am_output.shp, extract into
    am_output.shp, then the same for af and for pm, each output in the
    shapefiles folder of the project; they are all six when the script
    returns.  So a transect is finished before the next is copied, the
    extractions only ever get the copies, and an exception in one call
    leaves the later transects untouched.  Over the whole run at most one
    directory is asked for, the shapefiles folder, and none when it
    exists. *)
Theorem transects_extracted_in_turn `{Runtime} (env : Env) (w : World) :
  let run := extract_transects env in
  let steps := omap transect_step (calls (emitted run w)) in
  let shapefiles := path_join project_dir "shapefiles" in
  let transects := path_join project_dir "CAPA_transects" in
  let plan :=
    [Copied (path_join transects "am_trav.shp") (path_join shapefiles "am_output.shp");
     Extracted (path_join shapefiles "am_output.shp");
     Copied (path_join transects "af_trav.shp") (path_join shapefiles "af_output.shp");
     Extracted (path_join shapefiles "af_output.shp");
     Copied (path_join transects "pm_trav.shp") (path_join shapefiles "pm_output.shp");
     Extracted (path_join shapefiles "pm_output.shp")] in
  steps `prefix_of` plan
  /\ ((run w).1 = Ok tt -> steps = plan)
  /\ (omap makedirs_request (calls (emitted run w)) = []
      \/ omap makedirs_request (calls (emitted run w)) = [shapefiles])
  /\ (shapefiles ∈ paths w -> omap makedirs_request (calls (emitted run w)) = []).
Proof.
  intros run steps shapefiles transects plan.
  assert (plays transect_step run plan) as Hplays.
  { subst run plan. unfold extract_transects.
    apply (plays_bind _ _ _ [_; _] [_; _; _; _]); [apply extract_values_steps |].
    intros _.
    apply (plays_bind _ _ _ [_; _] [_; _]); [apply extract_values_steps |].
    intros _. apply extract_values_steps. }
  destruct (plays_emitted transect_step run plan w Hplays) as [Hpre Hfull].
  split; [exact Hpre |]. split; [by apply Hfull |].
  assert (folder_once shapefiles run) as Honce.
  { subst run. unfold extract_transects.
    apply folder_once_then; [apply extract_values_folder_once |].
    apply folder_once_then; apply extract_values_folder_once. }
  destruct (Honce w) as (new & En & Hin & Hreq & _).
  rewrite (emitted_eq _ _ _ En). by split.
Qed.

Example transects_on_a_fresh_project :
  calls (emitted (@extract_transects posix (calm [] ["focal_10_B04.tif"] "0"))
                 empty_world)
  = [os_makedirs (posix_join project_dir "shapefiles");
     CopyFeatures (posix_join (posix_join project_dir "CAPA_transects") "am_trav.shp")
                  (posix_join (posix_join project_dir "shapefiles") "am_output.shp");
     ListRasters;
     ExtractMultiValuesToPoints
       (posix_join (posix_join project_dir "shapefiles") "am_output.shp")
       [("focal_10_B04.tif", "B04_100m")] "NONE";
     CopyFeatures (posix_join (posix_join project_dir "CAPA_transects") "af_trav.shp")
                  (posix_join (posix_join project_dir "shapefiles") "af_output.shp");
     ListRasters;
     ExtractMultiValuesToPoints
       (posix_join (posix_join project_dir "shapefiles") "af_output.shp")
       [("focal_10_B04.tif", "B04_100m")] "NONE";
     CopyFeatures (posix_join (posix_join project_dir "CAPA_transects") "pm_trav.shp")
                  (posix_join (posix_join project_dir "shapefiles") "pm_output.shp");
     ListRasters;
     ExtractMultiValuesToPoints
       (posix_join (posix_join project_dir "shapefiles") "pm_output.shp")
       [("focal_10_B04.tif", "B04_100m")] "NONE"].
Proof. vm_compute. reflexivity. Qed.

(** ** rename_rasters: the extension of a seven-token name *)











Example seven_token_name_renamed :
  renames (emitted (@rename_rasters posix
                      (calm ["2022_09_22_a_Sentinel-2_L2A_B04.tiff"] [] "0")
                      "sentinel_rasters") empty_world)
  = [("sentinel_rasters/2022_09_22_a_Sentinel-2_L2A_B04.tiff",
      "sentinel_rasters/Sentinel-2_L2A_B04.tiff.tiff")].
Proof. vm_compute. reflexivity. Qed.

Lemma focal_saves_follow_their_requests_witness :
  exists (i : nat) raster rad,
    3%nat = S i
    /\ emitted (@apply_focal_statistics posix (calm [] ["a.tif"] "0")
                  "resampled_rasters" "focal_rasters" [10] "MEAN") empty_world !! i
       = Some (Called (FocalStatistics raster (NbrCircle rad "CELL") "MEAN")
                      (Ok (VRaster 2)))
    /\ In rad [10]
    /\ "focal_rasters/focal_10_a.tif"
       = posix_join "focal_rasters"
           ("focal_" +:+ Py.str rad +:+ "_" +:+ (@splitext posix raster).1 +:+ ".tif").
Proof.
  apply (@focal_saves_follow_their_requests posix (calm [] ["a.tif"] "0")
           "resampled_rasters" "focal_rasters" [10] "MEAN" empty_world 3%nat 2%nat
           "focal_rasters/focal_10_a.tif" (Ok VNone)).
  vm_compute. reflexivity.
Defined.
